(** * The factory environment life cycle (mill/setup.py)

    A shallow embedding of [FactoryEnv] from [mill/setup.py]: the species
    table [meta], the constructor [__init__], the staleness check
    [check_spotchange], the registration [register_finished], the
    kickstart and refresh hooks, and the entry points [setup] and [init].

    Python objects are modelled as they are used by the source:
    - [str] values are [string]; the configuration dict returned by
      [read_config] is a [gmap string string];
    - the species dicts of [meta] are association lists, because
      [check_spotchange] depends on the order in which their keys are
      enumerated;
    - the [loader_commands] dicts live in a heap and are referred to by
      location, because [__init__] copies references (not values) from
      [meta] onto the instance and [setup_anaconda_refresh] assigns into
      the dict it reaches that way;
    - methods run in a state-and-exception monad over the world (file
      system, persisted configuration, heap, clock, event trace) and the
      instance attributes.

    The interactive commands [nuke] and [renew] are not part of the life
    cycle and come last: [nuke] works on the file system and on the
    configuration, [renew] runs shell commands. *)

From Stdlib Require Import NArith String Ascii List Lia.
From stdpp Require Import gmap strings list fin_maps.

Local Open Scope N_scope.

(** ** Decimal text of non-negative integers *)

Module Decimal.

Definition digit_char (d : N) : ascii := ascii_of_N (48 + d).

Definition char_digit (c : ascii) : option N :=
  let n := N_of_ascii c in
  if (48 <=? n) && (n <=? 57) then Some (n - 48) else None.

(** Digits of [n], most significant first, pushed in front of [acc]. *)
Fixpoint dec_digits (fuel : nat) (n : N) (acc : list N) : list N :=
  match fuel with
  | O => acc
  | S fuel' =>
      let acc' := n mod 10 :: acc in
      if n / 10 =? 0 then acc' else dec_digits fuel' (n / 10) acc'
  end.

Definition digits_of (n : N) : list N :=
  dec_digits (N.to_nat (N.succ (N.log2 n))) n [].

Fixpoint string_of_digits (ds : list N) : string :=
  match ds with
  | [] => EmptyString
  | d :: ds' => String (digit_char d) (string_of_digits ds')
  end.

(** [str(n)] / ["%d" % n] for [n >= 0]. *)
Definition str_of_N (n : N) : string := string_of_digits (digits_of n).

Fixpoint parse_digits (s : string) (acc : N) : option N :=
  match s with
  | EmptyString => Some acc
  | String c s' =>
      match char_digit c with
      | Some d => parse_digits s' (10 * acc + d)
      | None => None
      end
  end.

(** [int(s)] on a [str]: the value of a non-empty run of ASCII digits.
    [None] stands for [ValueError].  (Python also accepts a sign,
    surrounding blanks and underscores; stamps contain none of them.) *)
Definition int_of_str (s : string) : option N :=
  match s with
  | EmptyString => None
  | _ => parse_digits s 0
  end.

(** A two-digit zero-padded field ([%m], [%d], [%H], [%M]); the fields
    of a [struct_time] are below 100. *)
Definition pad2 (n : N) : string :=
  String (digit_char (n / 10 mod 10)) (String (digit_char (n mod 10)) EmptyString).

End Decimal.

(** ** Clock readings and stamps *)

(** What [time.localtime] returns, as far as [strftime('%Y%m%d%H%M%s')]
    looks at it: the calendar fields of the local time, and the epoch
    second that [%s] prints. *)
Record struct_time := mk_time {
  tm_year : N;
  tm_mon : N;
  tm_mday : N;
  tm_hour : N;
  tm_min : N;
  tm_epoch : N
}.

Definition wf_time (t : struct_time) : Prop :=
  1 <= tm_mon t <= 12 ∧ 1 <= tm_mday t <= 31 ∧ tm_hour t <= 23 ∧ tm_min t <= 59.

(** [time.strftime('%Y%m%d%H%M%s', t)]: year, month, day, hour and minute
    of the local time, then (the lower-case [%s] of the C library) the
    epoch second, with no separator. *)
Definition strftime_stamp (t : struct_time) : string :=
  Decimal.str_of_N (tm_year t) +:+ Decimal.pad2 (tm_mon t) +:+
  Decimal.pad2 (tm_mday t) +:+ Decimal.pad2 (tm_hour t) +:+
  Decimal.pad2 (tm_min t) +:+ Decimal.str_of_N (tm_epoch t).

(** The local calendar minute [YYYYmmddHHMM] read as one number. *)
Definition calendar_minute (t : struct_time) : N :=
  (((tm_year t * 100 + tm_mon t) * 100 + tm_mday t) * 100 + tm_hour t) * 100
  + tm_min t.

(** ** Python values, dicts and exceptions *)

Definition loc := nat.

(** The kinds of value the species dicts of [meta] hold.  A dict value is
    a reference to a heap object. *)
Inductive value :=
| VStr (s : string)
| VBool (b : bool)
| VList (l : list string)
| VRef (l : loc).

Inductive exn :=
| SystemExit (code : N)
| OSError (path : string)
| ValueError
| TypeError
| UnboundLocalError (var : string)
| AttributeError (name : string)
| KeyError (key : string)
| Exception_ (msg : string)
| CommandError (cmd : string).

(** Insertion-ordered dicts with [str] keys. *)
Section OrderedDict.
Context {A : Type}.

Fixpoint dict_get (d : list (string * A)) (k : string) : option A :=
  match d with
  | [] => None
  | (k', v) :: d' => if String.eqb k' k then Some v else dict_get d' k
  end.

(** [d[k] = v]: an existing key keeps its position, a new key goes last. *)
Fixpoint dict_set (d : list (string * A)) (k : string) (v : A) : list (string * A) :=
  match d with
  | [] => [(k, v)]
  | (k', v') :: d' =>
      if String.eqb k' k then (k', v) :: d' else (k', v') :: dict_set d' k v
  end.

Definition dict_keys (d : list (string * A)) : list string := map fst d.

(** [dict(d)]: a new dict with the same keys bound to the same objects. *)
Definition dict_copy (d : list (string * A)) : list (string * A) := d.
End OrderedDict.

(** ** The species table *)

Definition loader_virtualenv : loc := 0%nat.
Definition loader_anaconda : loc := 1%nat.

(** The two dict objects the literal of [meta] allocates for
    ['loader_commands'].  No statement of the source assigns into [meta]
    or into a species dict once the class body has run, and none changes
    a [reqs] list; the only objects of the table that are assigned into
    are these dicts, so they are the ones kept on the heap. *)
Definition heap_at_import : gmap loc (gmap string string) :=
  {[ loader_virtualenv :=
       {[ "env_activate"%string := "env/bin/activate"%string;
          "env_deactivate"%string := "deactivate"%string ]};
     loader_anaconda :=
       {[ "env_activate"%string := "env/bin/activate"%string;
          "env_deactivate"%string := "deactivate"%string ]} ]}.

(** The literal of [meta].  The keys of a species dict are kept in the
    order of the literal, which is the order in which Python (3.7 and
    later) enumerates them. *)
Definition meta_literal : list (string * list (string * value)) :=
  [ ("virtualenv",
      [ ("reqs", VList ["mill/requirements_virtualenv.txt"]);
        ("setup_kickstart", VStr "setup_virtualenv");
        ("setup_refresh", VStr "setup_virtualenv_refresh");
        ("loader_commands", VRef loader_virtualenv);
        ("welcome", VStr "welcome_message");
        ("source_cmd", VStr "source env/bin/activate") ]);
    ("anaconda",
      [ ("reqs_conda", VList ["mill/requirements_anaconda_conda.txt"]);
        ("reqs_pip", VList ["mill/requirements_anaconda_pip.txt"]);
        ("setup_kickstart", VStr "setup_anaconda");
        ("setup_refresh", VStr "setup_anaconda_refresh");
        ("loader_commands", VRef loader_anaconda);
        ("welcome", VStr "welcome_message");
        ("source_cmd", VStr "source env/bin/activate");
        ("use_python2", VBool true) ]) ]%string.

(** [meta['virtualenv_sandbox'] = dict(meta['virtualenv'])] followed by
    [meta['virtualenv_sandbox']['setup_kickstart'] = 'setup_virtualenv_sandbox']. *)
Definition derive_sandbox (m : list (string * list (string * value)))
  : list (string * list (string * value)) :=
  match dict_get m "virtualenv" with
  | Some base =>
      dict_set m "virtualenv_sandbox"
        (dict_set (dict_copy base) "setup_kickstart" (VStr "setup_virtualenv_sandbox"))
  | None => m
  end.

Definition meta : list (string * list (string * value)) := derive_sandbox meta_literal.

Definition required_folders : list string := ["logs"; "connections"]%string.

(** ** The world and the instance *)

Record node := mk_node { is_dir : bool; mtime : struct_time }.

Inductive event :=
| EMkdir (fn : string)
| ECall (method : string)
| EReturn (method : string)
| EBash (cmd : string) (log : option string)
| EWriteConfig (cfg : gmap string string).

(** The collaborators imported from [config] and [os], which the source
    only calls: [bash] (does the command exit with status 0),
    [is_terminal_command], [abspath] and [os.getcwd]. *)
Record externals := mk_ext {
  bash_ok : string → bool;
  is_terminal_command : string → bool;
  abspath : string → string;
  getcwd : string
}.

Record world := mk_world {
  fs : gmap string node;
  disk : gmap string string;
  heap : gmap loc (gmap string string);
  now : struct_time;
  ext : externals;
  trace : list event
}.

(** The attributes of one [FactoryEnv] object: [config], [timestamp],
    [kind], and then whatever [__init__] copies from the species dict. *)
Record instance := mk_instance {
  self_config : gmap string string;
  self_timestamp : option string;
  self_kind : option string;
  self_dict : list (string * value)
}.

Record state := mk_state { self : instance; w : world }.

Definition blank : instance := mk_instance ∅ None None [].

Inductive outcome (A : Type) :=
| Ok (a : A)
| Raise (e : exn).
Arguments Ok {A} a.
Arguments Raise {A} e.

Definition M (A : Type) : Type := state → outcome A * state.

Definition ret {A} (a : A) : M A := fun st => (Ok a, st).
Definition raise {A} (e : exn) : M A := fun st => (Raise e, st).
Definition bind {A B} (m : M A) (k : A → M B) : M B :=
  fun st => match m st with
            | (Ok a, st') => k a st'
            | (Raise e, st') => (Raise e, st')
            end.

Declare Scope py_scope.
Delimit Scope py_scope with py.
Notation "x <- m ;; k" := (bind m (fun x => k))
  (at level 100, m at next level, right associativity) : py_scope.
Notation "m ;; k" := (bind m (fun _ => k))
  (at level 100, right associativity) : py_scope.
Local Open Scope py_scope.

Definition gets {A} (f : state → A) : M A := fun st => (Ok (f st), st).
Definition set_world (f : world → world) : M unit :=
  fun st => (Ok tt, mk_state (self st) (f (w st))).
Definition set_self (f : instance → instance) : M unit :=
  fun st => (Ok tt, mk_state (f (self st)) (w st)).

Definition emit (e : event) : M unit :=
  set_world (fun x => mk_world (fs x) (disk x) (heap x) (now x) (ext x) (trace x ++ [e])).

(** [for x in l: body x] *)
Fixpoint for_each {A} (l : list A) (body : A → M unit) : M unit :=
  match l with
  | [] => ret tt
  | x :: l' => body x ;; for_each l' body
  end.

(** ** Primitives of [os], [time] and [config] *)

Definition isdir (fn : string) : M bool :=
  gets (fun st => match fs (w st) !! fn with
                  | Some n => is_dir n
                  | None => false
                  end).

Definition isfile (fn : string) : M bool :=
  gets (fun st => match fs (w st) !! fn with
                  | Some n => negb (is_dir n)
                  | None => false
                  end).

(** [os.mkdir(fn)]: fails when the path is already taken. *)
Definition mkdir (fn : string) : M unit :=
  taken <- gets (fun st => fs (w st) !! fn) ;;
  match taken with
  | Some _ => raise (OSError fn)
  | None =>
      set_world (fun x => mk_world (<[fn := mk_node true (now x)]> (fs x))
                            (disk x) (heap x) (now x) (ext x) (trace x)) ;;
      emit (EMkdir fn)
  end.

(** [time.localtime(os.path.getmtime(fn))]: fails when the path does not
    exist. *)
Definition getmtime (fn : string) : M struct_time :=
  found <- gets (fun st => fs (w st) !! fn) ;;
  match found with
  | Some n => ret (mtime n)
  | None => raise (OSError fn)
  end.

(** [time.localtime()] *)
Definition localtime : M struct_time := gets (fun st => now (w st)).

(** Modelled from the spec: [read_config] and [write_config] are imported
    from [config], which is not among the sources; the spec says that
    [read()] returns the persisted key/value map and that [write(map)]
    persists it.  The source ignores what [write_config] returns, and so
    does the model. *)
Definition read_config : M (gmap string string) := gets (fun st => disk (w st)).

Definition write_config (cfg : gmap string string) : M unit :=
  set_world (fun x => mk_world (fs x) cfg (heap x) (now x) (ext x) (trace x)) ;;
  emit (EWriteConfig cfg).

(** Modelled from the spec: [bash] is imported from [config], which is not
    among the sources; the spec says that [run(command, log_path)] runs
    the command and that a non-zero exit status is surfaced as an error
    that aborts the run. *)
Definition bash (cmd : string) (log : option string) : M unit :=
  emit (EBash cmd log) ;;
  ok <- gets (fun st => bash_ok (ext (w st)) cmd) ;;
  if ok then ret tt else raise (CommandError cmd).

(** [int(x)] for the values [self.timestamp] can hold. *)
Definition int_ (x : option string) : M N :=
  match x with
  | None => raise TypeError
  | Some s => match Decimal.int_of_str s with
              | Some n => ret n
              | None => raise ValueError
              end
  end.

(** Truth value of [self.timestamp]: [None] and [''] are false. *)
Definition truthy (x : option string) : bool :=
  match x with
  | None => false
  | Some s => negb (String.eqb s "")
  end.

(** [os.path.basename] *)
Fixpoint basename_from (s acc : string) : string :=
  match s with
  | EmptyString => acc
  | String c s' =>
      if Ascii.eqb c "/" then basename_from s' EmptyString
      else basename_from s' (acc +:+ String c EmptyString)
  end.

Definition basename (s : string) : string := basename_from s EmptyString.

(** ** Attribute access *)

Definition method_names : list string :=
  [ "check_spotchange"; "register_finished"; "setup_virtualenv_sandbox";
    "setup_virtualenv"; "setup_virtualenv_refresh"; "welcome_message";
    "setup_anaconda"; "setup_anaconda_refresh" ]%string.

Definition class_data : list string := ["meta"; "required_folders"]%string.

Definition mem (k : string) (l : list string) : bool := existsb (String.eqb k) l.

(** [self.__dict__] enumerates the attributes in the order they were set. *)
Definition instance_keys (i : instance) : list string :=
  ["config"; "timestamp"; "kind"]%string ++ dict_keys (self_dict i).

(** [hasattr(self, name)], for the names the source can ask about: the
    instance attributes, the methods and the class attributes. *)
Definition hasattr (name : string) : M bool :=
  gets (fun st => mem name (instance_keys (self st)) || mem name method_names
                  || mem name class_data).

(** [self.<name>] for the attributes copied from the species dict. *)
Definition attr (name : string) : M value :=
  d <- gets (fun st => self_dict (self st)) ;;
  match dict_get d name with
  | Some v => ret v
  | None => raise (AttributeError name)
  end.

Definition attr_str (name : string) : M string :=
  v <- attr name ;;
  match v with VStr s => ret s | _ => raise TypeError end.

Definition attr_list (name : string) : M (list string) :=
  v <- attr name ;;
  match v with VList l => ret l | _ => raise TypeError end.

Definition attr_true (name : string) : M bool :=
  v <- attr name ;;
  match v with
  | VBool b => ret b
  | VStr s => ret (negb (String.eqb s ""))
  | VList l => ret (negb (Nat.eqb (length l) 0))
  | VRef _ => raise TypeError
  end.

Definition set_attr (name : string) (v : value) : M unit :=
  set_self (fun i => mk_instance (self_config i) (self_timestamp i) (self_kind i)
                       (dict_set (self_dict i) name v)).

(** [self.<name>[key]] for an attribute that is a dict *)
Definition attr_item (name key : string) : M string :=
  v <- attr name ;;
  match v with
  | VRef l =>
      h <- gets (fun st => heap (w st)) ;;
      match h !! l ≫= (fun d => d !! key) with
      | Some s => ret s
      | None => raise (KeyError key)
      end
  | _ => raise TypeError
  end.

(** [self.<name>[key] = s]: the dict the attribute refers to is updated
    in place. *)
Definition set_attr_item (name key s : string) : M unit :=
  v <- attr name ;;
  match v with
  | VRef l =>
      set_world (fun x => mk_world (fs x) (disk x)
                            (<[l := <[key := s]> (default ∅ (heap x !! l))]> (heap x))
                            (now x) (ext x) (trace x))
  | _ => raise TypeError
  end.

Definition set_config_item (key s : string) : M unit :=
  set_self (fun i => mk_instance (<[key := s]> (self_config i)) (self_timestamp i)
                       (self_kind i) (self_dict i)).

(** ** The methods of [FactoryEnv] *)

(** [int(time.strftime('%Y%m%d%H%M%s', time.localtime(os.path.getmtime(fn))))
     > int(self.timestamp)] *)
Definition newer_than_stamp (fn : string) : M bool :=
  t <- getmtime fn ;;
  m <- int_ (Some (strftime_stamp t)) ;;
  ts <- gets (fun st => self_timestamp (self st)) ;;
  n <- int_ ts ;;
  ret (n <? m).

(** [[fn for fn in fns if <fn is newer than the stamp>]] *)
Fixpoint changed_files (fns : list string) : M (list string) :=
  match fns with
  | [] => ret []
  | fn :: fns' =>
      b <- newer_than_stamp fn ;;
      rest <- changed_files fns' ;;
      ret (if b then fn :: rest else rest)
  end.

(** The loop of [check_spotchange]: every pass rebinds [fns_changed].
    The values of the [reqs] keys are lists in every species; another
    kind of value is reported as [TypeError]. *)
Fixpoint spot_loop (reqs_keys : list string) (fns_changed : option (list string))
  : M (option (list string)) :=
  match reqs_keys with
  | [] => ret fns_changed
  | req_type :: keys' =>
      fns <- attr_list req_type ;;
      changed <- changed_files fns ;;
      spot_loop keys' (Some changed)
  end.

(** [any(l)] on a list of [str] *)
Definition any_str (l : list string) : bool :=
  existsb (fun s => negb (String.eqb s "")) l.

Definition check_spotchange : M bool :=
  keys <- gets (fun st => instance_keys (self st)) ;;
  let reqs_keys := List.filter (String.prefix "reqs") keys in
  fns_changed <- spot_loop reqs_keys None ;;
  match fns_changed with
  | Some l => ret (any_str l)
  | None => raise (UnboundLocalError "fns_changed")
  end.

Definition register_finished : M unit :=
  has <- hasattr "loader_commands" ;;
  (if has then
     a <- attr_item "loader_commands" "env_activate" ;;
     set_config_item "activate_env" a
   else ret tt) ;;
  t <- localtime ;;
  set_config_item "setup_stamp" (strftime_stamp t) ;;
  cfg <- gets (fun st => self_config (self st)) ;;
  write_config cfg.

Definition setup_virtualenv (sandbox : bool) : M unit :=
  missing <- gets (fun st => is_terminal_command (ext (w st)) "virtualenv") ;;
  if missing then
    raise (Exception_ "failed to create a virtual environment: missing virtualenv. ")
  else
    let venv_opts : string :=
      if sandbox then "--no-site-packages " else "--system-site-packages " in
    bash ("virtualenv " +:+ venv_opts +:+ "env") (Some "logs/log-virtualenv"%string).

Definition setup_virtualenv_sandbox : M unit := setup_virtualenv true.

Definition required_upgrades : list string :=
  ["Sphinx>=1.4.4"; "numpydoc"; "sphinx-better-theme"; "beautifulsoup4"]%string.

Definition setup_virtualenv_refresh : M unit :=
  reqs <- attr_list "reqs" ;;
  for_each reqs (fun fn =>
    src <- attr_str "source_cmd" ;;
    bash (src +:+ " && pip install -r " +:+ fn)
         (Some ("logs/log-virtualenv-pip-" +:+ basename fn))) ;;
  src <- attr_str "source_cmd" ;;
  bash (src +:+ " && pip install -U " +:+
        String.concat " " (map (fun i => "'" +:+ i +:+ "'") required_upgrades))
       (Some "logs/log-virtualenv-pip"%string).

Definition welcome_message : M unit := ret tt.

Definition setup_anaconda : M unit :=
  cfg <- gets (fun st => self_config (self st)) ;;
  let anaconda_location := cfg !! "anaconda_location"%string in
  if negb (truthy anaconda_location) then
    raise (Exception_ "download anaconda and run `make set anaconda_location <path>`")
  else
    resolve <- gets (fun st => abspath (ext (w st))) ;;
    let install_fn := resolve (default EmptyString anaconda_location) in
    found <- isfile install_fn ;;
    if negb found then raise (Exception_ ("cannot find " +:+ install_fn))
    else
      cwd <- gets (fun st => getcwd (ext (w st))) ;;
      bash ("bash " +:+ install_fn +:+ " -b -p " +:+ cwd +:+ "/env") None ;;
      py2 <- attr_true "use_python2" ;;
      if py2 then
        src <- attr_str "source_cmd" ;;
        bash (src +:+ " && conda create python=2 -y -n py2") None
      else ret tt.

Definition setup_anaconda_refresh : M unit :=
  py2 <- attr_true "use_python2" ;;
  (if py2 then
     set_attr_item "loader_commands" "env_activate" "env/envs/py2/bin/activate py2" ;;
     set_attr "source_cmd" (VStr "source env/envs/py2/bin/activate py2")
   else ret tt) ;;
  reqs_conda <- attr_list "reqs_conda" ;;
  for_each reqs_conda (fun fn =>
    src <- attr_str "source_cmd" ;;
    bash (src +:+ " && conda install -y --file " +:+ fn)
         (Some ("logs/log-anaconda-conda-" +:+ basename fn))) ;;
  reqs_pip <- attr_list "reqs_pip" ;;
  for_each reqs_pip (fun fn =>
    src <- attr_str "source_cmd" ;;
    bash (src +:+ " && pip install -r " +:+ fn)
         (Some ("logs/log-anaconda-conda-" +:+ basename fn))).

(** [getattr(self, name)()] for the methods of the class that take no
    argument.  Any other name fails: with [AttributeError], or with
    [TypeError] when the name is that of a data attribute, which the
    model does not tell apart. *)
Definition method_body (name : string) : M unit :=
  if String.eqb name "setup_virtualenv" then setup_virtualenv false
  else if String.eqb name "setup_virtualenv_sandbox" then setup_virtualenv_sandbox
  else if String.eqb name "setup_virtualenv_refresh" then setup_virtualenv_refresh
  else if String.eqb name "setup_anaconda" then setup_anaconda
  else if String.eqb name "setup_anaconda_refresh" then setup_anaconda_refresh
  else if String.eqb name "welcome_message" then welcome_message
  else if String.eqb name "check_spotchange" then check_spotchange ;; ret tt
  else if String.eqb name "register_finished" then register_finished
  else raise (AttributeError name).

Definition call_method (name : string) : M unit :=
  emit (ECall name) ;;
  method_body name ;;
  emit (EReturn name).

(** [sys.exit(code)] *)
Definition sys_exit {A} (code : N) : M A := raise (SystemExit code).

(** [for fn in self.required_folders: if not os.path.isdir(fn): os.mkdir(fn)] *)
Definition make_required_folders : M unit :=
  for_each required_folders (fun fn =>
    d <- isdir fn ;;
    if negb d then mkdir fn else ret tt).

(** [for key in self.meta[kind]: self.__dict__[key] = self.meta[kind][key]] *)
Definition load_species (species : list (string * value)) : M unit :=
  for_each species (fun kv => set_attr (fst kv) (snd kv)).

(** The second half of [__init__], from the computation of [do_refresh]
    to the welcome message. *)
Definition setup_or_refresh (refresh : bool) : M unit :=
  timestamp <- gets (fun st => self_timestamp (self st)) ;;
  do_refresh <- (if truthy timestamp then
                   changed <- check_spotchange ;;
                   ret (changed || refresh)
                 else ret refresh) ;;
  (if negb (truthy timestamp) then
     k <- attr_str "setup_kickstart" ;; call_method k
   else ret tt) ;;
  (if negb (truthy timestamp) || do_refresh then
     r <- attr_str "setup_refresh" ;; call_method r
   else ret tt) ;;
  register_finished ;;
  welcome <- attr_str "welcome" ;;
  has <- hasattr welcome ;;
  if has then call_method welcome else ret tt.

(** The constructor.  The [print] calls, the [time.time()] readings that
    only feed them, and [asciitree] are left out: they have no effect on
    the file system, the configuration or the hooks. *)
Definition __init__ (refresh : bool) : M unit :=
  make_required_folders ;;
  cfg <- read_config ;;
  set_self (fun i => mk_instance cfg (cfg !! "setup_stamp"%string) (self_kind i)
                       (self_dict i)) ;;
  let kind := cfg !! "species"%string in
  match kind ≫= dict_get meta with
  | None => sys_exit 1
  | Some species =>
      set_self (fun i => mk_instance (self_config i) (self_timestamp i) kind
                           (self_dict i)) ;;
      load_species species ;;
      setup_or_refresh refresh
  end.

(** [FactoryEnv(refresh=...)]: a new object, then [__init__]. *)
Definition FactoryEnv (refresh : bool) (x : world) : outcome unit * state :=
  __init__ refresh (mk_state blank x).

(** [def setup(refresh=False): env = FactoryEnv(refresh=True)] *)
Definition setup (refresh : bool) (x : world) : outcome unit * state :=
  FactoryEnv true x.

(** [def init(refresh=False): setup(refresh=refresh)] *)
Definition init (refresh : bool) (x : world) : outcome unit * state :=
  setup refresh x.

(** ** Vocabulary of the properties *)

(** The paths in all the dependency-file lists a species declares: the
    values of its keys that start with [reqs]. *)
Definition dep_files (species : list (string * value)) : list string :=
  flat_map (fun kv => match snd kv with
                      | VList l => if String.prefix "reqs" (fst kv) then l else []
                      | _ => []
                      end) species.

(** The file [fn] exists and its modification time, written as a stamp,
    is a larger number than the stored stamp. *)
Definition file_newer (x : world) (stamp : string) (fn : string) : bool :=
  match fs x !! fn, Decimal.int_of_str stamp with
  | Some n, Some t =>
      match Decimal.int_of_str (strftime_stamp (mtime n)) with
      | Some m => t <? m
      | None => false
      end
  | _, _ => false
  end.

(** The number a stamp taken at [t] denotes when the fields are in range. *)
Definition stamp_value (t : struct_time) : N :=
  calendar_minute t * 10 ^ N.of_nat (length (Decimal.digits_of (tm_epoch t)))
  + tm_epoch t.

(** Hook calls and registrations, as opposed to shell commands and
    directory creation. *)
Definition is_lifecycle (e : event) : bool :=
  match e with
  | ECall _ | EReturn _ | EWriteConfig _ => true
  | EMkdir _ | EBash _ _ => false
  end.

(** No required folder name is taken by something that is not a directory. *)
Definition folders_free (x : world) : bool :=
  forallb (fun fn => match fs x !! fn with
                     | Some n => is_dir n
                     | None => true
                     end) required_folders.

Definition ensure_folder (x : world) (fn : string) : world :=
  match fs x !! fn with
  | Some _ => x
  | None => mk_world (<[fn := mk_node true (now x)]> (fs x)) (disk x) (heap x)
              (now x) (ext x) (trace x ++ [EMkdir fn])
  end.

(** The world once the required folders have been ensured. *)
Definition scaffolded (x : world) : world := fold_left ensure_folder required_folders x.

(** A species as a run resolves it: every reference replaced by the
    content of the dict it points to. *)
Inductive resolved :=
| RStr (s : string)
| RBool (b : bool)
| RList (l : list string)
| RDict (d : option (gmap string string)).

Definition resolve_value (h : gmap loc (gmap string string)) (v : value) : resolved :=
  match v with
  | VStr s => RStr s
  | VBool b => RBool b
  | VList l => RList l
  | VRef l => RDict (h !! l)
  end.

Definition resolve (h : gmap loc (gmap string string)) (kind : string)
  : option (list (string * resolved)) :=
  match dict_get meta kind with
  | Some species => Some (map (fun kv => (fst kv, resolve_value h (snd kv))) species)
  | None => None
  end.

(** The one in-place update a hook makes: [setup_anaconda_refresh] on the
    dict its [loader_commands] refers to. *)
Definition py2_at (l : loc) (h : gmap loc (gmap string string))
  : gmap loc (gmap string string) :=
  <[l := <["env_activate"%string := "env/envs/py2/bin/activate py2"%string]>
           (default ∅ (h !! l))]> h.

Definition py2_loader (h : gmap loc (gmap string string)) : gmap loc (gmap string string) :=
  py2_at loader_anaconda h.

(** What [self.loader_commands['env_activate']] evaluates to for a species. *)
Definition loader_entry (h : gmap loc (gmap string string))
    (species : list (string * value)) : option string :=
  match dict_get species "loader_commands" with
  | Some (VRef l) => h !! l ≫= (fun d => d !! "env_activate"%string)
  | _ => None
  end.

(** ** Frames *)

(** [m] moves every state to one related to it by [R], whether it returns
    or raises. *)
Definition preserves (R : state → state → Prop) {A} (m : M A) : Prop :=
  ∀ st, R st (snd (m st)).

(** The trace has grown, and by no registration. *)
Definition trace_grows (st st' : state) : Prop :=
  ∃ evs, trace (w st') = trace (w st) ++ evs
         ∧ Forall (fun e => ∀ c, e ≠ EWriteConfig c) evs.

(** What most of the code does to the state: nothing, except on the file
    system and by adding shell commands and hook calls to the trace. *)
Definition quiet_step (st st' : state) : Prop :=
  self st' = self st
  ∧ disk (w st') = disk (w st)
  ∧ heap (w st') = heap (w st)
  ∧ now (w st') = now (w st)
  ∧ ext (w st') = ext (w st)
  ∧ trace_grows st st'.

(** What a hook may do to the state: it leaves the configuration (in
    memory and on disk), the clock and every attribute but [source_cmd]
    alone, and the heap is either untouched or has had the py2 activation
    path assigned into the dict [loader_commands] refers to. *)
Definition hook_step (st st' : state) : Prop :=
  self_config (self st') = self_config (self st)
  ∧ self_timestamp (self st') = self_timestamp (self st)
  ∧ (∀ key, key ≠ "source_cmd"%string →
       dict_get (self_dict (self st')) key = dict_get (self_dict (self st)) key)
  ∧ disk (w st') = disk (w st)
  ∧ now (w st') = now (w st)
  ∧ ext (w st') = ext (w st)
  ∧ (heap (w st') = heap (w st)
     ∨ ∃ l, dict_get (self_dict (self st)) "loader_commands" = Some (VRef l)
            ∧ heap (w st') = py2_at l (heap (w st)))
  ∧ trace_grows st st'.

(** The state [register_finished] leaves when it returns: the instance's
    configuration, with the activation command [a] if there is one and
    with a stamp of the current time, is what is now on disk. *)
Definition registered_config (a : option string) (st : state) : gmap string string :=
  <["setup_stamp"%string := strftime_stamp (now (w st))]>
    (match a with
     | Some a => <["activate_env"%string := a]> (self_config (self st))
     | None => self_config (self st)
     end).

Definition registered (a : option string) (st : state) : state :=
  let cfg := registered_config a st in
  mk_state
    (mk_instance cfg (self_timestamp (self st)) (self_kind (self st))
       (self_dict (self st)))
    (mk_world (fs (w st)) cfg (heap (w st)) (now (w st)) (ext (w st))
       (trace (w st) ++ [EWriteConfig cfg])).

(** The state after the welcome message. *)
Definition welcomed (st : state) : state :=
  mk_state (self st)
    (mk_world (fs (w st)) (disk (w st)) (heap (w st)) (now (w st)) (ext (w st))
       ((trace (w st) ++ [ECall "welcome_message"]) ++ [EReturn "welcome_message"])).

(** The number a list of decimal digits denotes after the prefix [acc]. *)
Definition value_of (ds : list N) (acc : N) : N :=
  fold_left (fun a d => 10 * a + d) ds acc.

(** Number of decimal digits of [n]. *)
Definition ndigits (n : N) : N := N.of_nat (length (Decimal.digits_of n)).

(** Names of the hooks called, in order. *)
Definition calls (tr : list event) : list string :=
  flat_map (fun e => match e with ECall m => [m] | _ => [] end) tr.

(** The configurations written, in order. *)
Definition registrations (tr : list event) : list (gmap string string) :=
  flat_map (fun e => match e with EWriteConfig c => [c] | _ => [] end) tr.

(** The instance as [__init__] has set it up when it reaches the life-cycle
    decision: the configuration read, its stamp, and the species' fields. *)
Definition loaded (x : world) (kind : string) (species : list (string * value)) : state :=
  mk_state (mk_instance (disk x) (disk x !! "setup_stamp"%string) (Some kind) species) x.

(** ** Sample worlds *)

Module Samples.
Local Open Scope string_scope.

Definition t_sep15 : struct_time := mk_time 2026 9 15 12 0 1789488000.
Definition t_oct01 : struct_time := mk_time 2026 10 1 9 0 1790859600.
Definition t_oct20 : struct_time := mk_time 2026 10 20 18 30 1792535400.
Definition t_nov03 : struct_time := mk_time 2026 11 3 10 15 1793718900.

Definition ext_ok : externals :=
  mk_ext (fun _ => true) (fun _ => false) (fun p => p) "/home/user/factory".

(** Every command exits with status 0, except [pip install -r] of the
    virtualenv requirements. *)
Definition ext_pip_fails : externals :=
  mk_ext (fun c => negb (String.eqb c
            "source env/bin/activate && pip install -r mill/requirements_virtualenv.txt"))
         (fun _ => false) (fun p => p) "/home/user/factory".

Definition folders : gmap string node :=
  {[ "logs" := mk_node true t_sep15; "connections" := mk_node true t_sep15 ]}.

(** A virtualenv environment registered on October 1st whose
    requirements file is older than that. *)
Definition fresh_virtualenv : world :=
  mk_world
    (<["mill/requirements_virtualenv.txt" := mk_node false t_sep15]> folders)
    {[ "species" := "virtualenv"; "setup_stamp" := strftime_stamp t_oct01;
       "activate_env" := "env/bin/activate" ]}
    heap_at_import t_nov03 ext_ok [].

(** The same environment with the requirements file edited on October
    20th. *)
Definition stale_virtualenv : world :=
  mk_world
    (<["mill/requirements_virtualenv.txt" := mk_node false t_oct20]> folders)
    (disk fresh_virtualenv) heap_at_import t_nov03 ext_ok [].

(** A directory in which only the species has been chosen. *)
Definition new_virtualenv : world :=
  mk_world {[ "mill/requirements_virtualenv.txt" := mk_node false t_sep15 ]}
    {[ "species" := "virtualenv" ]} heap_at_import t_nov03 ext_ok [].

Definition new_virtualenv_pip_fails : world :=
  mk_world (fs new_virtualenv) (disk new_virtualenv) heap_at_import t_nov03
    ext_pip_fails [].

Definition new_anaconda : world :=
  mk_world
    {[ "mill/requirements_anaconda_conda.txt" := mk_node false t_sep15;
       "mill/requirements_anaconda_pip.txt" := mk_node false t_sep15;
       "/opt/Anaconda3-4.2.0-Linux-x86_64.sh" := mk_node false t_sep15 ]}
    {[ "species" := "anaconda";
       "anaconda_location" := "/opt/Anaconda3-4.2.0-Linux-x86_64.sh" ]}
    heap_at_import t_nov03 ext_ok [].

(** An anaconda environment registered on October 1st.  The conda
    requirements were edited on October 20th, the pip requirements were
    not. *)
Definition anaconda_conda_edited : world :=
  mk_world
    (<["mill/requirements_anaconda_conda.txt" := mk_node false t_oct20]>
       (<["mill/requirements_anaconda_pip.txt" := mk_node false t_sep15]> folders))
    {[ "species" := "anaconda"; "setup_stamp" := strftime_stamp t_oct01;
       "activate_env" := "env/envs/py2/bin/activate py2";
       "anaconda_location" := "/opt/Anaconda3-4.2.0-Linux-x86_64.sh" ]}
    heap_at_import t_nov03 ext_ok [].

(** The fresh virtualenv environment with the requirements file removed. *)
Definition virtualenv_reqs_missing : world :=
  mk_world folders (disk fresh_virtualenv) heap_at_import t_nov03 ext_ok [].

(** No species configured yet. *)
Definition unconfigured : world :=
  mk_world ∅ ∅ heap_at_import t_nov03 ext_ok [].

Definition anaconda_species : list (string * value) :=
  default [] (dict_get meta "anaconda").

Definition virtualenv_species : list (string * value) :=
  default [] (dict_get meta "virtualenv").
End Samples.

(** ** More vocabulary *)

(** The dependency-file lists of a species, in the order its keys are
    enumerated. *)
Definition req_lists (species : list (string * value)) : list (list string) :=
  flat_map (fun kv => match snd kv with
                      | VList l => if String.prefix "reqs" (fst kv) then [l] else []
                      | _ => []
                      end) species.

Definition missing (x : world) (fn : string) : bool :=
  match fs x !! fn with
  | Some _ => false
  | None => true
  end.

(** The world a later process finds: the files and the configuration as
    the last run left them, the table as the class statement builds it,
    and a later clock. *)
Definition next_process (st : state) (t : struct_time) : world :=
  mk_world (fs (w st)) (disk (w st)) heap_at_import t (ext (w st)) [].

(** The same world with another clock reading. *)
Definition at_time (x : world) (t : struct_time) : world :=
  mk_world (fs x) (disk x) (heap x) t (ext x) (trace x).

(** ** Sample runs *)

Module Runs.
Import Samples.


(** The first construction of an anaconda environment, and a second
    construction in the same process on the next day. *)
Definition anaconda_first : outcome unit * state :=
  FactoryEnv false new_anaconda.
Definition anaconda_second : outcome unit * state :=
  FactoryEnv false (at_time (w (snd anaconda_first)) (mk_time 2026 11 4 10 15 1793805300)).

End Runs.

(** ** States with a longer trace *)

Definition log_event (st : state) (e : event) : state :=
  mk_state (self st)
    (mk_world (fs (w st)) (disk (w st)) (heap (w st)) (now (w st)) (ext (w st))
       (trace (w st) ++ [e])).

Definition logged (st : state) (evs : list event) : state := fold_left log_event evs st.

(** The state after the two assignments of [setup_anaconda_refresh]. *)
Definition py2_state (l : loc) (st : state) : state :=
  mk_state
    (mk_instance (self_config (self st)) (self_timestamp (self st))
       (self_kind (self st))
       (dict_set (self_dict (self st)) "source_cmd"
          (VStr "source env/envs/py2/bin/activate py2")))
    (mk_world (fs (w st)) (disk (w st)) (py2_at l (heap (w st))) (now (w st))
       (ext (w st)) (trace (w st))).

(** The shell commands of the hooks. *)
Definition pip_install (src fn : string) : event :=
  EBash (src +:+ " && pip install -r " +:+ fn)
        (Some ("logs/log-virtualenv-pip-" +:+ basename fn)).

Definition pip_upgrade (src : string) : event :=
  EBash (src +:+ " && pip install -U " +:+
         String.concat " " (map (fun i => "'" +:+ i +:+ "'") required_upgrades))
        (Some "logs/log-virtualenv-pip"%string).

Definition virtualenv_create (sandbox : bool) : event :=
  EBash ("virtualenv " +:+
         (if sandbox then "--no-site-packages " else "--system-site-packages ")
         +:+ "env")
        (Some "logs/log-virtualenv"%string).

Definition conda_install (src fn : string) : event :=
  EBash (src +:+ " && conda install -y --file " +:+ fn)
        (Some ("logs/log-anaconda-conda-" +:+ basename fn)).

Definition conda_pip_install (src fn : string) : event :=
  EBash (src +:+ " && pip install -r " +:+ fn)
        (Some ("logs/log-anaconda-conda-" +:+ basename fn)).

Definition anaconda_install (install_fn cwd : string) : event :=
  EBash ("bash " +:+ install_fn +:+ " -b -p " +:+ cwd +:+ "/env") None.

Definition conda_create_py2 (src : string) : event :=
  EBash (src +:+ " && conda create python=2 -y -n py2") None.

(** Every shell command exits with status 0. *)
Definition commands_ok (st : state) : Prop := ∀ c, bash_ok (ext (w st)) c = true.


(** ** The interactive commands: [nuke] and [renew] *)

(** [re.match('^(y|Y)', s) != None] *)
Definition says_yes (s : string) : bool :=
  match s with
  | String c _ => Ascii.eqb c "y" || Ascii.eqb c "Y"
  | EmptyString => false
  end.

(** ['[QUESTION] %s (y/N)? ' % msg] *)
Definition question (msg : string) : string := "[QUESTION] " +:+ msg +:+ " (y/N)? ".

(** [all(re.match('^(y|Y)', input(<question msg>)) != None for msg in msgs)]:
    [all] consumes the generator only as far as the first answer that is
    not a yes.  [answer] is the line the user types at a prompt.  The
    result is the verdict together with the prompts that were shown. *)
Fixpoint ask_all (answer : string → string) (msgs : list string) : bool * list string :=
  match msgs with
  | [] => (true, [])
  | msg :: msgs' =>
      if says_yes (answer (question msg)) then
        (fst (ask_all answer msgs'), question msg :: snd (ask_all answer msgs'))
      else (false, [question msg])
  end.

(** [sure or all(...)] *)
Definition confirmed (sure : bool) (answer : string → string) (msgs : list string)
  : bool * list string :=
  if sure then (true, []) else ask_all answer msgs.

Definition double_quote : string := String (ascii_of_N 34) EmptyString.

Definition renew_questions : list string :=
  ["`renew` is a test set that deletes everything. okay?"; "confirm"]%string.

Definition renew_virtualenv : string :=
  "make nuke sure && make set species virtualenv && make setup && make test".

Definition renew_anaconda : string :=
  String.concat " && "
    [ "make nuke sure";
      "make set species anaconda";
      "make set anaconda_location ~/libs/Anaconda3-4.2.0-Linux-x86_64.sh";
      "make setup";
      "make test" ]%string.

Definition set_omnicalc : string :=
  "make set omnicalc=" +:+ double_quote +:+ "http://github.com/bradleyrp/omnicalc"
  +:+ double_quote.

Definition set_automacs : string :=
  "make set automacs=" +:+ double_quote +:+ "http://github.com/bradleyrp/automacs"
  +:+ double_quote.

(** [renew(species=None, sure=False)] *)
Definition renew (species : option string) (sure : bool) (answer : string → string)
  : M unit :=
  if fst (confirmed sure answer renew_questions) then
    if negb (truthy species) then raise (Exception_ "testset needs a species")
    else
      let name := default EmptyString species in
      (if String.eqb name "virtualenv" then bash renew_virtualenv None
       else if String.eqb name "anaconda" then bash renew_anaconda None
       else raise (Exception_ ("no testset for species " +:+ name))) ;;
      bash set_omnicalc None ;;
      bash set_automacs None
  else ret tt.

(** The values [nuke] puts in the configuration: a list of [str] and a
    list of pairs of [str]; [CStr] is the kind of value the constructor
    reads and writes. *)
Inductive conf_value :=
| CStr (s : string)
| CList (l : list string)
| CPairs (l : list (string * string)).

(** What [nuke] works on: the file system and the configuration. *)
Record site := mk_site {
  site_fs : gmap string node;
  site_config : gmap string conf_value
}.

(** [os.path.isdir] *)
Definition is_directory (f : gmap string node) (fn : string) : bool :=
  match f !! fn with
  | Some n => is_dir n
  | None => false
  end.

(** The path [p] is the directory [dn] or lies below it. *)
Definition under (dn p : string) : bool :=
  String.eqb p dn || String.prefix (dn +:+ "/") p.

(** [shutil.rmtree(dn)]: the directory goes, with everything below it. *)
Definition rmtree (dn : string) (f : gmap string node) : gmap string node :=
  filter (fun kv : string * node => under dn (fst kv) = false) f.

Definition nuke_questions : list string := ["okay to nuke everything"; "confirm"]%string.

Definition nuke_config : gmap string conf_value :=
  {[ "commands"%string := CList ["mill/setup.py"; "mill/shipping.py"; "mill/factory.py"]%string;
     "commands_aliases"%string := CPairs [("set", "set_config")]%string ]}.

Definition nuke_sensitive : list string := ["data"]%string.

Definition nuke_folders : list string :=
  ["env"; "logs"; "calc"; "data"; "pack"; "site"]%string.

(** [for dn in dns: if os.path.isdir(dn): shutil.rmtree(dn)] *)
Definition remove_dirs (dns : list string) (f : gmap string node) : gmap string node :=
  fold_left (fun f dn => if is_directory f dn then rmtree dn f else f) dns f.

(** [nuke(sure=False)]: once confirmed, the configuration is replaced,
    then [data], then the six folders are removed where they are
    directories. *)
Definition nuke (sure : bool) (answer : string → string) (s : site) : site :=
  if fst (confirmed sure answer nuke_questions) then
    let sensitive := List.filter (is_directory (site_fs s)) nuke_sensitive in
    let f1 := fold_left (fun f fn => rmtree fn f) sensitive (site_fs s) in
    mk_site (remove_dirs nuke_folders f1) nuke_config
  else s.

(** The [str] entries of a configuration: what the model of the
    constructor, which reads the keys [species], [setup_stamp] and
    [anaconda_location] only, sees of it. *)
Definition str_entries (c : gmap string conf_value) : gmap string string :=
  omap (fun v => match v with CStr s => Some s | _ => None end) c.

(** The world a process finds on a site. *)
Definition site_world (s : site) (t : struct_time) (e : externals) : world :=
  mk_world (site_fs s) (str_entries (site_config s)) heap_at_import t e [].

(** Some directory of [dns] that exists in [f] holds the path [p]. *)
Definition swept (dns : list string) (f : gmap string node) (p : string) : bool :=
  existsb (fun dn => is_directory f dn && under dn p) dns.

(** ** Sample sites and users *)

Module Sites.
Import Samples.
Local Open Scope string_scope.

(** A provisioned virtualenv site: the environment, its logs, a
    connection file, and a regular file that happens to be called
    [pack]. *)
Definition provisioned : site :=
  mk_site
    {[ "env" := mk_node true t_oct01;
       "env/bin/activate" := mk_node false t_oct01;
       "logs" := mk_node true t_sep15;
       "logs/log-virtualenv" := mk_node false t_oct01;
       "connections" := mk_node true t_sep15;
       "connections/demo.yaml" := mk_node false t_sep15;
       "pack" := mk_node false t_sep15;
       "mill/requirements_virtualenv.txt" := mk_node false t_sep15 ]}
    {[ "species" := CStr "virtualenv";
       "setup_stamp" := CStr (strftime_stamp t_oct01);
       "activate_env" := CStr "env/bin/activate";
       "commands" := CList ["mill/setup.py"; "mill/shipping.py"; "mill/factory.py"] ]}.

(** Users: one answers yes to everything, one types [n] at the first
    prompt, one agrees first and then backs out. *)
Definition says_y (prompt : string) : string := "y".
Definition says_n (prompt : string) : string := "n".
Definition backs_out (prompt : string) : string :=
  if String.eqb prompt (question "confirm") then "no" else "Yes".

(** Every command succeeds, except the test chain of [renew]. *)
Definition ext_chain_fails : externals :=
  mk_ext (fun c => negb (String.eqb c renew_virtualenv)) (fun _ => false) (fun p => p)
    "/home/user/factory".

(** [virtualenv] is not installed. *)
Definition ext_no_virtualenv : externals :=
  mk_ext (fun _ => true) (fun c => String.eqb c "virtualenv") (fun p => p)
    "/home/user/factory".

Definition new_virtualenv_no_tool : world :=
  mk_world (fs new_virtualenv) (disk new_virtualenv) heap_at_import t_nov03
    ext_no_virtualenv [].

(** An anaconda directory whose configuration names no installer. *)
Definition new_anaconda_no_location : world :=
  mk_world (fs new_anaconda) {[ "species" := "anaconda" ]} heap_at_import t_nov03
    ext_ok [].

(** An anaconda directory whose installer is not where the configuration
    says. *)
Definition new_anaconda_no_installer : world :=
  mk_world
    {[ "mill/requirements_anaconda_conda.txt" := mk_node false t_sep15;
       "mill/requirements_anaconda_pip.txt" := mk_node false t_sep15 ]}
    (disk new_anaconda) heap_at_import t_nov03 ext_ok [].
End Sites.

(** The shell commands run, in order, each with its log file. *)
Definition shell_commands (tr : list event) : list event :=
  List.filter (fun e => match e with EBash _ _ => true | _ => false end) tr.
(** * Properties *)

(** ** Decimal text *)

Module DecimalFacts.
Import Decimal.

Lemma char_digit_digit_char (d : N) :
  d < 10 → char_digit (digit_char d) = Some d.
Proof.
  intros Hd.
  assert (Hcases : d = 0 ∨ d = 1 ∨ d = 2 ∨ d = 3 ∨ d = 4 ∨ d = 5 ∨ d = 6
                   ∨ d = 7 ∨ d = 8 ∨ d = 9) by lia.
  repeat (destruct Hcases as [-> | Hcases]; [reflexivity |]).
  subst d. reflexivity.
Qed.

Lemma append_cons (c : ascii) (s r : string) :
  String c s +:+ r = String c (s +:+ r).
Proof. reflexivity. Qed.

Lemma parse_string_of_digits (ds : list N) (rest : string) (acc : N) :
  Forall (fun d => d < 10) ds →
  parse_digits (string_of_digits ds +:+ rest) acc = parse_digits rest (value_of ds acc).
Proof.
  intros Hds. revert acc.
  induction Hds as [| d ds Hd _ IH]; intros acc; [reflexivity |].
  cbn [string_of_digits]. rewrite append_cons. cbn [parse_digits].
  rewrite (char_digit_digit_char d Hd). apply IH.
Qed.

Lemma dec_digits_acc (fuel : nat) (n : N) (acc : list N) :
  dec_digits fuel n acc = dec_digits fuel n [] ++ acc.
Proof.
  revert n acc. induction fuel as [| fuel IH]; intros n acc; [reflexivity |].
  cbn [dec_digits]. destruct (n / 10 =? 0); [reflexivity |].
  rewrite (IH _ (n mod 10 :: acc)), (IH _ [n mod 10]).
  rewrite <- app_assoc. reflexivity.
Qed.

Lemma dec_digits_small (fuel : nat) (n : N) :
  Forall (fun d => d < 10) (dec_digits fuel n []).
Proof.
  revert n. induction fuel as [| fuel IH]; intros n; [constructor |].
  cbn [dec_digits]. assert (n mod 10 < 10) by (apply N.mod_lt; lia).
  destruct (n / 10 =? 0).
  - repeat constructor; assumption.
  - rewrite dec_digits_acc. apply Forall_app. split; [apply IH |].
    repeat constructor; assumption.
Qed.

Lemma value_of_snoc (ds : list N) (d acc : N) :
  value_of (ds ++ [d]) acc = 10 * value_of ds acc + d.
Proof. unfold value_of. rewrite fold_left_app. reflexivity. Qed.

(** With enough fuel the digits denote [n], and there are exactly as
    many as [n] needs. *)
Lemma dec_digits_spec (fuel : nat) (n : N) :
  n < 2 ^ N.of_nat fuel →
  let k := N.of_nat (length (dec_digits fuel n [])) in
  (∀ acc, value_of (dec_digits fuel n []) acc = acc * 10 ^ k + n)
  ∧ n < 10 ^ k
  ∧ (n ≠ 0 → 1 <= k ∧ 10 ^ (k - 1) <= n).
Proof.
  revert n. induction fuel as [| fuel IH]; intros n Hn.
  - change (2 ^ N.of_nat 0) with 1 in Hn. assert (n = 0) by lia. subst n.
    cbn [dec_digits length]. change (N.of_nat 0) with 0. cbv zeta.
    split; [intros acc; unfold value_of; cbn [fold_left]; lia |].
    split; [reflexivity | intros Hne; contradiction].
  - cbn [dec_digits].
    pose proof (N.div_mod' n 10) as Hdm.
    assert (Hr : n mod 10 < 10) by (apply N.mod_lt; lia).
    generalize dependent (n mod 10). generalize dependent (n / 10).
    intros q r Hdm Hr.
    destruct (N.eqb_spec q 0) as [Hq | Hq].
    + cbn [length]. change (N.of_nat 1) with 1. cbv zeta.
      change (10 ^ 1) with 10. change (10 ^ (1 - 1)) with 1.
      assert (Hsmall : n = r) by lia.
      split; [intros acc; unfold value_of; cbn [fold_left]; lia |].
      split; [lia | intros Hne; lia].
    + assert (Hfuel : q < 2 ^ N.of_nat fuel).
      { rewrite Nat2N.inj_succ, N.pow_succ_r' in Hn. lia. }
      destruct (IH _ Hfuel) as (Hval & Hlt & Hge).
      destruct (Hge Hq) as [Hk Hlow].
      rewrite dec_digits_acc, length_app. cbn [length].
      rewrite Nat.add_1_r, Nat2N.inj_succ.
      set (k := N.of_nat (length (dec_digits fuel q []))) in *.
      cbv zeta. rewrite N.pow_succ_r'.
      replace (N.succ k - 1) with k by lia.
      split; [intros acc; rewrite value_of_snoc, Hval; lia |].
      assert (Hpow : 10 ^ k = 10 * 10 ^ (k - 1)).
      { rewrite <- N.pow_succ_r'. f_equal. lia. }
      split; [lia | intros Hne; lia].
Qed.

Lemma fuel_enough (n : N) : n < 2 ^ N.of_nat (N.to_nat (N.succ (N.log2 n))).
Proof.
  rewrite N2Nat.id. destruct (N.eq_dec n 0) as [-> | Hn]; [reflexivity |].
  apply N.log2_spec. lia.
Qed.

Lemma digits_of_small (n : N) : Forall (fun d => d < 10) (digits_of n).
Proof. apply dec_digits_small. Qed.

Lemma value_of_digits (n acc : N) :
  value_of (digits_of n) acc = acc * 10 ^ ndigits n + n.
Proof. apply (dec_digits_spec _ n (fuel_enough n)). Qed.

Lemma ndigits_upper (n : N) : n < 10 ^ ndigits n.
Proof. apply (dec_digits_spec _ n (fuel_enough n)). Qed.

Lemma ndigits_lower (n : N) : n ≠ 0 → 1 <= ndigits n ∧ 10 ^ (ndigits n - 1) <= n.
Proof. apply (dec_digits_spec _ n (fuel_enough n)). Qed.

Lemma ndigits_pos (n : N) : 1 <= ndigits n.
Proof.
  destruct (N.eq_dec n 0) as [-> | Hn]; [vm_compute; discriminate |].
  apply ndigits_lower, Hn.
Qed.

Lemma ndigits_mono (a b : N) : a <= b → ndigits a <= ndigits b.
Proof.
  intros Hab. destruct (N.eq_dec a 0) as [-> | Ha].
  - change (ndigits 0) with 1. apply ndigits_pos.
  - destruct (ndigits_lower a Ha) as [Hk Hlow].
    pose proof (ndigits_upper b) as Hup.
    assert (Hpow : 10 ^ (ndigits a - 1) < 10 ^ ndigits b) by lia.
    apply N.pow_lt_mono_r_iff in Hpow; lia.
Qed.

Lemma parse_str_of_N (n : N) (rest : string) (acc : N) :
  parse_digits (str_of_N n +:+ rest) acc
  = parse_digits rest (acc * 10 ^ ndigits n + n).
Proof.
  unfold str_of_N. rewrite parse_string_of_digits by apply digits_of_small.
  rewrite value_of_digits. reflexivity.
Qed.

Lemma parse_pad2_any (n : N) (rest : string) (acc : N) :
  parse_digits (pad2 n +:+ rest) acc
  = parse_digits rest (acc * 100 + (10 * (n / 10 mod 10) + n mod 10)).
Proof.
  unfold pad2. rewrite !append_cons. cbn [parse_digits].
  change (EmptyString +:+ rest) with rest.
  rewrite !char_digit_digit_char by (apply N.mod_lt; lia).
  f_equal. lia.
Qed.

Lemma parse_pad2 (n : N) (rest : string) (acc : N) :
  n < 100 →
  parse_digits (pad2 n +:+ rest) acc = parse_digits rest (acc * 100 + n).
Proof.
  intros Hn. rewrite parse_pad2_any.
  assert (Hq : n / 10 < 10) by (apply N.Div0.div_lt_upper_bound; lia).
  rewrite (N.mod_small (n / 10) 10 Hq).
  pose proof (N.div_mod' n 10). do 2 f_equal. lia.
Qed.

Lemma int_of_nonempty (a : string) (c : ascii) (r : string) :
  int_of_str (a +:+ String c r) = parse_digits (a +:+ String c r) 0.
Proof. destruct a; reflexivity. Qed.

End DecimalFacts.

(** ** Stamps *)

Module StampFacts.
Import Decimal DecimalFacts.

Lemma append_nil_r (s : string) : s +:+ EmptyString = s.
Proof.
  induction s as [| c s IH]; [reflexivity |].
  rewrite append_cons, IH. reflexivity.
Qed.

Lemma int_of_year_then_field (y : string) (n : N) (r : string) :
  int_of_str (y +:+ pad2 n +:+ r) = parse_digits (y +:+ pad2 n +:+ r) 0.
Proof. unfold pad2. rewrite append_cons. apply int_of_nonempty. Qed.

(** A stamp is always a run of digits, so [int(...)] of it succeeds. *)
Lemma stamp_is_number (t : struct_time) :
  ∃ m, int_of_str (strftime_stamp t) = Some m.
Proof.
  unfold strftime_stamp. rewrite int_of_year_then_field.
  rewrite parse_str_of_N, !parse_pad2_any.
  rewrite <- (append_nil_r (str_of_N (tm_epoch t))), parse_str_of_N.
  eexists. reflexivity.
Qed.

(** Read back as a number, the stamp of a clock reading is the calendar
    minute followed by the digits of the epoch second. *)
Lemma stamp_number (t : struct_time) :
  wf_time t → int_of_str (strftime_stamp t) = Some (stamp_value t).
Proof.
  intros (Hmon & Hday & Hhour & Hmin).
  unfold strftime_stamp. rewrite int_of_year_then_field.
  rewrite parse_str_of_N, !parse_pad2 by lia.
  rewrite <- (append_nil_r (str_of_N (tm_epoch t))), parse_str_of_N.
  cbn [parse_digits]. unfold stamp_value, calendar_minute, ndigits.
  f_equal; lia.
Qed.

Lemma stamp_value_mono (t1 t2 : struct_time) :
  calendar_minute t1 <= calendar_minute t2 →
  tm_epoch t1 <= tm_epoch t2 →
  stamp_value t1 <= stamp_value t2.
Proof.
  intros Hmin Hepoch. unfold stamp_value. fold (ndigits (tm_epoch t1)).
  fold (ndigits (tm_epoch t2)).
  pose proof (ndigits_mono _ _ Hepoch) as Hk.
  pose proof (ndigits_upper (tm_epoch t1)) as Hup.
  assert (Hpow : 10 ^ ndigits (tm_epoch t1) <= 10 ^ ndigits (tm_epoch t2))
    by (apply N.pow_le_mono_r; lia).
  assert (Hmul : calendar_minute t1 * 10 ^ ndigits (tm_epoch t1)
                 <= calendar_minute t2 * 10 ^ ndigits (tm_epoch t2))
    by (apply N.mul_le_mono; assumption).
  lia.
Qed.

Lemma stamp_value_same_second (t1 t2 : struct_time) :
  calendar_minute t1 = calendar_minute t2 →
  tm_epoch t1 = tm_epoch t2 →
  stamp_value t1 = stamp_value t2.
Proof. intros Hmin Hepoch. unfold stamp_value. rewrite Hmin, Hepoch. reflexivity. Qed.

End StampFacts.

(** ** Ordered dicts and the species table *)

Section DictFacts.
Context {A : Type}.
Implicit Types (d : list (string * A)) (k : string) (v : A).

Lemma dict_get_set_eq d k v : dict_get (dict_set d k v) k = Some v.
Proof.
  induction d as [| [k' v'] d IH]; cbn [dict_set dict_get].
  - rewrite String.eqb_refl. reflexivity.
  - destruct (String.eqb_spec k' k) as [-> | Hne]; cbn [dict_get].
    + rewrite String.eqb_refl. reflexivity.
    + apply String.eqb_neq in Hne. rewrite Hne. exact IH.
Qed.

Lemma dict_get_set_ne d k k' v :
  k ≠ k' → dict_get (dict_set d k v) k' = dict_get d k'.
Proof.
  intros Hne. induction d as [| [k0 v0] d IH]; cbn [dict_set dict_get].
  - apply String.eqb_neq in Hne. rewrite Hne. reflexivity.
  - destruct (String.eqb_spec k0 k) as [-> | Hk]; cbn [dict_get].
    + apply String.eqb_neq in Hne. rewrite Hne. reflexivity.
    + rewrite IH. reflexivity.
Qed.

Lemma dict_keys_set_present d k v :
  is_Some (dict_get d k) → dict_keys (dict_set d k v) = dict_keys d.
Proof.
  intros [v0 Hget]. induction d as [| [k0 v1] d IH]; [discriminate |].
  cbn [dict_set dict_get] in *.
  destruct (String.eqb k0 k) eqn:Hk; [reflexivity |].
  unfold dict_keys in *. cbn [map fst]. f_equal. apply IH, Hget.
Qed.
End DictFacts.

(** Deriving the sandbox species from any table leaves the base entry as
    it was and gives the derived entry the base's fields, kick-start
    replaced. *)
Lemma derive_sandbox_spec (m : list (string * list (string * value)))
    (base : list (string * value)) :
  dict_get m "virtualenv" = Some base →
  dict_get (derive_sandbox m) "virtualenv" = Some base
  ∧ dict_get (derive_sandbox m) "virtualenv_sandbox"
    = Some (dict_set base "setup_kickstart" (VStr "setup_virtualenv_sandbox")).
Proof.
  intros Hbase. unfold derive_sandbox. rewrite Hbase. unfold dict_copy. split.
  - rewrite dict_get_set_ne by discriminate. exact Hbase.
  - apply dict_get_set_eq.
Qed.

(** C8: the sandboxed species is the virtualenv species with only the
    kick-start operation replaced.  Both are in the table; they have the
    same fields in the same order; the sandbox's kick-start is
    [setup_virtualenv_sandbox] where the base has [setup_virtualenv]; every
    other field, the refresh operation among them, is the base's value
    itself, so that whatever the heap holds the two resolve alike. *)
Theorem sandbox_overrides_only_kickstart :
  ∃ base derived,
    dict_get meta "virtualenv" = Some base
    ∧ dict_get meta "virtualenv_sandbox" = Some derived
    ∧ dict_keys derived = dict_keys base
    ∧ dict_get base "setup_kickstart" = Some (VStr "setup_virtualenv")
    ∧ dict_get derived "setup_kickstart" = Some (VStr "setup_virtualenv_sandbox")
    ∧ dict_get derived "setup_refresh" = Some (VStr "setup_virtualenv_refresh")
    ∧ (∀ key, key ≠ "setup_kickstart"%string →
         dict_get derived key = dict_get base key)
    ∧ (∀ key h, key ≠ "setup_kickstart"%string →
         resolve_value h <$> dict_get derived key
         = resolve_value h <$> dict_get base key).
Proof.
  destruct (dict_get meta_literal "virtualenv") as [base |] eqn:Hbase;
    [| discriminate].
  destruct (derive_sandbox_spec meta_literal base Hbase) as [Hkeep Hnew].
  exists base, (dict_set base "setup_kickstart" (VStr "setup_virtualenv_sandbox")).
  assert (Hks : dict_get base "setup_kickstart" = Some (VStr "setup_virtualenv")).
  { injection Hbase as <-. reflexivity. }
  split; [exact Hkeep |]. split; [exact Hnew |].
  split; [apply dict_keys_set_present; rewrite Hks; eauto |].
  split; [exact Hks |].
  split; [apply dict_get_set_eq |].
  split; [rewrite dict_get_set_ne by discriminate; injection Hbase as <-; reflexivity |].
  split.
  - intros key Hkey. apply dict_get_set_ne. congruence.
  - intros key h Hkey. rewrite dict_get_set_ne by congruence. reflexivity.
Qed.

(** ** Frame reasoning in the state-and-exception monad *)

Lemma bind_unfold {A B} (m : M A) (k : A → M B) (st : state) :
  bind m k st = match m st with
                | (Ok a, st') => k a st'
                | (Raise e, st') => (Raise e, st')
                end.
Proof. reflexivity. Qed.

Lemma bind_ok {A B} (m : M A) (k : A → M B) (st st' : state) (a : A) :
  m st = (Ok a, st') → bind m k st = k a st'.
Proof. intros H. rewrite bind_unfold, H. reflexivity. Qed.

Lemma bind_raise {A B} (m : M A) (k : A → M B) (st st' : state) (e : exn) :
  m st = (Raise e, st') → bind m k st = (Raise e, st').
Proof. intros H. rewrite bind_unfold, H. reflexivity. Qed.

Section Frame.
Context (R : state → state → Prop).
Hypothesis R_refl : ∀ st, R st st.
Hypothesis R_trans : ∀ a b c, R a b → R b c → R a c.

Lemma preserves_ret {A} (a : A) : preserves R (ret a).
Proof. intros st. apply R_refl. Qed.

Lemma preserves_raise {A} (e : exn) : preserves R (@raise A e).
Proof. intros st. apply R_refl. Qed.

Lemma preserves_gets {A} (f : state → A) : preserves R (gets f).
Proof. intros st. apply R_refl. Qed.

Lemma preserves_bind {A B} (m : M A) (k : A → M B) :
  preserves R m → (∀ a, preserves R (k a)) → preserves R (bind m k).
Proof.
  intros Hm Hk st. rewrite bind_unfold. specialize (Hm st).
  destruct (m st) as [[a | e] st1]; cbn [snd] in *.
  - eapply R_trans; [exact Hm | apply Hk].
  - exact Hm.
Qed.

Lemma preserves_for_each {A} (l : list A) (body : A → M unit) :
  (∀ a, preserves R (body a)) → preserves R (for_each l body).
Proof.
  intros Hbody. induction l as [| a l IH]; cbn [for_each].
  - apply preserves_ret.
  - apply preserves_bind; [apply Hbody | intros _; exact IH].
Qed.

(** The reads. *)
Lemma preserves_attr (name : string) : preserves R (attr name).
Proof.
  apply preserves_bind; [apply preserves_gets |].
  intros d. destruct (dict_get d name); [apply preserves_ret | apply preserves_raise].
Qed.

Lemma preserves_attr_str (name : string) : preserves R (attr_str name).
Proof.
  apply preserves_bind; [apply preserves_attr |].
  intros []; first [apply preserves_ret | apply preserves_raise].
Qed.

Lemma preserves_attr_list (name : string) : preserves R (attr_list name).
Proof.
  apply preserves_bind; [apply preserves_attr |].
  intros []; first [apply preserves_ret | apply preserves_raise].
Qed.

Lemma preserves_attr_true (name : string) : preserves R (attr_true name).
Proof.
  apply preserves_bind; [apply preserves_attr |].
  intros []; first [apply preserves_ret | apply preserves_raise].
Qed.

Lemma preserves_attr_item (name key : string) : preserves R (attr_item name key).
Proof.
  apply preserves_bind; [apply preserves_attr |].
  intros []; try apply preserves_raise.
  apply preserves_bind; [apply preserves_gets |].
  intros h. destruct (h !! l ≫= _); [apply preserves_ret | apply preserves_raise].
Qed.

Lemma preserves_int (x : option string) : preserves R (int_ x).
Proof.
  destruct x as [s |]; cbn [int_]; [| apply preserves_raise].
  destruct (Decimal.int_of_str s); [apply preserves_ret | apply preserves_raise].
Qed.

Lemma preserves_getmtime (fn : string) : preserves R (getmtime fn).
Proof.
  apply preserves_bind; [apply preserves_gets |].
  intros []; [apply preserves_ret | apply preserves_raise].
Qed.

Lemma preserves_newer_than_stamp (fn : string) : preserves R (newer_than_stamp fn).
Proof.
  apply preserves_bind; [apply preserves_getmtime | intros t].
  apply preserves_bind; [apply preserves_int | intros m].
  apply preserves_bind; [apply preserves_gets | intros ts].
  apply preserves_bind; [apply preserves_int | intros n].
  apply preserves_ret.
Qed.

Lemma preserves_changed_files (fns : list string) : preserves R (changed_files fns).
Proof.
  induction fns as [| fn fns IH]; cbn [changed_files]; [apply preserves_ret |].
  apply preserves_bind; [apply preserves_newer_than_stamp | intros b].
  apply preserves_bind; [exact IH | intros rest]. apply preserves_ret.
Qed.

Lemma preserves_spot_loop (keys : list string) (acc : option (list string)) :
  preserves R (spot_loop keys acc).
Proof.
  revert acc. induction keys as [| k keys IH]; intros acc; cbn [spot_loop].
  - apply preserves_ret.
  - apply preserves_bind; [apply preserves_attr_list | intros fns].
    apply preserves_bind; [apply preserves_changed_files | intros c]. apply IH.
Qed.

Lemma preserves_check_spotchange : preserves R check_spotchange.
Proof.
  apply preserves_bind; [apply preserves_gets | intros keys].
  apply preserves_bind; [apply preserves_spot_loop | intros []].
  - apply preserves_ret.
  - apply preserves_raise.
Qed.

(** Commands built from reads and [emit] only. *)
Hypothesis R_emit : ∀ e, (∀ c, e ≠ EWriteConfig c) → preserves R (emit e).

Lemma preserves_bash (cmd : string) (log : option string) : preserves R (bash cmd log).
Proof.
  apply preserves_bind; [apply R_emit; discriminate | intros _].
  apply preserves_bind; [apply preserves_gets | intros []].
  - apply preserves_ret.
  - apply preserves_raise.
Qed.

Lemma preserves_setup_virtualenv (sandbox : bool) : preserves R (setup_virtualenv sandbox).
Proof.
  apply preserves_bind; [apply preserves_gets | intros []].
  - apply preserves_raise.
  - apply preserves_bash.
Qed.

Lemma preserves_setup_virtualenv_refresh : preserves R setup_virtualenv_refresh.
Proof.
  apply preserves_bind; [apply preserves_attr_list | intros reqs].
  apply preserves_bind.
  - apply preserves_for_each. intros fn.
    apply preserves_bind; [apply preserves_attr_str | intros src].
    apply preserves_bash.
  - intros _. apply preserves_bind; [apply preserves_attr_str | intros src].
    apply preserves_bash.
Qed.

Lemma preserves_setup_anaconda : preserves R setup_anaconda.
Proof.
  apply preserves_bind; [apply preserves_gets | intros cfg].
  cbv zeta. destruct (negb (truthy _)); [apply preserves_raise |].
  apply preserves_bind; [apply preserves_gets | intros resolve].
  apply preserves_bind; [apply preserves_gets | intros []]; cbn [negb].
  - apply preserves_bind; [apply preserves_gets | intros cwd].
    apply preserves_bind; [apply preserves_bash | intros _].
    apply preserves_bind; [apply preserves_attr_true | intros []].
    + apply preserves_bind; [apply preserves_attr_str | intros src].
      apply preserves_bash.
    + apply preserves_ret.
  - apply preserves_raise.
Qed.

Lemma preserves_call (name : string) :
  preserves R (method_body name) → preserves R (call_method name).
Proof.
  intros Hbody.
  apply preserves_bind; [apply R_emit; discriminate | intros _].
  apply preserves_bind; [exact Hbody | intros _].
  apply R_emit; discriminate.
Qed.

(** Every hook but [register_finished] and [setup_anaconda_refresh]. *)
Lemma preserves_method_body_quiet (name : string) :
  name ≠ "register_finished"%string →
  name ≠ "setup_anaconda_refresh"%string →
  preserves R (method_body name).
Proof.
  intros Hname Hname'. unfold method_body.
  repeat match goal with
         | |- preserves R (if String.eqb name ?s then _ else _) =>
             destruct (String.eqb_spec name s)
         end; try congruence.
  - apply preserves_setup_virtualenv.
  - apply preserves_setup_virtualenv.
  - apply preserves_setup_virtualenv_refresh.
  - apply preserves_setup_anaconda.
  - apply preserves_ret.
  - apply preserves_bind; [apply preserves_check_spotchange | intros _].
    apply preserves_ret.
  - apply preserves_raise.
Qed.

Hypothesis R_py2 :
  preserves R (set_attr_item "loader_commands" "env_activate"
                 "env/envs/py2/bin/activate py2").
Hypothesis R_source_cmd : ∀ v, preserves R (set_attr "source_cmd" v).

Lemma preserves_setup_anaconda_refresh : preserves R setup_anaconda_refresh.
Proof.
  apply preserves_bind; [apply preserves_attr_true | intros py2].
  apply preserves_bind.
  - destruct py2; [| apply preserves_ret].
    apply preserves_bind; [apply R_py2 | intros _]. apply R_source_cmd.
  - intros _. apply preserves_bind; [apply preserves_attr_list | intros l1].
    apply preserves_bind.
    + apply preserves_for_each. intros fn.
      apply preserves_bind; [apply preserves_attr_str | intros src].
      apply preserves_bash.
    + intros _. apply preserves_bind; [apply preserves_attr_list | intros l2].
      apply preserves_for_each. intros fn.
      apply preserves_bind; [apply preserves_attr_str | intros src].
      apply preserves_bash.
Qed.

(** Every hook but [register_finished]. *)
Lemma preserves_method_body (name : string) :
  name ≠ "register_finished"%string → preserves R (method_body name).
Proof.
  intros Hname.
  destruct (String.eqb_spec name "setup_anaconda_refresh") as [-> | Hne].
  - apply preserves_setup_anaconda_refresh.
  - apply preserves_method_body_quiet; assumption.
Qed.
End Frame.

(** ** The two frames of the hooks *)

Lemma trace_grows_refl (st : state) : trace_grows st st.
Proof. exists []. rewrite app_nil_r. split; [reflexivity | constructor]. Qed.

Lemma trace_grows_trans (a b c : state) :
  trace_grows a b → trace_grows b c → trace_grows a c.
Proof.
  intros (e1 & H1 & F1) (e2 & H2 & F2). exists (e1 ++ e2).
  rewrite H2, H1, app_assoc. split; [reflexivity | apply Forall_app; split; assumption].
Qed.

Lemma quiet_step_refl (st : state) : quiet_step st st.
Proof. repeat split. apply trace_grows_refl. Qed.

Lemma quiet_step_trans (a b c : state) :
  quiet_step a b → quiet_step b c → quiet_step a c.
Proof.
  intros (Hs1 & Hd1 & Hh1 & Hn1 & He1 & Ht1) (Hs2 & Hd2 & Hh2 & Hn2 & He2 & Ht2).
  repeat split; try congruence. eapply trace_grows_trans; eassumption.
Qed.

Lemma quiet_step_emit (e : event) :
  (∀ c, e ≠ EWriteConfig c) → preserves quiet_step (emit e).
Proof.
  intros He st. repeat split. exists [e]. split; [reflexivity |].
  constructor; [exact He | constructor].
Qed.

Lemma py2_at_idem (l : loc) (h : gmap loc (gmap string string)) :
  py2_at l (py2_at l h) = py2_at l h.
Proof.
  unfold py2_at. rewrite lookup_insert_eq. cbn [default from_option id].
  rewrite !insert_insert_eq. reflexivity.
Qed.

Lemma quiet_is_hook_step (a b : state) : quiet_step a b → hook_step a b.
Proof.
  intros (Hs & Hd & Hh & Hn & He & Ht).
  unfold hook_step. rewrite Hs. repeat split; try assumption. left. exact Hh.
Qed.

Lemma hook_step_refl (st : state) : hook_step st st.
Proof. apply quiet_is_hook_step, quiet_step_refl. Qed.

Lemma hook_step_trans (a b c : state) :
  hook_step a b → hook_step b c → hook_step a c.
Proof.
  intros (Hc1 & Hs1 & Hk1 & Hd1 & Hn1 & He1 & Hh1 & Ht1)
         (Hc2 & Hs2 & Hk2 & Hd2 & Hn2 & He2 & Hh2 & Ht2).
  repeat split; try congruence.
  - intros key Hkey. rewrite Hk2, Hk1 by assumption. reflexivity.
  - destruct Hh2 as [Hh2 | (l2 & Hl2 & Hh2)]; rewrite Hh2.
    + exact Hh1.
    + rewrite Hk1 in Hl2 by discriminate.
      destruct Hh1 as [Hh1 | (l1 & Hl1 & Hh1)]; rewrite Hh1.
      * right. exists l2. split; [exact Hl2 | reflexivity].
      * right. exists l1. split; [exact Hl1 |].
        assert (l2 = l1) by congruence. subst l2. apply py2_at_idem.
  - eapply trace_grows_trans; eassumption.
Qed.

Lemma hook_step_emit (e : event) :
  (∀ c, e ≠ EWriteConfig c) → preserves hook_step (emit e).
Proof. intros He st. apply quiet_is_hook_step, quiet_step_emit, He. Qed.

Lemma hook_step_source_cmd (v : value) : preserves hook_step (set_attr "source_cmd" v).
Proof.
  intros st. unfold hook_step, trace_grows. cbn.
  repeat split; try (left; reflexivity).
  - intros key Hkey. apply dict_get_set_ne. congruence.
  - exists []. rewrite app_nil_r. split; [reflexivity | constructor].
Qed.

Lemma hook_step_py2 :
  preserves hook_step (set_attr_item "loader_commands" "env_activate"
                         "env/envs/py2/bin/activate py2").
Proof.
  intros st. unfold set_attr_item. rewrite bind_unfold.
  unfold attr. rewrite bind_unfold. cbn [gets].
  destruct (dict_get (self_dict (self st)) "loader_commands") as [[s | b | l | l] |] eqn:Hl;
    try apply hook_step_refl.
  unfold hook_step, trace_grows. cbn.
  repeat split.
  - right. exists l. split; [exact Hl | reflexivity].
  - exists []. rewrite app_nil_r. split; [reflexivity | constructor].
Qed.

Lemma quiet_step_mkdir (fn : string) : preserves quiet_step (mkdir fn).
Proof.
  intros st. unfold mkdir. rewrite bind_unfold. cbn [gets].
  destruct (fs (w st) !! fn); [apply quiet_step_refl |].
  repeat split. exists [EMkdir fn]. split; [reflexivity |].
  constructor; [discriminate | constructor].
Qed.

Lemma quiet_step_make_required_folders : preserves quiet_step make_required_folders.
Proof.
  apply (preserves_for_each _ quiet_step_refl quiet_step_trans). intros fn.
  apply (preserves_bind _ quiet_step_trans).
  - apply (preserves_gets _ quiet_step_refl).
  - intros []; cbn [negb].
    + apply (preserves_ret _ quiet_step_refl).
    + apply quiet_step_mkdir.
Qed.

Lemma quiet_step_call (name : string) :
  name ≠ "register_finished"%string →
  name ≠ "setup_anaconda_refresh"%string →
  preserves quiet_step (call_method name).
Proof.
  intros H1 H2. apply (preserves_call _ quiet_step_trans quiet_step_emit).
  apply (preserves_method_body_quiet _ quiet_step_refl quiet_step_trans quiet_step_emit);
    assumption.
Qed.

Lemma hook_step_call (name : string) :
  name ≠ "register_finished"%string → preserves hook_step (call_method name).
Proof.
  intros H1. apply (preserves_call _ hook_step_trans hook_step_emit).
  apply (preserves_method_body _ hook_step_refl hook_step_trans hook_step_emit
           hook_step_py2 hook_step_source_cmd); assumption.
Qed.

Lemma quiet_step_check_spotchange : preserves quiet_step check_spotchange.
Proof. apply (preserves_check_spotchange _ quiet_step_refl quiet_step_trans). Qed.

(** ** Registration *)

Lemma mem_dict_keys {A} (d : list (string * A)) (k : string) :
  mem k (dict_keys d) = true ↔ is_Some (dict_get d k).
Proof.
  unfold mem, dict_keys.
  induction d as [| [k' v] d IH]; cbn [map fst existsb dict_get].
  - split; [discriminate | intros [? ?]; discriminate].
  - rewrite (String.eqb_sym k k'). destruct (String.eqb k' k); cbn [orb].
    + split; eauto.
    + exact IH.
Qed.

Lemma hasattr_of_dict (name : string) (st : state) :
  is_Some (dict_get (self_dict (self st)) name) → hasattr name st = (Ok true, st).
Proof.
  intros Hsome. unfold hasattr, gets, instance_keys. do 2 f_equal.
  unfold mem at 1. rewrite existsb_app.
  apply mem_dict_keys in Hsome. unfold mem in Hsome. rewrite Hsome.
  rewrite orb_true_r. reflexivity.
Qed.

(** [register_finished] either raises without having touched anything, or
    returns having written the configuration with a new stamp and the
    activation command found through [loader_commands]. *)
Lemma register_finished_summary (st : state) (v : value) :
  dict_get (self_dict (self st)) "loader_commands" = Some v →
  (∃ e, register_finished st = (Raise e, st))
  ∨ (∃ l a, v = VRef l
            ∧ heap (w st) !! l ≫= (fun d => d !! "env_activate"%string) = Some a
            ∧ register_finished st = (Ok tt, registered (Some a) st)).
Proof.
  intros Hv. unfold register_finished.
  rewrite (bind_ok _ _ st st true) by (apply hasattr_of_dict; rewrite Hv; eauto).
  unfold attr_item, attr. rewrite !bind_unfold. cbn [gets self w]. rewrite Hv.
  cbn [ret]. destruct v as [s | b | fns | l]; try (left; eexists; reflexivity).
  rewrite bind_unfold. cbn [gets].
  destruct (heap (w st) !! l ≫= _) as [a |] eqn:Ha; [| left; eexists; reflexivity].
  right. exists l, a. split; [reflexivity |]. split; [exact Ha |]. reflexivity.
Qed.

Lemma attr_str_read (name s : string) (st : state) :
  dict_get (self_dict (self st)) name = Some (VStr s) → attr_str name st = (Ok s, st).
Proof.
  intros H. unfold attr_str, attr. rewrite !bind_unfold. cbn [gets]. rewrite H.
  reflexivity.
Qed.

Lemma hasattr_method (name : string) (st : state) :
  mem name method_names = true → hasattr name st = (Ok true, st).
Proof.
  intros H. unfold hasattr, gets. rewrite H, orb_true_r. reflexivity.
Qed.

Lemma welcome_message_runs (st : state) :
  call_method "welcome_message" st = (Ok tt, welcomed st).
Proof. reflexivity. Qed.

(** ** The life cycle, whatever the hooks are *)

Section LifeCycle.
Context (R : state → state → Prop).
Hypothesis R_refl : ∀ st, R st st.
Hypothesis R_trans : ∀ a b c, R a b → R b c → R a c.
Hypothesis R_hook : ∀ a b, R a b → hook_step a b.
Context (kickstart refresh_hook : string).
Hypothesis R_kickstart : preserves R (call_method kickstart).
Hypothesis R_refresh : preserves R (call_method refresh_hook).

(** From the decision to the welcome message: the run either raises in
    a state the hooks could have left, with nothing registered, or
    returns after the hooks, one registration and the welcome message. *)
Lemma setup_or_refresh_summary (rf : bool) (st : state) (l : loc) :
  dict_get (self_dict (self st)) "setup_kickstart" = Some (VStr kickstart) →
  dict_get (self_dict (self st)) "setup_refresh" = Some (VStr refresh_hook) →
  dict_get (self_dict (self st)) "welcome" = Some (VStr "welcome_message") →
  dict_get (self_dict (self st)) "loader_commands" = Some (VRef l) →
  (∃ e st', setup_or_refresh rf st = (Raise e, st') ∧ R st st')
  ∨ (∃ st1 a, R st st1
              ∧ heap (w st1) !! l ≫= (fun d => d !! "env_activate"%string) = Some a
              ∧ setup_or_refresh rf st = (Ok tt, welcomed (registered (Some a) st1))).
Proof.
  intros Hk Hr Hw Hl. unfold setup_or_refresh.
  rewrite bind_unfold. cbn [gets].
  set (ts := self_timestamp (self st)).
  (* the decision *)
  match goal with
  | |- context [bind ?m ?k st] =>
      rewrite (bind_unfold m k st);
      assert (Hdecide : preserves R m);
      [| pose proof (Hdecide st) as HR1;
         destruct (m st) as [[do_refresh | e] st1]; cbn [snd] in HR1;
         [| left; eauto] ]
  end.
  { destruct (truthy ts); [| apply (preserves_ret _ R_refl)].
    apply (preserves_bind _ R_trans);
      [apply (preserves_check_spotchange _ R_refl R_trans) | intros c].
    apply (preserves_ret _ R_refl). }
  (* kick-start *)
  match goal with
  | |- context [bind ?m ?k st1] =>
      rewrite (bind_unfold m k st1);
      assert (Hkick : ∃ r st2, m st1 = (r, st2) ∧ R st st2);
      [| destruct Hkick as ([[] | e] & st2 & -> & HR2); [| left; eauto] ]
  end.
  { destruct (negb (truthy ts)).
    - rewrite (bind_ok _ _ st1 st1 kickstart).
      + pose proof (R_kickstart st1) as HR2.
        destruct (call_method kickstart st1) as [r st2]. exists r, st2.
        split; [reflexivity | eauto].
      + apply attr_str_read. destruct (R_hook _ _ HR1) as (_ & _ & Hkeys & _).
        rewrite Hkeys by discriminate. exact Hk.
    - exists (Ok tt), st1. split; [reflexivity | exact HR1]. }
  (* refresh *)
  match goal with
  | |- context [bind ?m ?k st2] =>
      rewrite (bind_unfold m k st2);
      assert (Hrefresh : ∃ r st3, m st2 = (r, st3) ∧ R st st3);
      [| destruct Hrefresh as ([[] | e] & st3 & -> & HR3); [| left; eauto] ]
  end.
  { destruct (negb (truthy ts) || do_refresh).
    - rewrite (bind_ok _ _ st2 st2 refresh_hook).
      + pose proof (R_refresh st2) as HR3.
        destruct (call_method refresh_hook st2) as [r st3]. exists r, st3.
        split; [reflexivity | eauto].
      + apply attr_str_read. destruct (R_hook _ _ HR2) as (_ & _ & Hkeys & _).
        rewrite Hkeys by discriminate. exact Hr.
    - exists (Ok tt), st2. split; [reflexivity | exact HR2]. }
  (* registration and welcome *)
  destruct (R_hook _ _ HR3) as (_ & _ & Hkeys & _).
  rewrite bind_unfold.
  destruct (register_finished_summary st3 (VRef l)) as [[e He] | (l' & a & Hl' & Ha & Hreg)].
  { rewrite Hkeys by discriminate. exact Hl. }
  - rewrite He. left. eauto.
  - injection Hl' as <-. rewrite Hreg. right. exists st3, a.
    split; [exact HR3 |]. split; [exact Ha |].
    rewrite (bind_ok _ _ _ (registered (Some a) st3) "welcome_message"%string).
    + rewrite (bind_ok _ _ _ (registered (Some a) st3) true)
        by (apply hasattr_method; reflexivity).
      apply welcome_message_runs.
    + apply attr_str_read. cbn [registered self self_dict].
      rewrite Hkeys by discriminate. exact Hw.
Qed.
End LifeCycle.

(** ** The species of the table *)

Lemma meta_species (kind : string) (species : list (string * value)) :
  dict_get meta kind = Some species →
  ∃ kickstart refresh_hook l,
    dict_get species "setup_kickstart" = Some (VStr kickstart)
    ∧ dict_get species "setup_refresh" = Some (VStr refresh_hook)
    ∧ dict_get species "welcome" = Some (VStr "welcome_message")
    ∧ dict_get species "loader_commands" = Some (VRef l)
    ∧ kickstart ≠ "register_finished"%string
    ∧ kickstart ≠ "setup_anaconda_refresh"%string
    ∧ refresh_hook ≠ "register_finished"%string
    ∧ (refresh_hook = "setup_anaconda_refresh"%string →
         kind = "anaconda"%string ∧ l = loader_anaconda)
    ∧ fold_left (fun d kv => dict_set d (fst kv) (snd kv)) species [] = species.
Proof.
  intros H. set (m := meta) in H. vm_compute in m. subst m. cbn [dict_get] in H.
  repeat match type of H with
         | (if String.eqb ?s kind then _ else _) = _ =>
             destruct (String.eqb_spec s kind) as [<- | _];
             [injection H as <-; do 3 eexists;
              repeat (split; [first [reflexivity | discriminate] |]);
              first [reflexivity | split; [intros; first [discriminate | split; reflexivity] | reflexivity]] |]
         end.
  discriminate.
Qed.

Lemma load_species_runs (species : list (string * value)) (st : state) :
  load_species species st
  = (Ok tt, mk_state
              (mk_instance (self_config (self st)) (self_timestamp (self st))
                 (self_kind (self st))
                 (fold_left (fun d kv => dict_set d (fst kv) (snd kv)) species
                    (self_dict (self st))))
              (w st)).
Proof.
  unfold load_species. revert st.
  induction species as [| [k v] species IH]; intros st; cbn [for_each fold_left].
  - destruct st as [[] ?]. reflexivity.
  - rewrite bind_unfold. cbn [set_attr set_self]. rewrite IH. reflexivity.
Qed.

Lemma registrations_app (a b : list event) :
  registrations (a ++ b) = registrations a ++ registrations b.
Proof. unfold registrations. apply flat_map_app. Qed.

Lemma registrations_grown (st st' : state) :
  trace_grows st st' → registrations (trace (w st')) = registrations (trace (w st)).
Proof.
  intros (evs & -> & Hevs). rewrite registrations_app.
  assert (Hnone : registrations evs = []).
  { induction Hevs as [| e evs He _ IH]; [reflexivity |].
    destruct e; cbn; try exact IH. exfalso. eapply He. reflexivity. }
  rewrite Hnone, app_nil_r. reflexivity.
Qed.

(** ** What a construction does to the configuration and to the table *)

(** Whatever the world and the flag: the heap is left alone, unless the
    species is anaconda, in which case the py2 activation path may have
    been assigned into its [loader_commands]; a run that raises leaves
    the configuration on disk alone and registers nothing; a run that
    returns has registered once, and what is on disk is the old
    configuration with the activation command and a stamp of the
    current time. *)
Lemma construction_summary (x : world) (rf : bool) :
  ∃ r st', FactoryEnv rf x = (r, st')
    ∧ now (w st') = now x
    ∧ (heap (w st') = heap x
       ∨ (disk x !! "species"%string = Some "anaconda"%string
          ∧ heap (w st') = py2_loader (heap x)))
    ∧ match r with
      | Raise _ =>
          disk (w st') = disk x
          ∧ registrations (trace (w st')) = registrations (trace x)
      | Ok _ =>
          ∃ a, disk (w st')
               = <["setup_stamp"%string := strftime_stamp (now x)]>
                   (<["activate_env"%string := a]> (disk x))
               ∧ registrations (trace (w st'))
                 = registrations (trace x) ++ [disk (w st')]
      end.
Proof.
  unfold FactoryEnv, __init__. rewrite bind_unfold.
  pose proof (quiet_step_make_required_folders (mk_state blank x)) as Q1.
  destruct (make_required_folders _) as [[[] | e] st1]; cbn [snd] in Q1;
    destruct Q1 as (Hs1 & Hd1 & Hh1 & Hn1 & He1 & Ht1); cbn [self w] in *;
    pose proof (registrations_grown _ _ Ht1) as Hreg1; cbn [w] in Hreg1.
  2: { do 2 eexists. split; [reflexivity |]. auto. }
  rewrite bind_unfold. cbn [read_config gets]. rewrite bind_unfold. cbn [set_self].
  cbv zeta. rewrite Hd1, Hs1.
  destruct (disk x !! "species"%string) as [kind |] eqn:Hkind; cbn [mbind option_bind].
  2: { do 2 eexists. split; [reflexivity |]. cbn [w]. auto. }
  destruct (dict_get meta kind) as [species |] eqn:Hspecies.
  2: { do 2 eexists. split; [reflexivity |]. cbn [w]. auto. }
  destruct (meta_species _ _ Hspecies)
    as (K & Rn & l & Hk & Hr & Hw & Hl & HK1 & HK2 & HR1 & Hana & Hload).
  rewrite bind_unfold. cbn [set_self]. rewrite bind_unfold, load_species_runs.
  cbn [self w self_config self_timestamp self_kind self_dict blank]. rewrite Hload.
  set (st3 := mk_state _ (w st1)).
  assert (Hrun :
    (∃ e st', setup_or_refresh rf st3 = (Raise e, st') ∧ hook_step st3 st'
              ∧ (heap (w st') = heap (w st3)
                 ∨ (kind = "anaconda"%string ∧ heap (w st') = py2_loader (heap (w st3)))))
    ∨ (∃ st4 a, hook_step st3 st4
                ∧ (heap (w st4) = heap (w st3)
                   ∨ (kind = "anaconda"%string ∧ heap (w st4) = py2_loader (heap (w st3))))
                ∧ setup_or_refresh rf st3 = (Ok tt, welcomed (registered (Some a) st4)))).
  { destruct (String.eqb_spec Rn "setup_anaconda_refresh") as [HRn | HRn].
    - destruct (Hana HRn) as [-> ->].
      assert (Hheap : ∀ st', hook_step st3 st' →
                heap (w st') = heap (w st3)
                ∨ ("anaconda"%string = "anaconda"%string
                   ∧ heap (w st') = py2_loader (heap (w st3)))).
      { intros st' (_ & _ & _ & _ & _ & _ & [Hh | (l' & Hl' & Hh)] & _); [auto |].
        right. split; [reflexivity |]. cbn [st3 self self_dict] in Hl'.
        rewrite Hl in Hl'. injection Hl' as <-. exact Hh. }
      destruct (setup_or_refresh_summary hook_step hook_step_refl hook_step_trans
                  (fun a b H => H) K Rn (hook_step_call K HK1) (hook_step_call Rn HR1)
                  rf st3 loader_anaconda Hk Hr Hw Hl)
        as [(e & st' & Heq & HR) | (st4 & a & HR & Ha & Heq)].
      + left. exists e, st'. auto.
      + right. exists st4, a. auto.
    - destruct (setup_or_refresh_summary quiet_step quiet_step_refl quiet_step_trans
                  quiet_is_hook_step K Rn (quiet_step_call K HK1 HK2)
                  (quiet_step_call Rn HR1 HRn) rf st3 l Hk Hr Hw Hl)
        as [(e & st' & Heq & HR) | (st4 & a & HR & Ha & Heq)].
      + left. exists e, st'. split; [exact Heq |].
        split; [apply quiet_is_hook_step, HR |]. left. apply HR.
      + right. exists st4, a. split; [apply quiet_is_hook_step, HR |].
        split; [left; apply HR | exact Heq]. }
  destruct Hrun as [(e & st' & -> & HR & Hheap) | (st4 & a & HR & Hheap & ->)];
    destruct HR as (Hc & _ & _ & Hd & Hn & _ & _ & Ht);
    pose proof (registrations_grown _ _ Ht) as Hreg; cbn [st3 self w self_config] in *;
    do 2 eexists; (split; [reflexivity |]).
  - split; [congruence |]. split; [| split; congruence].
    destruct Hheap as [-> | [-> ->]]; [left; congruence | right].
    split; [reflexivity | rewrite Hh1; reflexivity].
  - cbn [welcomed registered w now heap disk trace].
    split; [congruence |]. split.
    + destruct Hheap as [-> | [-> ->]]; [left; congruence | right].
      split; [reflexivity | rewrite Hh1; reflexivity].
    + exists a. unfold registered_config. rewrite Hc, Hn, Hn1. split; [reflexivity |].
      rewrite !registrations_app, Hreg, Hreg1. cbn [registrations flat_map app].
      rewrite !app_nil_r. reflexivity.
Qed.

(** ** The required folders *)

Lemma ensure_folder_frame (x : world) (fn : string) :
  disk (ensure_folder x fn) = disk x
  ∧ heap (ensure_folder x fn) = heap x
  ∧ now (ensure_folder x fn) = now x
  ∧ ext (ensure_folder x fn) = ext x.
Proof. unfold ensure_folder. destruct (fs x !! fn); repeat split. Qed.

Lemma scaffolded_frame (x : world) :
  disk (scaffolded x) = disk x
  ∧ heap (scaffolded x) = heap x
  ∧ now (scaffolded x) = now x
  ∧ ext (scaffolded x) = ext x.
Proof.
  unfold scaffolded. generalize required_folders. intros l. revert x.
  induction l as [| fn l IH]; intros x; cbn [fold_left]; [repeat split |].
  destruct (IH (ensure_folder x fn)) as (-> & -> & -> & ->).
  apply ensure_folder_frame.
Qed.

(** Entries that exist are left as they are. *)
Lemma ensure_folder_keeps (x : world) (fn p : string) (n : node) :
  fs x !! p = Some n → fs (ensure_folder x fn) !! p = Some n.
Proof.
  intros Hp. unfold ensure_folder. destruct (fs x !! fn) eqn:Hfn; [exact Hp |].
  cbn [fs]. rewrite lookup_insert_ne; [exact Hp | congruence].
Qed.

Lemma scaffolded_keeps (x : world) (p : string) (n : node) :
  fs x !! p = Some n → fs (scaffolded x) !! p = Some n.
Proof.
  unfold scaffolded. generalize required_folders. intros l. revert x.
  induction l as [| fn l IH]; intros x Hp; cbn [fold_left]; [exact Hp |].
  apply IH, ensure_folder_keeps, Hp.
Qed.

(** Paths other than the required folders are left as they are. *)
Lemma scaffolded_other (x : world) (p : string) :
  ¬ In p required_folders → fs (scaffolded x) !! p = fs x !! p.
Proof.
  unfold scaffolded. generalize required_folders. intros l. revert x.
  induction l as [| fn l IH]; intros x Hp; cbn [fold_left]; [reflexivity |].
  rewrite IH by (intros Hin; apply Hp; right; exact Hin).
  unfold ensure_folder. destruct (fs x !! fn); [reflexivity |]. cbn [fs].
  apply lookup_insert_ne. intros ->. apply Hp. left. reflexivity.
Qed.

(** Afterwards each required folder is there: the entry that was there
    before, or a new directory. *)
Lemma scaffolded_present (x : world) (fn : string) :
  In fn required_folders →
  ∃ n, fs (scaffolded x) !! fn = Some n ∧ (fs x !! fn = Some n ∨ is_dir n = true).
Proof.
  unfold scaffolded. generalize required_folders. intros l. revert x.
  induction l as [| fn' l IH]; intros x Hin; [destruct Hin |].
  cbn [fold_left].
  assert (Hkeep : ∀ l y n, fs y !! fn = Some n →
                    fs (fold_left ensure_folder l y) !! fn = Some n).
  { clear. induction l as [| fn' l IH]; intros y n Hn; cbn [fold_left]; [exact Hn |].
    apply IH, ensure_folder_keeps, Hn. }
  destruct (fs x !! fn) as [n |] eqn:Hfn.
  { exists n. split; [| left; reflexivity].
    apply Hkeep, ensure_folder_keeps, Hfn. }
  destruct Hin as [-> | Hin].
  - exists (mk_node true (now x)). split; [| right; reflexivity].
    apply Hkeep. unfold ensure_folder. rewrite Hfn. cbn [fs].
    apply lookup_insert_eq.
  - destruct (IH (ensure_folder x fn') Hin) as (n & Hn & Hcase).
    exists n. split; [exact Hn |]. destruct Hcase as [Hold | Hdir]; [| right; exact Hdir].
    right. unfold ensure_folder in Hold. destruct (fs x !! fn') eqn:Hfn'.
    + congruence.
    + cbn [fs] in Hold. destruct (String.eq_dec fn' fn) as [-> | Hne].
      * rewrite lookup_insert_eq in Hold. injection Hold as <-. reflexivity.
      * rewrite lookup_insert_ne in Hold by exact Hne. congruence.
Qed.

(** The events of the scaffold are the creations of the folders that were
    not there. *)
Lemma scaffolded_trace (x : world) :
  ∃ evs, trace (scaffolded x) = trace x ++ evs
         ∧ Forall (fun e => ∃ fn, e = EMkdir fn ∧ In fn required_folders) evs.
Proof.
  unfold scaffolded.
  assert (Hgen : ∀ l y, ∃ evs, trace (fold_left ensure_folder l y) = trace y ++ evs
                               ∧ Forall (fun e => ∃ fn, e = EMkdir fn ∧ In fn l) evs).
  { induction l as [| fn l IH]; intros y; cbn [fold_left].
    - exists []. rewrite app_nil_r. split; [reflexivity | constructor].
    - destruct (IH (ensure_folder y fn)) as (evs & -> & Hevs).
      assert (Hweak : Forall (fun e => ∃ fn0, e = EMkdir fn0 ∧ In fn0 (fn :: l)) evs).
      { eapply Forall_impl; [exact Hevs |]. intros e (fn0 & -> & Hin).
        exists fn0. split; [reflexivity | right; exact Hin]. }
      unfold ensure_folder. destruct (fs y !! fn).
      + exists evs. split; [reflexivity | exact Hweak].
      + cbn [trace]. exists (EMkdir fn :: evs). rewrite <- app_assoc.
        split; [reflexivity |]. constructor; [| exact Hweak].
        exists fn. split; [reflexivity | left; reflexivity]. }
  apply Hgen.
Qed.

Lemma make_required_folders_runs (i : instance) (x : world) :
  folders_free x = true →
  make_required_folders (mk_state i x) = (Ok tt, mk_state i (scaffolded x)).
Proof.
  unfold make_required_folders, folders_free, scaffolded.
  generalize required_folders. intros l. revert x.
  induction l as [| fn l IH]; intros x Hfree; cbn [for_each fold_left forallb] in *;
    [reflexivity |].
  apply andb_true_iff in Hfree as [Hfn Hrest].
  rewrite bind_unfold, bind_unfold. cbn [isdir gets w].
  unfold ensure_folder. destruct (fs x !! fn) as [n |] eqn:Hlook.
  - rewrite Hfn. cbn [negb ret]. apply IH, Hrest.
  - cbn [negb]. unfold mkdir. rewrite bind_unfold. cbn [gets w]. rewrite Hlook.
    cbn. apply IH. cbn [fs].
    apply forallb_forall. intros fn' Hin.
    rewrite forallb_forall in Hrest. specialize (Hrest fn' Hin).
    destruct (String.eq_dec fn fn') as [<- | Hne].
    + rewrite lookup_insert_eq. reflexivity.
    + rewrite lookup_insert_ne by exact Hne. exact Hrest.
Qed.

Lemma calls_app (a b : list event) : calls (a ++ b) = calls a ++ calls b.
Proof. unfold calls. apply flat_map_app. Qed.

Lemma scaffolded_calls (x : world) :
  calls (trace (scaffolded x)) = calls (trace x)
  ∧ registrations (trace (scaffolded x)) = registrations (trace x)
  ∧ List.filter is_lifecycle (trace (scaffolded x)) = List.filter is_lifecycle (trace x).
Proof.
  destruct (scaffolded_trace x) as (evs & -> & Hevs).
  rewrite calls_app, registrations_app, List.filter_app.
  assert (Hnone : calls evs = [] ∧ registrations evs = []
                  ∧ List.filter is_lifecycle evs = []).
  { induction Hevs as [| e evs (fn & -> & _) _ IH]; [repeat split |]. exact IH. }
  destruct Hnone as (-> & -> & ->). rewrite !app_nil_r. repeat split.
Qed.

(** ** Unknown species *)

(** C7: when the configuration names no species, or one that is not in
    the table, and the names of the required folders are not taken by
    files, the construction ends with [sys.exit(1)] (the spec's
    UnknownSpeciesError); no hook has been called and nothing registered,
    the configuration on disk is as before, and the file system differs
    only in that [logs] and [connections] now exist. *)
Theorem unknown_species_exits (x : world) (rf : bool) :
  disk x !! "species"%string ≫= dict_get meta = None →
  folders_free x = true →
  ∃ st', FactoryEnv rf x = (Raise (SystemExit 1), st')
    ∧ calls (trace (w st')) = calls (trace x)
    ∧ registrations (trace (w st')) = registrations (trace x)
    ∧ disk (w st') = disk x
    ∧ (∀ fn, In fn required_folders →
         ∃ n, fs (w st') !! fn = Some n ∧ is_dir n = true)
    ∧ (∀ p, ¬ In p required_folders → fs (w st') !! p = fs x !! p).
Proof.
  intros Hkind Hfree. unfold FactoryEnv, __init__.
  rewrite bind_unfold, (make_required_folders_runs _ _ Hfree).
  rewrite bind_unfold. cbn [read_config gets w]. rewrite bind_unfold. cbn [set_self].
  destruct (scaffolded_frame x) as (Hd & _). cbv zeta. rewrite Hd, Hkind.
  eexists. split; [reflexivity |]. cbn [w].
  destruct (scaffolded_calls x) as (Hc & Hr & _).
  repeat (split; [assumption |]). split.
  - intros fn Hin. destruct (scaffolded_present x fn Hin) as (n & Hn & Hcase).
    exists n. split; [exact Hn |]. destruct Hcase as [Hold | Hdir]; [| exact Hdir].
    unfold folders_free in Hfree. rewrite forallb_forall in Hfree.
    specialize (Hfree fn Hin). rewrite Hold in Hfree. exact Hfree.
  - apply scaffolded_other.
Qed.

Lemma unknown_species_exits_witness :
  ∃ st', FactoryEnv false Samples.unconfigured = (Raise (SystemExit 1), st')
    ∧ calls (trace (w st')) = calls (trace Samples.unconfigured)
    ∧ registrations (trace (w st')) = registrations (trace Samples.unconfigured)
    ∧ disk (w st') = disk Samples.unconfigured
    ∧ (∀ fn, In fn required_folders →
         ∃ n, fs (w st') !! fn = Some n ∧ is_dir n = true)
    ∧ (∀ p, ¬ In p required_folders →
         fs (w st') !! p = fs Samples.unconfigured !! p).
Proof. apply unknown_species_exits; reflexivity. Defined.

(** ** The staleness check *)

Lemma attr_list_read (name : string) (l : list string) (st : state) :
  dict_get (self_dict (self st)) name = Some (VList l) → attr_list name st = (Ok l, st).
Proof.
  intros H. unfold attr_list, attr. rewrite !bind_unfold. cbn [gets]. rewrite H.
  reflexivity.
Qed.

Lemma newer_than_stamp_missing (fn : string) (st : state) :
  fs (w st) !! fn = None → newer_than_stamp fn st = (Raise (OSError fn), st).
Proof.
  intros H. unfold newer_than_stamp, getmtime. rewrite !bind_unfold. cbn [gets].
  rewrite H. reflexivity.
Qed.

Lemma newer_than_stamp_runs (fn s : string) (t : N) (n : node) (st : state) :
  self_timestamp (self st) = Some s →
  Decimal.int_of_str s = Some t →
  fs (w st) !! fn = Some n →
  newer_than_stamp fn st = (Ok (file_newer (w st) s fn), st).
Proof.
  intros Hts Hint Hfn. unfold newer_than_stamp, getmtime, file_newer.
  rewrite !bind_unfold. cbn [gets]. rewrite Hfn. cbn [ret mtime].
  destruct (StampFacts.stamp_is_number (mtime n)) as [m Hm].
  rewrite bind_unfold. cbn [int_]. rewrite Hm. cbn [ret].
  rewrite !bind_unfold. cbn [gets]. rewrite Hts. cbn [int_]. rewrite Hint.
  reflexivity.
Qed.

(** The list comprehension of [check_spotchange]: reading the
    modification times fails at the first path that does not exist;
    otherwise the files newer than the stamp are kept. *)
Lemma changed_files_spec (fns : list string) (s : string) (t : N) (st : state) :
  self_timestamp (self st) = Some s →
  Decimal.int_of_str s = Some t →
  changed_files fns st
  = (match find (missing (w st)) fns with
     | Some fn => Raise (OSError fn)
     | None => Ok (List.filter (file_newer (w st) s) fns)
     end, st).
Proof.
  intros Hts Hint. induction fns as [| fn fns IH]; [reflexivity |].
  cbn [changed_files find List.filter]. rewrite bind_unfold. unfold missing at 1.
  destruct (fs (w st) !! fn) as [n |] eqn:Hfn.
  - rewrite (newer_than_stamp_runs fn s t n st Hts Hint Hfn).
    rewrite bind_unfold, IH. destruct (find (missing (w st)) fns); [reflexivity |].
    cbn [ret]. destruct (file_newer (w st) s fn); reflexivity.
  - rewrite (newer_than_stamp_missing fn st Hfn). reflexivity.
Qed.

(** What [check_spotchange] computes for the species of the table: it
    fails at the first dependency file that does not exist; otherwise it
    tells whether a file of the last list enumerated is newer than the
    stamp. *)
Lemma check_spotchange_spec (kind : string) (species : list (string * value))
    (cfg : gmap string string) (s : string) (t : N) (k : option string) (y : world) :
  dict_get meta kind = Some species →
  Decimal.int_of_str s = Some t →
  check_spotchange (mk_state (mk_instance cfg (Some s) k species) y)
  = (match find (missing y) (dep_files species) with
     | Some fn => Raise (OSError fn)
     | None => Ok (existsb (file_newer y s) (List.last (req_lists species) []))
     end, mk_state (mk_instance cfg (Some s) k species) y).
Proof.
  intros H Hint. set (m := meta) in H. vm_compute in m. subst m. cbn [dict_get] in H.
  repeat match type of H with
         | (if String.eqb ?n kind then _ else _) = _ =>
             destruct (String.eqb_spec n kind) as [_ | _]; [injection H as <- |]
         | None = Some _ => discriminate
         end;
    match goal with
    | |- context [dep_files ?sp] =>
        let d := eval vm_compute in (dep_files sp) in
        let r := eval vm_compute in (List.last (req_lists sp) []) in
        change (dep_files sp) with d;
        change (List.last (req_lists sp) []) with r
    end;
    unfold check_spotchange; rewrite bind_unfold; cbn [gets self];
    match goal with
    | |- context [List.filter ?p ?l] =>
        let keys := eval vm_compute in (List.filter p l) in
        change (List.filter p l) with keys
    end;
    cbn [spot_loop];
    repeat (rewrite ?bind_unfold;
            first [ erewrite attr_list_read by reflexivity
                  | erewrite changed_files_spec by (first [reflexivity | exact Hint]) ];
            cbn [w find ret];
            try match goal with
                | |- context [missing y ?f] => destruct (missing y f); [reflexivity |]
                end);
    cbn [ret raise List.filter any_str existsb];
    repeat match goal with
           | |- context [file_newer y s ?f] => destruct (file_newer y s f)
           end; reflexivity.
Qed.

Lemma register_finished_runs (st : state) (l : loc) (a : string) :
  dict_get (self_dict (self st)) "loader_commands" = Some (VRef l) →
  heap (w st) !! l ≫= (fun d => d !! "env_activate"%string) = Some a →
  register_finished st = (Ok tt, registered (Some a) st).
Proof.
  intros Hl Ha.
  destruct (register_finished_summary st (VRef l) Hl)
    as [[e He] | (l' & a' & Hl' & Ha' & Hreg)].
  - exfalso. unfold register_finished in He.
    rewrite (bind_ok _ _ st st true) in He by (apply hasattr_of_dict; rewrite Hl; eauto).
    unfold attr_item, attr in He. rewrite !bind_unfold in He. cbn [gets] in He.
    rewrite Hl in He. cbn [ret] in He. rewrite bind_unfold in He. cbn [gets] in He.
    rewrite Ha in He. discriminate He.
  - injection Hl' as <-. rewrite Ha in Ha'. injection Ha' as <-. exact Hreg.
Qed.

Lemma truthy_of_number (s : string) (t : N) :
  Decimal.int_of_str s = Some t → truthy (Some s) = true.
Proof. destruct s; [discriminate | reflexivity]. Qed.

Lemma dep_files_concat (species : list (string * value)) :
  dep_files species = concat (req_lists species).
Proof.
  unfold dep_files, req_lists.
  induction species as [| [k v] species IH]; [reflexivity |].
  cbn [flat_map fst snd]. rewrite IH.
  destruct v; try reflexivity.
  destruct (String.prefix "reqs" k); [| reflexivity].
  cbn [app concat]. reflexivity.
Qed.

Lemma last_list_in_dep_files (species : list (string * value)) (fn : string) :
  In fn (List.last (req_lists species) []) → In fn (dep_files species).
Proof.
  rewrite dep_files_concat. generalize (req_lists species). intros ls.
  induction ls as [| l ls IH]; [intros [] |].
  intros Hin. cbn [concat]. apply in_or_app.
  destruct ls as [| l' ls]; [left; exact Hin | right; apply IH, Hin].
Qed.

Lemma dep_files_not_folders (kind : string) (species : list (string * value)) (fn : string) :
  dict_get meta kind = Some species →
  In fn (dep_files species) → ¬ In fn required_folders.
Proof.
  intros H. set (m := meta) in H. vm_compute in m. subst m. cbn [dict_get] in H.
  repeat match type of H with
         | (if String.eqb ?n kind then _ else _) = _ =>
             destruct (String.eqb_spec n kind) as [_ | _]; [injection H as <- |]
         | None = Some _ => discriminate
         end;
    match goal with
    | |- In fn (dep_files ?sp) → _ =>
        let d := eval vm_compute in (dep_files sp) in change (dep_files sp) with d
    end;
    intros Hin Hfolder; cbn [In required_folders] in *;
    repeat match goal with
           | H : _ ∨ _ |- _ => destruct H
           | H : False |- _ => destruct H
           end; subst; discriminate.
Qed.

(** The instance and the world when [__init__] reaches the life-cycle
    decision. *)
Lemma init_reaches_decision (x : world) (rf : bool) (kind : string)
    (species : list (string * value)) :
  disk x !! "species"%string = Some kind →
  dict_get meta kind = Some species →
  folders_free x = true →
  FactoryEnv rf x = setup_or_refresh rf (loaded (scaffolded x) kind species).
Proof.
  intros Hkind Hspecies Hfree. unfold FactoryEnv, __init__.
  rewrite bind_unfold, (make_required_folders_runs _ _ Hfree).
  rewrite bind_unfold. cbn [read_config gets w]. rewrite bind_unfold. cbn [set_self].
  destruct (scaffolded_frame x) as (Hd & _). cbv zeta. rewrite Hd, Hkind.
  cbn [mbind option_bind]. rewrite Hspecies.
  rewrite bind_unfold. cbn [set_self]. rewrite bind_unfold, load_species_runs.
  cbn [self w self_config self_timestamp self_kind self_dict blank].
  destruct (meta_species _ _ Hspecies) as (? & ? & ? & _ & _ & _ & _ & _ & _ & _ & _ & ->).
  unfold loaded. rewrite Hd. reflexivity.
Qed.

Lemma no_file_missing (y : world) (fns : list string) :
  (∀ fn, In fn fns → is_Some (fs y !! fn)) → find (missing y) fns = None.
Proof.
  intros Hall. induction fns as [| fn fns IH]; [reflexivity |].
  cbn [find]. unfold missing at 1.
  destruct (Hall fn (or_introl eq_refl)) as [n ->].
  apply IH. intros fn' Hin. apply Hall. right. exact Hin.
Qed.

Lemma file_newer_scaffolded (x : world) (s fn : string) :
  is_Some (fs x !! fn) → file_newer (scaffolded x) s fn = file_newer x s fn.
Proof.
  intros [n Hn]. unfold file_newer. rewrite (scaffolded_keeps x fn n Hn), Hn.
  reflexivity.
Qed.

(** ** The run that finds the environment fresh *)

(** C9: when a stamp is stored, every dependency file of the species
    exists and none is newer than the stamp, and no refresh is forced, the
    construction returns normally having called neither the kick-start
    nor the refresh hook, and yet it has registered: the configuration on
    disk is the old one with [activate_env] rewritten and [setup_stamp]
    replaced by a stamp of the current time. *)
Theorem fresh_run_still_registers (x : world) (kind s : string) (t : N)
    (species : list (string * value)) (a : string) :
  disk x !! "species"%string = Some kind →
  dict_get meta kind = Some species →
  disk x !! "setup_stamp"%string = Some s →
  Decimal.int_of_str s = Some t →
  folders_free x = true →
  (∀ fn, In fn (dep_files species) →
     is_Some (fs x !! fn) ∧ file_newer x s fn = false) →
  loader_entry (heap x) species = Some a →
  ∃ st', FactoryEnv false x = (Ok tt, st')
    ∧ calls (trace (w st')) = calls (trace x) ++ ["welcome_message"%string]
    ∧ registrations (trace (w st')) = registrations (trace x) ++ [disk (w st')]
    ∧ disk (w st')
      = <["setup_stamp"%string := strftime_stamp (now x)]>
          (<["activate_env"%string := a]> (disk x)).
Proof.
  intros Hkind Hspecies Hstamp Hint Hfree Hfiles Hloader.
  rewrite (init_reaches_decision x false kind species Hkind Hspecies Hfree).
  destruct (scaffolded_frame x) as (Hd & Hh & Hn & He).
  destruct (scaffolded_calls x) as (Hcalls & Hregs & _).
  destruct (meta_species _ _ Hspecies)
    as (K & Rn & l & Hk & Hr & Hw & Hl & _).
  unfold loader_entry in Hloader. rewrite Hl in Hloader.
  unfold setup_or_refresh, loaded. rewrite Hd, Hstamp.
  rewrite bind_unfold. cbn [gets self self_timestamp].
  rewrite (truthy_of_number s t Hint).
  rewrite bind_unfold, bind_unfold,
    (check_spotchange_spec kind species _ s t _ _ Hspecies Hint).
  rewrite no_file_missing by (intros fn Hin; destruct (Hfiles fn Hin) as [[n Hfn] _];
                              exists n; apply scaffolded_keeps, Hfn).
  assert (Hold : existsb (file_newer (scaffolded x) s) (List.last (req_lists species) [])
                 = false).
  { apply not_true_is_false. intros Hex. apply existsb_exists in Hex as (fn & Hin & Hnew).
    apply last_list_in_dep_files in Hin. destruct (Hfiles fn Hin) as [Hsome Hnot].
    rewrite file_newer_scaffolded in Hnew by exact Hsome. congruence. }
  rewrite Hold. cbn [negb orb]. lazy beta iota delta [ret].
  do 2 (rewrite bind_unfold; lazy beta iota).
  rewrite bind_unfold.
  erewrite register_finished_runs; [| exact Hl | cbn [w]; rewrite Hh; exact Hloader].
  rewrite bind_unfold. erewrite attr_str_read by exact Hw.
  rewrite bind_unfold, (hasattr_method "welcome_message") by reflexivity.
  rewrite welcome_message_runs.
  eexists. split; [reflexivity |].
  cbn [welcomed registered w trace disk]. unfold registered_config.
  cbn [self w self_config now]. rewrite Hn.
  rewrite !calls_app, !registrations_app, Hcalls, Hregs.
  cbn [calls registrations flat_map app]. rewrite !app_nil_r.
  repeat split.
Qed.

Lemma fresh_run_still_registers_witness :
  ∃ st', FactoryEnv false Samples.fresh_virtualenv = (Ok tt, st')
    ∧ calls (trace (w st'))
      = calls (trace Samples.fresh_virtualenv) ++ ["welcome_message"%string]
    ∧ registrations (trace (w st'))
      = registrations (trace Samples.fresh_virtualenv) ++ [disk (w st')]
    ∧ disk (w st')
      = <["setup_stamp"%string := strftime_stamp (now Samples.fresh_virtualenv)]>
          (<["activate_env"%string := "env/bin/activate"%string]>
             (disk Samples.fresh_virtualenv)).
Proof.
  apply (fresh_run_still_registers Samples.fresh_virtualenv "virtualenv"
           (strftime_stamp Samples.t_oct01) 2026100109001790859600
           Samples.virtualenv_species "env/bin/activate");
    try (vm_compute; reflexivity).
  intros fn [<- | []]. split; [eexists |]; vm_compute; reflexivity.
Defined.

(** ** A dependency file that does not exist *)

(** C10: when a stamp is stored and some dependency file of the species
    does not exist, the construction ends with the [OSError] that reading
    the modification time of such a file raises; no hook has been called,
    nothing has been registered and the configuration on disk is as
    before. *)
Theorem missing_dependency_aborts (x : world) (rf : bool) (kind s : string) (t : N)
    (species : list (string * value)) :
  disk x !! "species"%string = Some kind →
  dict_get meta kind = Some species →
  disk x !! "setup_stamp"%string = Some s →
  Decimal.int_of_str s = Some t →
  folders_free x = true →
  (∃ fn, In fn (dep_files species) ∧ fs x !! fn = None) →
  ∃ fn st', In fn (dep_files species) ∧ fs x !! fn = None
    ∧ FactoryEnv rf x = (Raise (OSError fn), st')
    ∧ calls (trace (w st')) = calls (trace x)
    ∧ registrations (trace (w st')) = registrations (trace x)
    ∧ disk (w st') = disk x.
Proof.
  intros Hkind Hspecies Hstamp Hint Hfree (fn0 & Hin0 & Hnone0).
  rewrite (init_reaches_decision x rf kind species Hkind Hspecies Hfree).
  destruct (scaffolded_frame x) as (Hd & _).
  destruct (scaffolded_calls x) as (Hcalls & Hregs & _).
  unfold setup_or_refresh, loaded. rewrite Hd, Hstamp.
  rewrite bind_unfold. cbn [gets self self_timestamp].
  rewrite (truthy_of_number s t Hint).
  rewrite bind_unfold, bind_unfold,
    (check_spotchange_spec kind species _ s t _ _ Hspecies Hint).
  destruct (find (missing (scaffolded x)) (dep_files species)) as [fn |] eqn:Hfind.
  - apply find_some in Hfind as [Hin Hmiss].
    exists fn. eexists. split; [exact Hin |].
    split; [| split; [reflexivity | cbn [w]; auto]].
    unfold missing in Hmiss.
    rewrite (scaffolded_other x fn (dep_files_not_folders _ _ _ Hspecies Hin)) in Hmiss.
    destruct (fs x !! fn); [discriminate | reflexivity].
  - exfalso. pose proof (find_none _ _ Hfind fn0 Hin0) as Hthere.
    unfold missing in Hthere.
    rewrite (scaffolded_other x fn0 (dep_files_not_folders _ _ _ Hspecies Hin0)),
      Hnone0 in Hthere.
    discriminate.
Qed.

Lemma missing_dependency_aborts_witness :
  ∃ fn st', In fn (dep_files Samples.virtualenv_species)
    ∧ fs Samples.virtualenv_reqs_missing !! fn = None
    ∧ FactoryEnv false Samples.virtualenv_reqs_missing = (Raise (OSError fn), st')
    ∧ calls (trace (w st')) = calls (trace Samples.virtualenv_reqs_missing)
    ∧ registrations (trace (w st')) = registrations (trace Samples.virtualenv_reqs_missing)
    ∧ disk (w st') = disk Samples.virtualenv_reqs_missing.
Proof.
  apply (missing_dependency_aborts Samples.virtualenv_reqs_missing false "virtualenv"
           (strftime_stamp Samples.t_oct01) 2026100109001790859600
           Samples.virtualenv_species);
    try (vm_compute; reflexivity).
  exists "mill/requirements_virtualenv.txt"%string.
  split; [left; reflexivity | vm_compute; reflexivity].
Defined.

(** ** Failure before registration *)

(** C6: when the refresh hook raises, the construction raises with the
    hook's error, in the state the hook left: nothing runs after it, so
    nothing is registered, and the configuration on disk, stamp
    included, is what it was before the run.  The refresh hook is
    reached on a first run once the kick-start hook has returned, and on
    a later run once the staleness check has answered and either it or
    the flag asks for a refresh. *)
Theorem failed_refresh_aborts_before_registration (x : world) (rf : bool)
    (kind : string) (species : list (string * value)) (kickstart refresh_hook : string)
    (changed : bool) (st_r st_f : state) (e : exn) :
  disk x !! "species"%string = Some kind →
  dict_get meta kind = Some species →
  dict_get species "setup_kickstart" = Some (VStr kickstart) →
  dict_get species "setup_refresh" = Some (VStr refresh_hook) →
  folders_free x = true →
  (if truthy (disk x !! "setup_stamp"%string)
   then check_spotchange (loaded (scaffolded x) kind species) = (Ok changed, st_r)
        ∧ changed || rf = true
   else call_method kickstart (loaded (scaffolded x) kind species) = (Ok tt, st_r)) →
  method_body refresh_hook (log_event st_r (ECall refresh_hook)) = (Raise e, st_f) →
  FactoryEnv rf x = (Raise e, st_f)
  ∧ disk (w st_f) = disk x
  ∧ registrations (trace (w st_f)) = registrations (trace x).
Proof.
  intros Hkind Hspecies Hk Hr Hfree Hreach Hfail.
  assert (Hrun : FactoryEnv rf x = (Raise e, st_f)).
  { rewrite (init_reaches_decision x rf kind species Hkind Hspecies Hfree).
    destruct (scaffolded_frame x) as (Hd & _).
    destruct (meta_species _ _ Hspecies) as (K & Rn & l & Hk' & _ & _ & _ & HK & _).
    rewrite Hk in Hk'. injection Hk' as <-.
    set (st0 := loaded (scaffolded x) kind species) in *.
    assert (Hts : self_timestamp (self st0) = disk x !! "setup_stamp"%string)
      by (cbn [st0 loaded self self_timestamp]; rewrite Hd; reflexivity).
    assert (Hcall : ∀ st, dict_get (self_dict (self st)) "setup_refresh"
                          = Some (VStr refresh_hook) →
              st = st_r →
              (r <- attr_str "setup_refresh" ;; call_method r)%py st = (Raise e, st_f)).
    { intros st Hattr ->. rewrite bind_unfold, (attr_str_read _ _ _ Hattr).
      assert (Hemit : ∀ ev st', emit ev st' = (Ok tt, log_event st' ev))
        by reflexivity.
      unfold call_method. rewrite bind_unfold, Hemit, bind_unfold, Hfail.
      reflexivity. }
    unfold setup_or_refresh. rewrite bind_unfold. cbn [gets]. rewrite Hts.
    destruct (truthy (disk x !! "setup_stamp"%string)); cbn [negb orb].
    - destruct Hreach as [Hcheck Hdo].
      rewrite bind_unfold, bind_unfold, Hcheck. lazy beta iota delta [ret].
      rewrite Hdo. rewrite bind_unfold. lazy beta iota.
      rewrite bind_unfold, (Hcall st_r); [reflexivity | | reflexivity].
      pose proof (quiet_step_check_spotchange st0) as Hq. rewrite Hcheck in Hq.
      destruct Hq as (Hself & _). cbn [snd] in Hself. rewrite Hself. exact Hr.
    - lazy beta iota delta [ret]. rewrite bind_unfold. lazy beta iota.
      rewrite bind_unfold, bind_unfold, (attr_str_read _ _ st0 Hk), Hreach.
      rewrite bind_unfold, (Hcall st_r); [reflexivity | | reflexivity].
      pose proof (hook_step_call kickstart HK st0) as Hh. rewrite Hreach in Hh.
      destruct Hh as (_ & _ & Hkeys & _). cbn [snd] in Hkeys.
      rewrite Hkeys by discriminate. exact Hr. }
  split; [exact Hrun |].
  destruct (construction_summary x rf) as (r & st'' & Heq & _ & _ & Hcase).
  rewrite Hrun in Heq. injection Heq as <- <-. exact Hcase.
Qed.

(** The first run of a virtualenv environment in which [pip install -r]
    fails. *)
Lemma failed_refresh_aborts_before_registration_witness :
  FactoryEnv false Samples.new_virtualenv_pip_fails
  = (Raise (CommandError
              "source env/bin/activate && pip install -r mill/requirements_virtualenv.txt"),
     snd (method_body "setup_virtualenv_refresh"
            (log_event
               (snd (call_method "setup_virtualenv"
                       (loaded (scaffolded Samples.new_virtualenv_pip_fails) "virtualenv"
                          Samples.virtualenv_species)))
               (ECall "setup_virtualenv_refresh"))))
  ∧ disk (w (snd (method_body "setup_virtualenv_refresh"
                    (log_event
                       (snd (call_method "setup_virtualenv"
                               (loaded (scaffolded Samples.new_virtualenv_pip_fails)
                                  "virtualenv" Samples.virtualenv_species)))
                       (ECall "setup_virtualenv_refresh")))))
    = disk Samples.new_virtualenv_pip_fails
  ∧ registrations
      (trace (w (snd (method_body "setup_virtualenv_refresh"
                        (log_event
                           (snd (call_method "setup_virtualenv"
                                   (loaded (scaffolded Samples.new_virtualenv_pip_fails)
                                      "virtualenv" Samples.virtualenv_species)))
                           (ECall "setup_virtualenv_refresh"))))))
    = registrations (trace Samples.new_virtualenv_pip_fails).
Proof.
  apply (failed_refresh_aborts_before_registration Samples.new_virtualenv_pip_fails false
           "virtualenv" Samples.virtualenv_species "setup_virtualenv"
           "setup_virtualenv_refresh" false
           (snd (call_method "setup_virtualenv"
                   (loaded (scaffolded Samples.new_virtualenv_pip_fails) "virtualenv"
                      Samples.virtualenv_species))));
    vm_compute; reflexivity.
Defined.

(** ** The stamp across registrations *)

(** Between two clock readings in different seconds, the later of which
    is not earlier in its calendar minute, the stamp grows. *)
Lemma stamp_value_strict (t1 t2 : struct_time) :
  calendar_minute t1 <= calendar_minute t2 →
  tm_epoch t1 < tm_epoch t2 →
  stamp_value t1 < stamp_value t2.
Proof.
  intros Hmin Hepoch. unfold stamp_value.
  fold (ndigits (tm_epoch t1)). fold (ndigits (tm_epoch t2)).
  assert (Hk : ndigits (tm_epoch t1) <= ndigits (tm_epoch t2))
    by (apply DecimalFacts.ndigits_mono; lia).
  assert (Hpow : 10 ^ ndigits (tm_epoch t1) <= 10 ^ ndigits (tm_epoch t2))
    by (apply N.pow_le_mono_r; [discriminate | exact Hk]).
  nia.
Qed.




(** ** The table at run time *)

Lemma py2_loader_other (h : gmap loc (gmap string string)) (l : loc) :
  l ≠ loader_anaconda → py2_loader h !! l = h !! l.
Proof. intros Hl. unfold py2_loader, py2_at. apply lookup_insert_ne. congruence. Qed.

(** C5, as the code has it: the dicts of the table after a construction
    are those before it, unless the configured species is anaconda, when
    the py2 activation path may have been assigned to
    [loader_commands['env_activate']] of the anaconda entry, in place (the
    refresh hook does so).  Hence no construction changes what the table
    resolves to for a species other than anaconda, and none changes a
    field of anaconda other than [loader_commands]. *)
Theorem table_changes_only_anaconda_loader (x : world) (rf : bool) :
  (heap (w (snd (FactoryEnv rf x))) = heap x
   ∨ (disk x !! "species"%string = Some "anaconda"%string
      ∧ heap (w (snd (FactoryEnv rf x)))
        = <[loader_anaconda :=
              <["env_activate"%string := "env/envs/py2/bin/activate py2"%string]>
                (default ∅ (heap x !! loader_anaconda))]> (heap x)))
  ∧ (∀ kind, kind ≠ "anaconda"%string →
       resolve (heap (w (snd (FactoryEnv rf x)))) kind = resolve (heap x) kind)
  ∧ (∀ key, key ≠ "loader_commands"%string →
       resolve (heap (w (snd (FactoryEnv rf x)))) "anaconda" ≫= (fun d => dict_get d key)
       = resolve (heap x) "anaconda" ≫= (fun d => dict_get d key)).
Proof.
  destruct (construction_summary x rf) as (r & st' & Heq & _ & Hheap & _).
  rewrite Heq. cbn [snd]. split; [exact Hheap |].
  destruct Hheap as [-> | [_ ->]]; [split; reflexivity |]. split.
  - intros kind Hkind. unfold resolve.
    destruct (dict_get meta kind) as [species |] eqn:H; [| reflexivity].
    set (m := meta) in H. vm_compute in m. subst m. cbn [dict_get] in H.
    repeat match type of H with
           | (if String.eqb ?n kind then _ else _) = _ =>
               destruct (String.eqb_spec n kind) as [? | _]; [injection H as <- |]
           | None = Some _ => discriminate
           end; try congruence;
      cbn [map fst snd resolve_value];
      rewrite py2_loader_other by discriminate; reflexivity.
  - intros key Hkey. unfold resolve.
    set (m := meta). vm_compute in m. subst m. cbn [dict_get String.eqb Ascii.eqb Bool.eqb].
    cbn [mbind option_bind map fst snd resolve_value dict_get].
    repeat match goal with
           | |- context [String.eqb ?n key] =>
               destruct (String.eqb_spec n key) as [? | _]; [congruence || reflexivity |]
           end.
    reflexivity.
Qed.

(** The claim itself fails: the first construction of an anaconda
    environment changes what the table resolves to for anaconda, and a
    second construction in the same process, which runs no hook, registers
    the changed activation path. *)
Lemma anaconda_refresh_rewrites_table :
  fst Runs.anaconda_first = Ok tt
  ∧ loader_entry (heap Samples.new_anaconda) Samples.anaconda_species
    = Some "env/bin/activate"%string
  ∧ loader_entry (heap (w (snd Runs.anaconda_first))) Samples.anaconda_species
    = Some "env/envs/py2/bin/activate py2"%string
  ∧ resolve (heap (w (snd Runs.anaconda_first))) "anaconda"
    ≠ resolve (heap Samples.new_anaconda) "anaconda"
  ∧ fst Runs.anaconda_second = Ok tt
  ∧ calls (trace (w (snd Runs.anaconda_second)))
    = calls (trace (w (snd Runs.anaconda_first))) ++ ["welcome_message"%string]
  ∧ disk (w (snd Runs.anaconda_second)) !! "activate_env"%string
    = Some "env/envs/py2/bin/activate py2"%string.
Proof.
  repeat (split; [vm_compute; reflexivity |]).
  split; [| repeat (split; [vm_compute; reflexivity |]); vm_compute; reflexivity].
  intros Heq.
  assert (Hentry : ∀ h, resolve h "anaconda" ≫= (fun d => dict_get d "loader_commands")
                        = Some (RDict (h !! loader_anaconda))) by reflexivity.
  pose proof (Hentry (heap (w (snd Runs.anaconda_first)))) as H1.
  pose proof (Hentry (heap Samples.new_anaconda)) as H2.
  rewrite Heq, H2 in H1. vm_compute in H1. discriminate H1.
Qed.

(** ** The staleness check on two lists *)

(** C1 at the input where it fails: the conda requirements of an anaconda
    environment are newer than the stored stamp, the pip requirements are
    not; [check_spotchange] answers [False] and the construction calls no
    refresh hook. *)
Theorem conda_edit_goes_unnoticed :
  In "mill/requirements_anaconda_conda.txt"%string (dep_files Samples.anaconda_species)
  ∧ file_newer Samples.anaconda_conda_edited (strftime_stamp Samples.t_oct01)
      "mill/requirements_anaconda_conda.txt" = true
  ∧ file_newer Samples.anaconda_conda_edited (strftime_stamp Samples.t_oct01)
      "mill/requirements_anaconda_pip.txt" = false
  ∧ fst (check_spotchange
           (loaded Samples.anaconda_conda_edited "anaconda" Samples.anaconda_species))
    = Ok false
  ∧ fst (FactoryEnv false Samples.anaconda_conda_edited) = Ok tt
  ∧ calls (trace (w (snd (FactoryEnv false Samples.anaconda_conda_edited))))
    = ["welcome_message"%string].
Proof.
  split; [left; reflexivity |].
  repeat (split; [vm_compute; reflexivity |]). vm_compute. reflexivity.
Qed.

(** ** The entry points *)

(** C2 at the input where it fails: [setup] passes [refresh=True] whatever
    its argument is, so [setup(refresh=False)] on an environment that was
    just registered, with no dependency file modified, calls the refresh
    hook, where the constructor with [refresh=False] calls none. *)
Theorem setup_always_forces_refresh :
  (∀ rf x, setup rf x = FactoryEnv true x)
  ∧ (∀ rf x, init rf x = FactoryEnv true x)
  ∧ file_newer Samples.fresh_virtualenv (strftime_stamp Samples.t_oct01)
      "mill/requirements_virtualenv.txt" = false
  ∧ fst (setup false Samples.fresh_virtualenv) = Ok tt
  ∧ calls (trace (w (snd (setup false Samples.fresh_virtualenv))))
    = ["setup_virtualenv_refresh"; "welcome_message"]%string
  ∧ calls (trace (w (snd (FactoryEnv false Samples.fresh_virtualenv))))
    = ["welcome_message"%string].
Proof.
  split; [reflexivity |]. split; [reflexivity |].
  repeat (split; [vm_compute; reflexivity |]). vm_compute. reflexivity.
Qed.

(** ** Hooks whose commands succeed *)

Lemma emit_runs (e : event) (st : state) : emit e st = (Ok tt, log_event st e).
Proof. reflexivity. Qed.

Lemma logged_snoc (st : state) (evs : list event) (e : event) :
  log_event (logged st evs) e = logged st (evs ++ [e]).
Proof. unfold logged. rewrite fold_left_app. reflexivity. Qed.

Lemma logged_frame (st : state) (evs : list event) :
  self (logged st evs) = self st
  ∧ fs (w (logged st evs)) = fs (w st)
  ∧ disk (w (logged st evs)) = disk (w st)
  ∧ heap (w (logged st evs)) = heap (w st)
  ∧ now (w (logged st evs)) = now (w st)
  ∧ ext (w (logged st evs)) = ext (w st)
  ∧ trace (w (logged st evs)) = trace (w st) ++ evs.
Proof.
  revert st. induction evs as [| e evs IH]; intros st.
  - cbn. rewrite app_nil_r. repeat split.
  - change (logged st (e :: evs)) with (logged (log_event st e) evs).
    destruct (IH (log_event st e)) as (-> & -> & -> & -> & -> & -> & ->).
    cbn. rewrite <- app_assoc. repeat split.
Qed.

Lemma commands_ok_logged (st : state) (evs : list event) :
  commands_ok st → commands_ok (logged st evs).
Proof.
  intros H c. destruct (logged_frame st evs) as (_ & _ & _ & _ & _ & -> & _). apply H.
Qed.

Lemma bash_runs (cmd : string) (log : option string) (st : state) :
  commands_ok st → bash cmd log st = (Ok tt, log_event st (EBash cmd log)).
Proof.
  intros Hok. unfold bash. rewrite bind_unfold, emit_runs, bind_unfold. cbn [gets].
  change (ext (w (log_event st (EBash cmd log)))) with (ext (w st)).
  rewrite Hok. reflexivity.
Qed.

(** A loop that runs one shell command per file. *)
Lemma for_each_bash (fns : list string) (src : string) (command : string → string → event)
    (body : string → M unit) (st : state) :
  commands_ok st →
  (∀ fn st', self st' = self st → commands_ok st' →
     body fn st' = (Ok tt, log_event st' (command src fn))) →
  for_each fns body st = (Ok tt, logged st (map (command src) fns)).
Proof.
  intros Hok Hbody.
  assert (Hgen : ∀ st', self st' = self st → commands_ok st' →
            for_each fns body st' = (Ok tt, logged st' (map (command src) fns))).
  { induction fns as [| fn fns IH]; intros st' Hself Hok'; [reflexivity |].
    cbn [for_each map]. rewrite bind_unfold, (Hbody fn st' Hself Hok').
    apply IH; [exact Hself |]. intros c. apply Hok'. }
  apply Hgen; [reflexivity | exact Hok].
Qed.

Lemma setup_virtualenv_runs (sandbox : bool) (st : state) :
  commands_ok st →
  is_terminal_command (ext (w st)) "virtualenv" = false →
  setup_virtualenv sandbox st = (Ok tt, log_event st (virtualenv_create sandbox)).
Proof.
  intros Hok Hcmd. unfold setup_virtualenv. rewrite bind_unfold. cbn [gets].
  rewrite Hcmd. apply bash_runs, Hok.
Qed.

Lemma setup_virtualenv_refresh_runs (reqs : list string) (src : string) (st : state) :
  commands_ok st →
  dict_get (self_dict (self st)) "reqs" = Some (VList reqs) →
  dict_get (self_dict (self st)) "source_cmd" = Some (VStr src) →
  setup_virtualenv_refresh st
  = (Ok tt, logged st (map (pip_install src) reqs ++ [pip_upgrade src])).
Proof.
  intros Hok Hreqs Hsrc. unfold setup_virtualenv_refresh.
  rewrite bind_unfold, (attr_list_read _ _ _ Hreqs).
  rewrite bind_unfold, (for_each_bash reqs src pip_install _ st Hok).
  2: { intros fn st' Hself Hok'. rewrite bind_unfold.
       rewrite (attr_str_read "source_cmd" src) by (rewrite Hself; exact Hsrc).
       apply bash_runs, Hok'. }
  destruct (logged_frame st (map (pip_install src) reqs)) as (Hself & _).
  rewrite bind_unfold.
  rewrite (attr_str_read "source_cmd" src) by (rewrite Hself; exact Hsrc).
  rewrite bash_runs by (apply commands_ok_logged, Hok).
  rewrite <- logged_snoc. reflexivity.
Qed.

Lemma attr_true_read (name : string) (b : bool) (st : state) :
  dict_get (self_dict (self st)) name = Some (VBool b) → attr_true name st = (Ok b, st).
Proof.
  intros H. unfold attr_true, attr. rewrite !bind_unfold. cbn [gets]. rewrite H.
  reflexivity.
Qed.

Lemma setup_anaconda_runs (location src : string) (n : node) (st : state) :
  commands_ok st →
  self_config (self st) !! "anaconda_location"%string = Some location →
  truthy (Some location) = true →
  fs (w st) !! abspath (ext (w st)) location = Some n →
  is_dir n = false →
  dict_get (self_dict (self st)) "use_python2" = Some (VBool true) →
  dict_get (self_dict (self st)) "source_cmd" = Some (VStr src) →
  setup_anaconda st
  = (Ok tt, logged st [anaconda_install (abspath (ext (w st)) location)
                         (getcwd (ext (w st)));
                       conda_create_py2 src]).
Proof.
  intros Hok Hloc Htruthy Hfile Hdir Hpy2 Hsrc. unfold setup_anaconda.
  rewrite bind_unfold. cbn [gets]. cbv zeta. rewrite Hloc, Htruthy. cbn [negb].
  rewrite bind_unfold. cbn [gets]. rewrite bind_unfold. unfold isfile. cbn [gets].
  cbn [default from_option id]. rewrite Hfile, Hdir. cbn [negb].
  rewrite bind_unfold. cbn [gets]. rewrite bind_unfold, (bash_runs _ _ _ Hok).
  rewrite bind_unfold, (attr_true_read "use_python2" true) by exact Hpy2.
  rewrite bind_unfold, (attr_str_read "source_cmd" src) by exact Hsrc.
  rewrite bash_runs by (apply (commands_ok_logged st [_]), Hok).
  reflexivity.
Qed.

Lemma setup_anaconda_refresh_runs (l : loc) (reqs_conda reqs_pip : list string)
    (st : state) :
  commands_ok st →
  dict_get (self_dict (self st)) "use_python2" = Some (VBool true) →
  dict_get (self_dict (self st)) "loader_commands" = Some (VRef l) →
  dict_get (self_dict (self st)) "reqs_conda" = Some (VList reqs_conda) →
  dict_get (self_dict (self st)) "reqs_pip" = Some (VList reqs_pip) →
  setup_anaconda_refresh st
  = (Ok tt, logged (py2_state l st)
              (map (conda_install "source env/envs/py2/bin/activate py2") reqs_conda
               ++ map (conda_pip_install "source env/envs/py2/bin/activate py2") reqs_pip)).
Proof.
  intros Hok Hpy2 Hl Hconda Hpip. unfold setup_anaconda_refresh.
  rewrite bind_unfold, (attr_true_read "use_python2" true) by exact Hpy2.
  rewrite bind_unfold.
  assert (Hassign :
    (set_attr_item "loader_commands" "env_activate" "env/envs/py2/bin/activate py2" ;;
     set_attr "source_cmd" (VStr "source env/envs/py2/bin/activate py2")) st
    = (Ok tt, py2_state l st)).
  { rewrite bind_unfold. unfold set_attr_item, attr. rewrite !bind_unfold. cbn [gets].
    rewrite Hl. reflexivity. }
  rewrite Hassign.
  assert (Hok2 : commands_ok (py2_state l st)) by exact Hok.
  assert (Hsrc : dict_get (self_dict (self (py2_state l st))) "source_cmd"
                 = Some (VStr "source env/envs/py2/bin/activate py2"))
    by apply dict_get_set_eq.
  assert (Hkeep : ∀ key, key ≠ "source_cmd"%string →
            dict_get (self_dict (self (py2_state l st))) key
            = dict_get (self_dict (self st)) key).
  { intros key Hkey. apply dict_get_set_ne. congruence. }
  rewrite bind_unfold, (attr_list_read "reqs_conda" reqs_conda)
    by (rewrite Hkeep by discriminate; exact Hconda).
  rewrite bind_unfold,
    (for_each_bash reqs_conda "source env/envs/py2/bin/activate py2" conda_install _
       (py2_state l st) Hok2).
  2: { intros fn st' Hself Hok'. rewrite bind_unfold.
       rewrite (attr_str_read "source_cmd" "source env/envs/py2/bin/activate py2" st')
         by (rewrite Hself; exact Hsrc).
       apply bash_runs, Hok'. }
  set (st1 := logged (py2_state l st) _).
  destruct (logged_frame (py2_state l st)
              (map (conda_install "source env/envs/py2/bin/activate py2") reqs_conda))
    as (Hself & _). fold st1 in Hself.
  rewrite bind_unfold, (attr_list_read "reqs_pip" reqs_pip)
    by (rewrite Hself, Hkeep by discriminate; exact Hpip).
  rewrite (for_each_bash reqs_pip "source env/envs/py2/bin/activate py2"
             conda_pip_install _ st1).
  - unfold st1, logged. rewrite fold_left_app. reflexivity.
  - apply commands_ok_logged, Hok2.
  - intros fn st' Hself' Hok'. rewrite bind_unfold.
    rewrite (attr_str_read "source_cmd" "source env/envs/py2/bin/activate py2" st')
      by (rewrite Hself', Hself; exact Hsrc).
    apply bash_runs, Hok'.
Qed.

(** ** The first run *)

Ltac run_with tac := rewrite ?bind_unfold; tac; lazy beta iota.




(** The same for a virtualenv environment, with the shell commands of the
    two hooks. *)
Example first_run_virtualenv_trace :
  fst (FactoryEnv false Samples.new_virtualenv) = Ok tt
  ∧ map (fun e => match e with
                  | EWriteConfig _ => EWriteConfig ∅
                  | _ => e
                  end) (trace (w (snd (FactoryEnv false Samples.new_virtualenv))))
    = [ EMkdir "logs"; EMkdir "connections";
        ECall "setup_virtualenv";
        EBash "virtualenv --system-site-packages env" (Some "logs/log-virtualenv");
        EReturn "setup_virtualenv";
        ECall "setup_virtualenv_refresh";
        EBash "source env/bin/activate && pip install -r mill/requirements_virtualenv.txt"
          (Some "logs/log-virtualenv-pip-requirements_virtualenv.txt");
        EBash "source env/bin/activate && pip install -U 'Sphinx>=1.4.4' 'numpydoc' 'sphinx-better-theme' 'beautifulsoup4'"
          (Some "logs/log-virtualenv-pip");
        EReturn "setup_virtualenv_refresh";
        EWriteConfig ∅;
        ECall "welcome_message"; EReturn "welcome_message" ]%string.
Proof. split; vm_compute; reflexivity. Qed.


(** ** Further runs *)

(** For the species with one list of dependency files the check is the
    one the docstring describes: some dependency file is newer. *)
Lemma single_list_staleness (kind : string) (species : list (string * value))
    (cfg : gmap string string) (s : string) (t : N) (k : option string) (y : world) :
  dict_get meta kind = Some species →
  kind ≠ "anaconda"%string →
  Decimal.int_of_str s = Some t →
  (∀ fn, In fn (dep_files species) → is_Some (fs y !! fn)) →
  fst (check_spotchange (mk_state (mk_instance cfg (Some s) k species) y))
  = Ok (existsb (file_newer y s) (dep_files species)).
Proof.
  intros Hspecies Hkind Hint Hfiles.
  rewrite (check_spotchange_spec kind species cfg s t k y Hspecies Hint).
  rewrite (no_file_missing y _ Hfiles). cbn [fst].
  set (m := meta) in Hspecies. vm_compute in m. subst m. cbn [dict_get] in Hspecies.
  repeat match type of Hspecies with
         | (if String.eqb ?n kind then _ else _) = _ =>
             destruct (String.eqb_spec n kind) as [? | _];
             [injection Hspecies as <- |]
         | None = Some _ => discriminate
         end; try congruence; reflexivity.
Qed.

(** An edited requirements file makes the next construction refresh, and
    the new stamp is later than the file. *)
Example stale_virtualenv_refreshes :
  file_newer Samples.stale_virtualenv (strftime_stamp Samples.t_oct01)
    "mill/requirements_virtualenv.txt" = true
  ∧ fst (FactoryEnv false Samples.stale_virtualenv) = Ok tt
  ∧ calls (trace (w (snd (FactoryEnv false Samples.stale_virtualenv))))
    = ["setup_virtualenv_refresh"; "welcome_message"]%string
  ∧ file_newer (w (snd (FactoryEnv false Samples.stale_virtualenv)))
      (strftime_stamp Samples.t_nov03) "mill/requirements_virtualenv.txt" = false
  ∧ disk (w (snd (FactoryEnv false Samples.stale_virtualenv))) !! "setup_stamp"%string
    = Some (strftime_stamp Samples.t_nov03).
Proof. repeat split; vm_compute; reflexivity. Qed.

(** The constructor with [refresh=True] refreshes an environment that is
    not stale, once. *)
Example forced_refresh_runs_once :
  fst (FactoryEnv true Samples.fresh_virtualenv) = Ok tt
  ∧ calls (trace (w (snd (FactoryEnv true Samples.fresh_virtualenv))))
    = ["setup_virtualenv_refresh"; "welcome_message"]%string.
Proof. split; vm_compute; reflexivity. Qed.

(** * Further properties of the code *)

(** ** Paths below a directory *)

Lemma append_assoc (a b c : string) : (a +:+ b) +:+ c = a +:+ (b +:+ c).
Proof.
  induction a as [| x a IH]; [reflexivity |].
  rewrite !DecimalFacts.append_cons, IH. reflexivity.
Qed.

Lemma prefix_iff (a b : string) :
  String.prefix a b = true ↔ ∃ r, b = a +:+ r.
Proof.
  revert b. induction a as [| x a IH]; intros b.
  - split; [intros _; exists b; reflexivity | intros _; destruct b; reflexivity].
  - destruct b as [| y b].
    + split; [discriminate | intros [r Hr]; discriminate Hr].
    + cbn [String.prefix]. destruct (ascii_dec x y) as [<- | Hne].
      * rewrite IH. split; intros [r Hr]; exists r.
        -- rewrite DecimalFacts.append_cons, Hr. reflexivity.
        -- rewrite DecimalFacts.append_cons in Hr. injection Hr as ->. reflexivity.
      * split; [discriminate |]. intros [r Hr].
        rewrite DecimalFacts.append_cons in Hr. injection Hr as Hxy _. congruence.
Qed.

Lemma under_iff (dn p : string) :
  under dn p = true ↔ p = dn ∨ ∃ r, p = dn +:+ "/" +:+ r.
Proof.
  unfold under. rewrite orb_true_iff, String.eqb_eq, prefix_iff.
  split; (intros [H | [r H]]; [left; exact H | right; exists r]).
  - rewrite H, append_assoc. reflexivity.
  - rewrite H, append_assoc. reflexivity.
Qed.

Lemma under_trans (a b c : string) :
  under a b = true → under b c = true → under a c = true.
Proof.
  rewrite !under_iff. intros [-> | [r1 ->]] [-> | [r2 ->]].
  - left. reflexivity.
  - right. exists r2. reflexivity.
  - right. exists r1. reflexivity.
  - right. exists (r1 +:+ "/" +:+ r2). rewrite !append_assoc. reflexivity.
Qed.

Lemma rmtree_lookup (dn p : string) (f : gmap string node) :
  rmtree dn f !! p = if under dn p then None else f !! p.
Proof.
  unfold rmtree. apply option_eq. intros n. rewrite map_lookup_filter_Some. cbn [fst].
  destruct (under dn p); split.
  - intros [_ H]. discriminate H.
  - discriminate.
  - intros [H _]. exact H.
  - intros H. split; [exact H | reflexivity].
Qed.

Lemma is_directory_rmtree (dn d : string) (f : gmap string node) :
  is_directory (rmtree dn f) d = is_directory f d && negb (under dn d).
Proof.
  unfold is_directory. rewrite rmtree_lookup.
  destruct (under dn d); cbn [negb]; [rewrite andb_false_r | rewrite andb_true_r];
    reflexivity.
Qed.

(** What is left after the folders [dns] have been removed where they
    were directories: the paths that none of them held. *)
Lemma remove_dirs_lookup (dns : list string) (f : gmap string node) (p : string) :
  remove_dirs dns f !! p = if swept dns f p then None else f !! p.
Proof.
  unfold remove_dirs. revert f.
  induction dns as [| dn dns IH]; intros f; [reflexivity |].
  cbn [fold_left]. rewrite IH. unfold swept. cbn [existsb].
  destruct (is_directory f dn) eqn:Hdn; cbn [andb orb]; [| reflexivity].
  rewrite rmtree_lookup.
  destruct (under dn p) eqn:Hp; cbn [orb].
  - destruct (existsb _ dns); reflexivity.
  - assert (Hsame : existsb (fun d => is_directory (rmtree dn f) d && under d p) dns
                    = existsb (fun d => is_directory f d && under d p) dns).
    { clear IH. induction dns as [| d dns IHd]; [reflexivity |].
      cbn [existsb]. rewrite IHd, is_directory_rmtree. f_equal.
      destruct (under dn d) eqn:Hd; cbn [negb]; [| rewrite andb_true_r; reflexivity].
      rewrite andb_false_r. cbn [andb]. symmetry.
      destruct (under d p) eqn:Hdp; [| apply andb_false_r].
      rewrite (under_trans dn d p Hd Hdp) in Hp. discriminate Hp. }
    rewrite Hsame. reflexivity.
Qed.

(** ** Confirmation *)

Lemma ask_all_verdict (answer : string → string) (msgs : list string) :
  fst (ask_all answer msgs) = forallb (fun m => says_yes (answer (question m))) msgs.
Proof.
  induction msgs as [| m msgs IH]; [reflexivity |].
  cbn [ask_all forallb]. destruct (says_yes (answer (question m))); [exact IH | reflexivity].
Qed.

Lemma ask_all_yes (answer : string → string) (msgs : list string) :
  forallb (fun m => says_yes (answer (question m))) msgs = true →
  ask_all answer msgs = (true, map question msgs).
Proof.
  induction msgs as [| m msgs IH]; [reflexivity |].
  cbn [ask_all forallb map]. destruct (says_yes (answer (question m))); [| discriminate].
  intros H. rewrite (IH H). reflexivity.
Qed.

(** X1: the questions are asked one after the other and the asking stops
    at the first answer that does not begin with [y] or [Y]: the
    questions before it and that one have been shown, the later ones
    never are, and the verdict is no. *)
Theorem confirmation_stops_at_first_no (answer : string → string)
    (before after : list string) (m : string) :
  forallb (fun q => says_yes (answer (question q))) before = true →
  says_yes (answer (question m)) = false →
  confirmed false answer (before ++ m :: after)
  = (false, map question (before ++ [m])).
Proof.
  intros Hbefore Hm. unfold confirmed.
  induction before as [| b before IH]; cbn [app ask_all map].
  - rewrite Hm. reflexivity.
  - cbn [forallb] in Hbefore. apply andb_true_iff in Hbefore as [Hb Hrest].
    rewrite Hb, (IH Hrest). reflexivity.
Qed.

Lemma confirmation_stops_at_first_no_witness :
  confirmed false Sites.backs_out
    (["okay to nuke everything"%string] ++ "confirm"%string :: [])
  = (false, map question (["okay to nuke everything"%string] ++ ["confirm"%string])).
Proof. apply confirmation_stops_at_first_no; reflexivity. Defined.

(** ** [nuke] *)

Lemma nuke_confirmed (sure : bool) (answer : string → string) (s : site) :
  fst (confirmed sure answer nuke_questions) = true →
  nuke sure answer s
  = mk_site (remove_dirs (nuke_sensitive ++ nuke_folders) (site_fs s)) nuke_config.
Proof.
  intros H. unfold nuke. rewrite H. f_equal.
  unfold remove_dirs. rewrite fold_left_app. f_equal.
  unfold nuke_sensitive. cbn [List.filter fold_left].
  destruct (is_directory (site_fs s) "data"); reflexivity.
Qed.

Lemma swept_nuke (f : gmap string node) (p : string) :
  swept (nuke_sensitive ++ nuke_folders) f p = swept nuke_folders f p.
Proof.
  unfold swept, nuke_sensitive, nuke_folders. cbn [app existsb].
  destruct (is_directory f "data" && under "data" p);
    destruct (is_directory f "env" && under "env" p);
    destruct (is_directory f "logs" && under "logs" p);
    destruct (is_directory f "calc" && under "calc" p);
    destruct (is_directory f "pack" && under "pack" p);
    destruct (is_directory f "site" && under "site" p); reflexivity.
Qed.

(** X2: once confirmed, [nuke] removes exactly the paths that are, or lie
    below, one of [env], [logs], [calc], [data], [pack], [site] that was
    a directory; every other path is left as it was, and the
    configuration is reset to the three command files and the alias. *)
Theorem nuke_removes_exactly (sure : bool) (answer : string → string) (s : site)
    (p : string) :
  fst (confirmed sure answer nuke_questions) = true →
  site_fs (nuke sure answer s) !! p
  = (if swept nuke_folders (site_fs s) p then None else site_fs s !! p)
  ∧ site_config (nuke sure answer s) = nuke_config.
Proof.
  intros H. rewrite (nuke_confirmed sure answer s H). cbn [site_fs site_config].
  rewrite remove_dirs_lookup, swept_nuke. split; reflexivity.
Qed.

Lemma nuke_removes_exactly_witness :
  site_fs (nuke false Sites.says_y Sites.provisioned) !! "env/bin/activate"%string
  = (if swept nuke_folders (site_fs Sites.provisioned) "env/bin/activate"
     then None else site_fs Sites.provisioned !! "env/bin/activate"%string)
  ∧ site_config (nuke false Sites.says_y Sites.provisioned) = nuke_config.
Proof. apply nuke_removes_exactly. reflexivity. Defined.

(** X3: [nuke] never touches [connections] or anything below it, and a
    regular file that carries the name of one of the folders stays where
    it is. *)
Theorem nuke_keeps_connections_and_files (sure : bool) (answer : string → string)
    (s : site) (p : string) :
  under "connections" p = true
  ∨ (In p nuke_folders ∧ is_directory (site_fs s) p = false) →
  site_fs (nuke sure answer s) !! p = site_fs s !! p.
Proof.
  intros Hp. destruct (fst (confirmed sure answer nuke_questions)) eqn:Hc;
    [| unfold nuke; rewrite Hc; reflexivity].
  rewrite (nuke_confirmed sure answer s Hc). cbn [site_fs].
  rewrite remove_dirs_lookup, swept_nuke.
  assert (Hno : swept nuke_folders (site_fs s) p = false); [| rewrite Hno; reflexivity].
  unfold swept, nuke_folders. cbn [existsb].
  destruct Hp as [Hp | [Hin Hfile]].
  - apply under_iff in Hp. destruct Hp as [-> | [r ->]];
      rewrite !andb_false_r; reflexivity.
  - unfold nuke_folders in Hin. cbn [In] in Hin.
    repeat match goal with
           | H : _ ∨ _ |- _ => destruct H as [Heq | H]; [symmetry in Heq |]
           | H : False |- _ => destruct H
           end;
      subst p; rewrite Hfile; cbn [andb orb]; rewrite ?andb_false_r; reflexivity.
Qed.

Lemma nuke_keeps_connections_and_files_witness :
  site_fs (nuke true Sites.says_n Sites.provisioned) !! "connections/demo.yaml"%string
  = site_fs Sites.provisioned !! "connections/demo.yaml"%string
  ∧ site_fs (nuke true Sites.says_n Sites.provisioned) !! "pack"%string
    = site_fs Sites.provisioned !! "pack"%string.
Proof.
  split; apply nuke_keeps_connections_and_files.
  - left. reflexivity.
  - right. split; [cbn; tauto | reflexivity].
Defined.

(** X4: unless [sure] is given, one answer that does not begin with [y]
    or [Y] is enough for [nuke] to leave the files and the configuration
    alone. *)
Theorem nuke_declined_changes_nothing (answer : string → string) (s : site) :
  forallb (fun m => says_yes (answer (question m))) nuke_questions = false →
  nuke false answer s = s.
Proof.
  intros H. unfold nuke, confirmed. rewrite ask_all_verdict, H. reflexivity.
Qed.

Lemma nuke_declined_changes_nothing_witness :
  nuke false Sites.backs_out Sites.provisioned = Sites.provisioned.
Proof. apply nuke_declined_changes_nothing. reflexivity. Defined.

(** The constructor when the configuration names no species of the
    table: the folders are ensured and the process exits. *)
Lemma init_without_species (x : world) (rf : bool) :
  disk x !! "species"%string ≫= dict_get meta = None →
  folders_free x = true →
  ∃ i, FactoryEnv rf x = (Raise (SystemExit 1), mk_state i (scaffolded x)).
Proof.
  intros Hkind Hfree. unfold FactoryEnv, __init__.
  rewrite bind_unfold, (make_required_folders_runs _ _ Hfree).
  rewrite bind_unfold. cbn [read_config gets w]. rewrite bind_unfold. cbn [set_self].
  destruct (scaffolded_frame x) as (Hd & _). cbv zeta. rewrite Hd, Hkind.
  eexists. reflexivity.
Qed.

Lemma nuke_forgets_species : str_entries nuke_config = ∅.
Proof. reflexivity. Qed.

(** X5: a confirmed [nuke] followed by a construction: the configuration
    [nuke] writes names no species, so the constructor exits with status
    1 before any hook is called or anything is registered; by then it has
    made [logs] anew. *)
Theorem construction_after_nuke_exits (sure : bool) (answer : string → string)
    (s : site) (t : struct_time) (e : externals) (rf : bool) :
  fst (confirmed sure answer nuke_questions) = true →
  folders_free (site_world s t e) = true →
  ∃ st', FactoryEnv rf (site_world (nuke sure answer s) t e) = (Raise (SystemExit 1), st')
    ∧ calls (trace (w st')) = []
    ∧ registrations (trace (w st')) = []
    ∧ disk (w st') = ∅
    ∧ fs (w st') !! "logs"%string = Some (mk_node true t).
Proof.
  intros Hc Hfree.
  set (x := site_world (nuke sure answer s) t e).
  assert (Hfs : ∀ p, fs x !! p
                     = if swept nuke_folders (site_fs s) p then None else site_fs s !! p).
  { intros p. subst x. rewrite (nuke_confirmed sure answer s Hc). cbn [site_world fs site_fs].
    rewrite remove_dirs_lookup, swept_nuke. reflexivity. }
  assert (Hdisk : disk x = ∅).
  { subst x. rewrite (nuke_confirmed sure answer s Hc). exact nuke_forgets_species. }
  unfold folders_free, required_folders in Hfree. cbn [forallb site_world fs] in Hfree.
  apply andb_true_iff in Hfree as [Hlogs Hrest].
  apply andb_true_iff in Hrest as [Hconn _].
  assert (Hnologs : fs x !! "logs"%string = None).
  { rewrite Hfs. unfold swept, nuke_folders, is_directory. cbn [existsb].
    destruct (site_fs s !! "logs"%string) as [n |] eqn:Hn.
    - rewrite Hlogs. rewrite orb_true_r. reflexivity.
    - destruct (_ || _); reflexivity. }
  assert (Hfree' : folders_free x = true).
  { unfold folders_free, required_folders. cbn [forallb]. rewrite Hnologs.
    rewrite Hfs. destruct (swept nuke_folders (site_fs s) "connections"); [reflexivity |].
    rewrite andb_true_r. exact Hconn. }
  destruct (init_without_species x rf) as [i Hrun]; [rewrite Hdisk; reflexivity | exact Hfree' |].
  exists (mk_state i (scaffolded x)). split; [exact Hrun |]. cbn [w].
  destruct (scaffolded_calls x) as (-> & -> & _).
  destruct (scaffolded_frame x) as (-> & _).
  repeat (split; [first [reflexivity | exact Hdisk] |]).
  unfold scaffolded, required_folders. cbn [fold_left].
  apply ensure_folder_keeps. unfold ensure_folder. rewrite Hnologs. cbn [fs].
  rewrite lookup_insert_eq. reflexivity.
Qed.

Lemma construction_after_nuke_exits_witness :
  ∃ st', FactoryEnv false
           (site_world (nuke false Sites.says_y Sites.provisioned) Samples.t_nov03
              Samples.ext_ok)
         = (Raise (SystemExit 1), st')
    ∧ calls (trace (w st')) = []
    ∧ registrations (trace (w st')) = []
    ∧ disk (w st') = ∅
    ∧ fs (w st') !! "logs"%string = Some (mk_node true Samples.t_nov03).
Proof. apply construction_after_nuke_exits; reflexivity. Defined.

(** ** [renew] *)

Lemma bash_fails (cmd : string) (log : option string) (st : state) :
  bash_ok (ext (w st)) cmd = false →
  bash cmd log st = (Raise (CommandError cmd), log_event st (EBash cmd log)).
Proof.
  intros Hno. unfold bash. rewrite bind_unfold, emit_runs, bind_unfold. cbn [gets].
  change (ext (w (log_event st (EBash cmd log)))) with (ext (w st)).
  rewrite Hno. reflexivity.
Qed.

Lemma bash_succeeds (cmd : string) (log : option string) (st : state) :
  bash_ok (ext (w st)) cmd = true →
  bash cmd log st = (Ok tt, log_event st (EBash cmd log)).
Proof.
  intros Hyes. unfold bash. rewrite bind_unfold, emit_runs, bind_unfold. cbn [gets].
  change (ext (w (log_event st (EBash cmd log)))) with (ext (w st)).
  rewrite Hyes. reflexivity.
Qed.

(** X6: a confirmed [renew] has a test set for [virtualenv] and
    [anaconda] only: without a species, or with any other one (the
    sandbox species of the table included), it raises before any command
    has run. *)
Theorem renew_without_testset_raises (species : option string) (sure : bool)
    (answer : string → string) (st : state) :
  fst (confirmed sure answer renew_questions) = true →
  species ≠ Some "virtualenv"%string →
  species ≠ Some "anaconda"%string →
  renew species sure answer st
  = (Raise (Exception_ (if truthy species
                        then "no testset for species " +:+ default EmptyString species
                        else "testset needs a species")), st).
Proof.
  intros Hc Hv Ha. unfold renew. rewrite Hc.
  destruct (truthy species) eqn:Ht; cbn [negb]; [| reflexivity].
  destruct species as [name |]; [| discriminate Ht]. cbn [default from_option id].
  destruct (String.eqb_spec name "virtualenv") as [-> | _]; [congruence |].
  destruct (String.eqb_spec name "anaconda") as [-> | _]; [congruence |].
  reflexivity.
Qed.

Lemma renew_without_testset_raises_witness :
  is_Some (dict_get meta "virtualenv_sandbox")
  ∧ renew (Some "virtualenv_sandbox"%string) true Sites.says_n
      (mk_state blank Samples.new_virtualenv)
    = (Raise (Exception_ "no testset for species virtualenv_sandbox"),
       mk_state blank Samples.new_virtualenv).
Proof.
  split; [eexists; reflexivity |].
  apply (renew_without_testset_raises (Some "virtualenv_sandbox"%string));
    [reflexivity | discriminate | discriminate].
Defined.

(** The three commands of a test set, in the order [renew] runs them. *)
Lemma renew_confirmed (name : string) (sure : bool) (answer : string → string) :
  fst (confirmed sure answer renew_questions) = true →
  name = "virtualenv"%string ∨ name = "anaconda"%string →
  renew (Some name) sure answer
  = (bash (if String.eqb name "virtualenv" then renew_virtualenv else renew_anaconda)
       None ;;
     bash set_omnicalc None ;;
     bash set_automacs None)%py.
Proof.
  intros Hc Hname. unfold renew. rewrite Hc. destruct Hname as [-> | ->]; reflexivity.
Qed.

(** X7: a confirmed [renew] of [virtualenv] or [anaconda] whose commands
    all succeed runs three of them, without a log file: the chain of
    [make] targets of the species, then the two that set the addresses
    of omnicalc and automacs. *)
Theorem renew_runs_three_commands (name : string) (sure : bool)
    (answer : string → string) (st : state) :
  fst (confirmed sure answer renew_questions) = true →
  name = "virtualenv"%string ∨ name = "anaconda"%string →
  commands_ok st →
  renew (Some name) sure answer st
  = (Ok tt,
     logged st
       [EBash (if String.eqb name "virtualenv" then renew_virtualenv else renew_anaconda)
          None;
        EBash set_omnicalc None;
        EBash set_automacs None]).
Proof.
  intros Hc Hname Hok. rewrite (renew_confirmed name sure answer Hc Hname).
  rewrite bind_unfold, (bash_runs _ _ _ Hok). lazy beta iota.
  rewrite bind_unfold, bash_runs by (apply (commands_ok_logged _ [_]), Hok).
  lazy beta iota.
  rewrite bash_runs by (apply (commands_ok_logged _ [_; _]), Hok).
  reflexivity.
Qed.

Lemma renew_runs_three_commands_witness :
  renew (Some "anaconda"%string) false Sites.says_y (mk_state blank Samples.new_anaconda)
  = (Ok tt,
     logged (mk_state blank Samples.new_anaconda)
       [EBash (if String.eqb "anaconda" "virtualenv" then renew_virtualenv
               else renew_anaconda) None;
        EBash set_omnicalc None;
        EBash set_automacs None]).
Proof.
  apply renew_runs_three_commands; [reflexivity | right; reflexivity |].
  intros c. reflexivity.
Defined.

(** X8: the commands of [renew] stop at the first one that fails: the
    error is that command's, the commands before it and that one have
    run, the later ones have not.  In particular the two addresses are
    not set when the chain of [make] targets fails. *)
Theorem renew_stops_at_first_failure (name : string) (sure : bool)
    (answer : string → string) (st : state) (before after : list string) (c : string) :
  fst (confirmed sure answer renew_questions) = true →
  name = "virtualenv"%string ∨ name = "anaconda"%string →
  [if String.eqb name "virtualenv" then renew_virtualenv else renew_anaconda;
   set_omnicalc; set_automacs] = before ++ c :: after →
  forallb (bash_ok (ext (w st))) before = true →
  bash_ok (ext (w st)) c = false →
  renew (Some name) sure answer st
  = (Raise (CommandError c),
     logged st (map (fun cmd => EBash cmd None) (before ++ [c]))).
Proof.
  intros Hc Hname Hcmds Hbefore Hfail.
  rewrite (renew_confirmed name sure answer Hc Hname).
  destruct before as [| b1 before]; cbn [app] in Hcmds.
  { injection Hcmds as <- _. rewrite bind_unfold, (bash_fails _ _ _ Hfail). reflexivity. }
  injection Hcmds as <- Hcmds. cbn [forallb] in Hbefore.
  apply andb_true_iff in Hbefore as [Hb1 Hbefore].
  rewrite bind_unfold, (bash_succeeds _ _ _ Hb1). lazy beta iota.
  destruct before as [| b2 before]; cbn [app] in Hcmds.
  { injection Hcmds as <- _. rewrite bind_unfold, bash_fails by exact Hfail. reflexivity. }
  injection Hcmds as <- Hcmds. cbn [forallb] in Hbefore.
  apply andb_true_iff in Hbefore as [Hb2 Hbefore].
  rewrite bind_unfold, bash_succeeds by exact Hb2. lazy beta iota.
  destruct before as [| b3 before]; cbn [app] in Hcmds.
  { injection Hcmds as <- _. rewrite bash_fails by exact Hfail. reflexivity. }
  injection Hcmds as _ Hcmds. destruct before; discriminate Hcmds.
Qed.

Lemma renew_stops_at_first_failure_witness :
  renew (Some "virtualenv"%string) true Sites.says_n
    (mk_state blank
       (mk_world ∅ ∅ heap_at_import Samples.t_nov03 Sites.ext_chain_fails []))
  = (Raise (CommandError renew_virtualenv),
     logged
       (mk_state blank
          (mk_world ∅ ∅ heap_at_import Samples.t_nov03 Sites.ext_chain_fails []))
       (map (fun cmd => EBash cmd None) ([] ++ [renew_virtualenv]))).
Proof.
  apply (renew_stops_at_first_failure "virtualenv" true Sites.says_n _ []
           [set_omnicalc; set_automacs] renew_virtualenv);
    [reflexivity | left; reflexivity | reflexivity | reflexivity | reflexivity].
Defined.

(** ** A construction that finds a stamp *)

Lemma stale_scaffolded (x : world) (s : string) (fns : list string) :
  (∀ fn, In fn fns → is_Some (fs x !! fn)) →
  existsb (file_newer (scaffolded x) s) fns = existsb (file_newer x s) fns.
Proof.
  induction fns as [| fn fns IH]; intros Hall; [reflexivity |].
  cbn [existsb]. rewrite file_newer_scaffolded by (apply Hall; left; reflexivity).
  rewrite IH by (intros fn' Hin; apply Hall; right; exact Hin). reflexivity.
Qed.

(** The constructor on a directory that has a stamp, when the files of
    the requirement lists are there and every shell command succeeds:
    the refresh hook is called if the last list holds a newer file or
    the flag is set, the kick-start hook never, and the registration
    stores the activation command the species' loader holds by then. *)
Lemma stamped_run (x : world) (rf : bool) (kind s : string) (t : N)
    (species : list (string * value)) (a refresh_hook : string) :
  disk x !! "species"%string = Some kind →
  dict_get meta kind = Some species →
  dict_get species "setup_refresh" = Some (VStr refresh_hook) →
  disk x !! "setup_stamp"%string = Some s →
  Decimal.int_of_str s = Some t →
  folders_free x = true →
  (∀ fn, In fn (dep_files species) → is_Some (fs x !! fn)) →
  (existsb (file_newer x s) (List.last (req_lists species) []) || rf = true →
   ∀ c, bash_ok (ext x) c = true) →
  loader_entry (heap x) species = Some a →
  ∃ st', FactoryEnv rf x = (Ok tt, st')
    ∧ calls (trace (w st'))
      = calls (trace x)
        ++ (if existsb (file_newer x s) (List.last (req_lists species) []) || rf
            then [refresh_hook] else [])
        ++ ["welcome_message"%string]
    ∧ disk (w st')
      = <["setup_stamp"%string := strftime_stamp (now x)]>
          (<["activate_env"%string :=
               if (existsb (file_newer x s) (List.last (req_lists species) []) || rf)
                  && String.eqb kind "anaconda"
               then "env/envs/py2/bin/activate py2"%string else a]> (disk x)).
Proof.
  intros Hkind Hspecies Hr Hstamp Hint Hfree Hfiles Hbash Hloader.
  rewrite (init_reaches_decision x rf kind species Hkind Hspecies Hfree).
  destruct (scaffolded_frame x) as (Hd & Hh & Hn & He).
  destruct (scaffolded_calls x) as (Hcalls & Hregs & _).
  destruct (meta_species _ _ Hspecies) as (K & Rn & l & Hk & Hr' & Hw & Hl & _).
  rewrite Hr in Hr'. injection Hr' as <-.
  unfold loader_entry in Hloader. rewrite Hl in Hloader.
  unfold setup_or_refresh, loaded. rewrite Hd, Hstamp.
  rewrite bind_unfold. cbn [gets self self_timestamp].
  rewrite (truthy_of_number s t Hint).
  rewrite bind_unfold, bind_unfold,
    (check_spotchange_spec kind species _ s t _ _ Hspecies Hint).
  rewrite no_file_missing by (intros fn Hin; destruct (Hfiles fn Hin) as [n Hfn];
                              exists n; apply scaffolded_keeps, Hfn).
  rewrite stale_scaffolded
    by (intros fn Hin; apply Hfiles, last_list_in_dep_files, Hin).
  cbn [negb orb]. lazy beta iota delta [ret].
  destruct (existsb (file_newer x s) (List.last (req_lists species) []) || rf) eqn:Hdo;
    cbn [andb].
  2: { do 2 (rewrite bind_unfold; lazy beta iota).
       rewrite bind_unfold.
       erewrite register_finished_runs; [| exact Hl | cbn [w]; rewrite Hh; exact Hloader].
       rewrite bind_unfold. erewrite attr_str_read by exact Hw.
       rewrite bind_unfold, (hasattr_method "welcome_message") by reflexivity.
       rewrite welcome_message_runs.
       eexists. split; [reflexivity |].
       cbn [welcomed registered w trace disk]. unfold registered_config.
       cbn [self w self_config now]. rewrite Hn.
       rewrite !calls_app, Hcalls.
       cbn [calls flat_map app]. rewrite !app_nil_r.
       split; reflexivity. }
  match goal with
  | |- context [bind _ _ ?st] => set (st0 := st)
  end.
  assert (Hok : commands_ok st0).
  { intros c. cbn [st0 w]. rewrite He. apply Hbash. reflexivity. }
  rewrite bind_unfold. lazy beta iota.
  rewrite bind_unfold, bind_unfold,
    (attr_str_read "setup_refresh" refresh_hook st0 Hr).
  unfold call_method at 1. rewrite bind_unfold, emit_runs, bind_unfold.
  assert (Hfinish : ∀ (st : state) (b : string),
            calls (trace (w st)) = calls (trace x) ++ [refresh_hook] →
            now (w st) = now x →
            self_config (self st) = disk x →
            ∃ st', (Ok tt, welcomed (registered (Some b) st)) = (Ok tt, st')
              ∧ calls (trace (w st'))
                = calls (trace x) ++ [refresh_hook] ++ ["welcome_message"%string]
              ∧ disk (w st')
                = <["setup_stamp"%string := strftime_stamp (now x)]>
                    (<["activate_env"%string := b]> (disk x))).
  { intros st b Htr Hnow Hcfg. eexists. split; [reflexivity |].
    cbn [welcomed registered w trace disk]. unfold registered_config.
    rewrite Hnow, Hcfg, !calls_app, Htr.
    cbn [calls flat_map app]. rewrite !app_nil_r, <- app_assoc. split; reflexivity. }
  set (m := meta) in Hspecies. vm_compute in m. subst m. cbn [dict_get] in Hspecies.
  destruct (String.eqb_spec "virtualenv" kind) as [<- | _].
  { injection Hspecies as <-. injection Hr as <-.
    change (method_body "setup_virtualenv_refresh") with setup_virtualenv_refresh.
    run_with ltac:(erewrite setup_virtualenv_refresh_runs;
      [| apply (commands_ok_logged _ [_]), Hok | reflexivity | reflexivity ]).
    run_with ltac:(rewrite emit_runs).
    cbn [dict_get String.eqb Ascii.eqb Bool.eqb] in Hl. injection Hl as <-.
    run_with ltac:(erewrite register_finished_runs;
      [| reflexivity
       | cbn [st0 heap w log_event logged fold_left map app]; rewrite Hh;
         exact Hloader ]).
    run_with ltac:(erewrite attr_str_read by reflexivity).
    run_with ltac:(rewrite (hasattr_method "welcome_message") by reflexivity).
    rewrite welcome_message_runs.
    change (String.eqb "virtualenv" "anaconda") with false.
    apply Hfinish; [| exact Hn | reflexivity].
    cbn [st0 trace w log_event logged fold_left map app].
    rewrite !calls_app, Hcalls.
    unfold pip_install, pip_upgrade, conda_install, conda_pip_install.
    cbn [calls flat_map app]. rewrite !app_nil_r. reflexivity. }
  destruct (String.eqb_spec "anaconda" kind) as [<- | _].
  { injection Hspecies as <-. injection Hr as <-.
    change (method_body "setup_anaconda_refresh") with setup_anaconda_refresh.
    run_with ltac:(erewrite (setup_anaconda_refresh_runs loader_anaconda);
      [| apply (commands_ok_logged _ [_]), Hok
       | reflexivity | reflexivity | reflexivity | reflexivity ]).
    run_with ltac:(rewrite emit_runs).
    run_with ltac:(erewrite (register_finished_runs _ loader_anaconda);
      [| reflexivity
       | cbn [st0 heap w log_event logged py2_state fold_left map app];
         unfold py2_at; rewrite lookup_insert_eq; cbn [mbind option_bind];
         apply lookup_insert_eq ]).
    run_with ltac:(erewrite attr_str_read by reflexivity).
    run_with ltac:(rewrite (hasattr_method "welcome_message") by reflexivity).
    rewrite welcome_message_runs.
    change (String.eqb "anaconda" "anaconda") with true.
    apply Hfinish; [| exact Hn | reflexivity].
    cbn [st0 trace w log_event logged py2_state fold_left map app].
    rewrite !calls_app, Hcalls.
    unfold pip_install, pip_upgrade, conda_install, conda_pip_install.
    cbn [calls flat_map app]. rewrite !app_nil_r. reflexivity. }
  destruct (String.eqb_spec "virtualenv_sandbox" kind) as [<- | _]; [| discriminate].
  injection Hspecies as <-. injection Hr as <-.
  change (method_body "setup_virtualenv_refresh") with setup_virtualenv_refresh.
  run_with ltac:(erewrite setup_virtualenv_refresh_runs;
    [| apply (commands_ok_logged _ [_]), Hok | reflexivity | reflexivity ]).
  run_with ltac:(rewrite emit_runs).
  cbn [dict_get String.eqb Ascii.eqb Bool.eqb] in Hl. injection Hl as <-.
  run_with ltac:(erewrite register_finished_runs;
    [| reflexivity
     | cbn [st0 heap w log_event logged fold_left map app]; rewrite Hh;
       exact Hloader ]).
  run_with ltac:(erewrite attr_str_read by reflexivity).
  run_with ltac:(rewrite (hasattr_method "welcome_message") by reflexivity).
  rewrite welcome_message_runs.
  change (String.eqb "virtualenv_sandbox" "anaconda") with false.
  apply Hfinish; [| exact Hn | reflexivity].
  cbn [st0 trace w log_event logged fold_left map app].
  rewrite !calls_app, Hcalls.
  unfold pip_install, pip_upgrade, conda_install, conda_pip_install.
  cbn [calls flat_map app]. rewrite !app_nil_r. reflexivity.
Qed.

(** X9: the decision of the constructor on a directory that has a stamp,
    for every species of the table, when the files of the requirement
    lists exist and the shell commands succeed: the refresh hook is
    called, once, exactly if a file of the last requirement list is newer
    than the stamp or [refresh] was passed; the kick-start hook is not
    called; the run registers, and the activation command it stores is
    the py2 one if the species is anaconda and the run refreshed, and
    otherwise the one the [loader_commands] of the species held when
    the run began (in a process that has refreshed anaconda before,
    that is the py2 one already). *)
Theorem refresh_exactly_when_stale_or_forced (x : world) (rf : bool) (kind s : string)
    (t : N) (species : list (string * value)) (a refresh_hook : string) :
  disk x !! "species"%string = Some kind →
  dict_get meta kind = Some species →
  dict_get species "setup_refresh" = Some (VStr refresh_hook) →
  disk x !! "setup_stamp"%string = Some s →
  Decimal.int_of_str s = Some t →
  folders_free x = true →
  (∀ fn, In fn (dep_files species) → is_Some (fs x !! fn)) →
  (∀ c, bash_ok (ext x) c = true) →
  loader_entry (heap x) species = Some a →
  ∃ st', FactoryEnv rf x = (Ok tt, st')
    ∧ calls (trace (w st'))
      = calls (trace x)
        ++ (if existsb (file_newer x s) (List.last (req_lists species) []) || rf
            then [refresh_hook] else [])
        ++ ["welcome_message"%string]
    ∧ disk (w st')
      = <["setup_stamp"%string := strftime_stamp (now x)]>
          (<["activate_env"%string :=
               if (existsb (file_newer x s) (List.last (req_lists species) []) || rf)
                  && String.eqb kind "anaconda"
               then "env/envs/py2/bin/activate py2"%string else a]> (disk x)).
Proof.
  intros Hkind Hspecies Hr Hstamp Hint Hfree Hfiles Hbash Hloader.
  apply (stamped_run x rf kind s t species a refresh_hook); auto.
Qed.

Lemma refresh_exactly_when_stale_or_forced_witness :
  ∃ st', FactoryEnv false Samples.stale_virtualenv = (Ok tt, st')
    ∧ calls (trace (w st'))
      = calls (trace Samples.stale_virtualenv)
        ++ (if existsb (file_newer Samples.stale_virtualenv
                          (strftime_stamp Samples.t_oct01))
                 (List.last (req_lists Samples.virtualenv_species) []) || false
            then ["setup_virtualenv_refresh"%string] else [])
        ++ ["welcome_message"%string]
    ∧ disk (w st')
      = <["setup_stamp"%string := strftime_stamp (now Samples.stale_virtualenv)]>
          (<["activate_env"%string :=
               if (existsb (file_newer Samples.stale_virtualenv
                              (strftime_stamp Samples.t_oct01))
                     (List.last (req_lists Samples.virtualenv_species) []) || false)
                  && String.eqb "virtualenv" "anaconda"
               then "env/envs/py2/bin/activate py2"%string
               else "env/bin/activate"%string]> (disk Samples.stale_virtualenv)).
Proof.
  apply (refresh_exactly_when_stale_or_forced Samples.stale_virtualenv false "virtualenv"
           (strftime_stamp Samples.t_oct01) 2026100109001790859600
           Samples.virtualenv_species "env/bin/activate" "setup_virtualenv_refresh");
    try reflexivity.
  intros fn [<- | []]. eexists. reflexivity.
Defined.

(** X10: two constructions, each in a process of its own.  After a
    construction of any species has returned, a construction without
    [refresh] in a new process, on a directory whose requirement files
    are not newer than the first run's stamp, calls no hook but the
    welcome message; it registers again, and the activation command it
    stores is the one of the class statement, whatever the first run
    had stored. *)
Theorem second_process_is_idle (x x2 : world) (rf : bool) (kind : string)
    (species : list (string * value)) (st1 : state) :
  FactoryEnv rf x = (Ok tt, st1) →
  disk x !! "species"%string = Some kind →
  dict_get meta kind = Some species →
  disk x2 = disk (w st1) →
  heap x2 = heap_at_import →
  folders_free x2 = true →
  (∀ fn, In fn (dep_files species) →
     is_Some (fs x2 !! fn) ∧ file_newer x2 (strftime_stamp (now x)) fn = false) →
  ∃ st2, FactoryEnv false x2 = (Ok tt, st2)
    ∧ calls (trace (w st2)) = calls (trace x2) ++ ["welcome_message"%string]
    ∧ disk (w st2)
      = <["setup_stamp"%string := strftime_stamp (now x2)]>
          (<["activate_env"%string := "env/bin/activate"%string]> (disk (w st1))).
Proof.
  intros Hrun Hkind Hspecies Hdisk Hheap Hfree Hfiles.
  destruct (construction_summary x rf) as (r & st' & Hrun' & _ & _ & Hreg).
  rewrite Hrun in Hrun'. injection Hrun' as <- <-. destruct Hreg as (a1 & Hd1 & _).
  destruct (StampFacts.stamp_is_number (now x)) as [t Hint].
  destruct (meta_species _ _ Hspecies) as (K & Rn & l & _ & Hr & _ & Hl & _).
  assert (Hloader : loader_entry (heap x2) species = Some "env/bin/activate"%string).
  { rewrite Hheap. clear -Hspecies.
    set (m := meta) in Hspecies. vm_compute in m. subst m. cbn [dict_get] in Hspecies.
    repeat match type of Hspecies with
           | (if String.eqb ?n kind then _ else _) = _ =>
               destruct (String.eqb_spec n kind) as [_ | _];
               [injection Hspecies as <-; reflexivity |]
           | None = Some _ => discriminate
           end. }
  assert (Hold : existsb (file_newer x2 (strftime_stamp (now x)))
                   (List.last (req_lists species) []) = false).
  { apply not_true_is_false. intros Hex. apply existsb_exists in Hex as (fn & Hin & Hnew).
    apply last_list_in_dep_files in Hin. destruct (Hfiles fn Hin) as [_ Hnot].
    congruence. }
  destruct (stamped_run x2 false kind (strftime_stamp (now x)) t species
              "env/bin/activate" Rn) as (st2 & Hrun2 & Hcalls & Hd2).
  - rewrite Hdisk, Hd1, lookup_insert_ne, lookup_insert_ne by discriminate. exact Hkind.
  - exact Hspecies.
  - exact Hr.
  - rewrite Hdisk, Hd1. apply lookup_insert_eq.
  - exact Hint.
  - exact Hfree.
  - intros fn Hin. apply Hfiles, Hin.
  - rewrite Hold. discriminate.
  - exact Hloader.
  - exists st2. rewrite Hold in Hcalls, Hd2. cbn [orb andb app] in Hcalls, Hd2.
    rewrite Hdisk in Hd2. auto.
Qed.

Lemma second_process_is_idle_witness :
  ∃ st2, FactoryEnv false (next_process (snd Runs.anaconda_first) (mk_time 2026 11 4 10 15 1793805300))
         = (Ok tt, st2)
    ∧ calls (trace (w st2))
      = calls (trace (next_process (snd Runs.anaconda_first) (mk_time 2026 11 4 10 15 1793805300)))
        ++ ["welcome_message"%string]
    ∧ disk (w st2)
      = <["setup_stamp"%string
          := strftime_stamp (now (next_process (snd Runs.anaconda_first) (mk_time 2026 11 4 10 15 1793805300)))]>
          (<["activate_env"%string := "env/bin/activate"%string]>
             (disk (w (snd Runs.anaconda_first)))).
Proof.
  apply (second_process_is_idle Samples.new_anaconda
           (next_process (snd Runs.anaconda_first) (mk_time 2026 11 4 10 15 1793805300)) false "anaconda"
           Samples.anaconda_species (snd Runs.anaconda_first));
    try (vm_compute; reflexivity).
  intros fn [<- | [<- | []]]; (split; [eexists |]); vm_compute; reflexivity.
Defined.

(** ** A kick-start that fails *)

(** On a directory without a stamp the constructor calls the kick-start
    hook first; when the hook raises, so does the constructor, in the
    state the hook left. *)
Lemma first_run_kickstart_raises (x : world) (rf : bool) (kind : string)
    (species : list (string * value)) (kickstart : string) (e : exn) (st' : state) :
  disk x !! "species"%string = Some kind →
  dict_get meta kind = Some species →
  dict_get species "setup_kickstart" = Some (VStr kickstart) →
  truthy (disk x !! "setup_stamp"%string) = false →
  folders_free x = true →
  method_body kickstart (log_event (loaded (scaffolded x) kind species) (ECall kickstart))
  = (Raise e, st') →
  FactoryEnv rf x = (Raise e, st').
Proof.
  intros Hkind Hspecies Hk Hstamp Hfree Hbody.
  rewrite (init_reaches_decision x rf kind species Hkind Hspecies Hfree).
  destruct (scaffolded_frame x) as (Hd & _).
  unfold setup_or_refresh. rewrite bind_unfold. cbn [gets loaded self self_timestamp].
  rewrite Hd, Hstamp. cbn [negb orb]. lazy beta iota delta [ret].
  rewrite bind_unfold. lazy beta iota.
  fold (loaded (scaffolded x) kind species).
  rewrite bind_unfold, bind_unfold,
    (attr_str_read "setup_kickstart" kickstart (loaded (scaffolded x) kind species) Hk).
  unfold call_method at 1. rewrite bind_unfold, emit_runs, bind_unfold, Hbody.
  reflexivity.
Qed.

(** X11: a first construction of [virtualenv] or [virtualenv_sandbox] on
    a machine where the check for the [virtualenv] program answers that
    it is missing: the kick-start hook raises before any shell command
    has run, the refresh hook is not called, and the configuration on
    disk is as it was, so the next construction starts over. *)
Theorem missing_virtualenv_aborts_first_run (x : world) (rf : bool) (kind : string) :
  disk x !! "species"%string = Some kind →
  kind = "virtualenv"%string ∨ kind = "virtualenv_sandbox"%string →
  truthy (disk x !! "setup_stamp"%string) = false →
  folders_free x = true →
  is_terminal_command (ext x) "virtualenv" = true →
  ∃ st', FactoryEnv rf x
         = (Raise (Exception_
                     "failed to create a virtual environment: missing virtualenv. "),
            st')
    ∧ trace (w st') = trace (scaffolded x) ++ [ECall ("setup_" +:+ kind)]
    ∧ disk (w st') = disk x.
Proof.
  intros Hkind Hcase Hstamp Hfree Hmissing.
  destruct (scaffolded_frame x) as (Hd & _ & _ & He).
  destruct Hcase as [-> | ->]; eexists; (split; [| split]).
  - eapply (first_run_kickstart_raises x rf "virtualenv" _ "setup_virtualenv");
      try eassumption; try reflexivity.
    change (method_body "setup_virtualenv") with (setup_virtualenv false).
    unfold setup_virtualenv. rewrite bind_unfold. cbn [gets log_event loaded w ext].
    rewrite He, Hmissing. reflexivity.
  - reflexivity.
  - exact Hd.
  - eapply (first_run_kickstart_raises x rf "virtualenv_sandbox" _
              "setup_virtualenv_sandbox"); try eassumption; try reflexivity.
    change (method_body "setup_virtualenv_sandbox") with (setup_virtualenv true).
    unfold setup_virtualenv. rewrite bind_unfold. cbn [gets log_event loaded w ext].
    rewrite He, Hmissing. reflexivity.
  - reflexivity.
  - exact Hd.
Qed.

Lemma missing_virtualenv_aborts_first_run_witness :
  ∃ st', FactoryEnv false Sites.new_virtualenv_no_tool
         = (Raise (Exception_
                     "failed to create a virtual environment: missing virtualenv. "),
            st')
    ∧ trace (w st')
      = trace (scaffolded Sites.new_virtualenv_no_tool)
        ++ [ECall ("setup_" +:+ "virtualenv")]
    ∧ disk (w st') = disk Sites.new_virtualenv_no_tool.
Proof.
  apply missing_virtualenv_aborts_first_run;
    [reflexivity | left; reflexivity | reflexivity | reflexivity | reflexivity].
Defined.

(** X12: a first construction of [anaconda] without a usable installer:
    when the configuration has no [anaconda_location], or an empty one,
    the kick-start hook raises with the instruction to download it; when
    the location does not name a regular file, it raises with the
    absolute path it looked for.  Either way no shell command has run,
    the refresh hook is not called and the configuration on disk is as it
    was. *)
Theorem missing_installer_aborts_first_run (x : world) (rf : bool) :
  disk x !! "species"%string = Some "anaconda"%string →
  truthy (disk x !! "setup_stamp"%string) = false →
  folders_free x = true →
  truthy (disk x !! "anaconda_location"%string) = false
  ∨ match fs x !! abspath (ext x) (default EmptyString
                                     (disk x !! "anaconda_location"%string)) with
    | Some n => is_dir n
    | None => true
    end = true →
  ∃ st', FactoryEnv rf x
         = (Raise (Exception_
                     (if truthy (disk x !! "anaconda_location"%string)
                      then "cannot find "
                           +:+ abspath (ext x)
                                 (default EmptyString
                                    (disk x !! "anaconda_location"%string))
                      else "download anaconda and run `make set anaconda_location <path>`")),
            st')
    ∧ trace (w st') = trace (scaffolded x) ++ [ECall "setup_anaconda"]
    ∧ disk (w st') = disk x.
Proof.
  intros Hkind Hstamp Hfree Hcase.
  destruct (scaffolded_frame x) as (Hd & _ & _ & He).
  assert (Hbody : ∃ st',
            method_body "setup_anaconda"
              (log_event (loaded (scaffolded x) "anaconda" Samples.anaconda_species)
                 (ECall "setup_anaconda"))
            = (Raise (Exception_
                        (if truthy (disk x !! "anaconda_location"%string)
                         then "cannot find "
                              +:+ abspath (ext x)
                                    (default EmptyString
                                       (disk x !! "anaconda_location"%string))
                         else "download anaconda and run `make set anaconda_location <path>`")),
               st')
            ∧ trace (w st') = trace (scaffolded x) ++ [ECall "setup_anaconda"]
            ∧ disk (w st') = disk x);
    [| destruct Hbody as (st' & Hbody & Htrace & Hdisk); exists st';
       split; [| split; assumption];
       apply (first_run_kickstart_raises x rf "anaconda" Samples.anaconda_species
                "setup_anaconda"); solve [assumption | reflexivity] ].
  exists (log_event (loaded (scaffolded x) "anaconda" Samples.anaconda_species)
            (ECall "setup_anaconda")).
  split; [| split; [reflexivity | exact Hd]].
  change (method_body "setup_anaconda") with setup_anaconda.
  unfold setup_anaconda. rewrite bind_unfold. cbn [gets log_event loaded self self_config].
  cbv zeta. rewrite Hd.
  destruct (truthy (disk x !! "anaconda_location"%string)) eqn:Hloc; cbn [negb];
    [| reflexivity].
  destruct Hcase as [Hno | Hnofile]; [discriminate Hno |].
  rewrite bind_unfold. cbn [gets w ext log_event loaded]. rewrite He.
  rewrite bind_unfold. unfold isfile. cbn [gets w fs log_event loaded].
  set (p := abspath (ext x) _) in *.
  assert (Hnot : match fs (scaffolded x) !! p with
                 | Some n => negb (is_dir n)
                 | None => false
                 end = false).
  { destruct (in_dec String.string_dec p required_folders) as [Hin | Hout].
    - destruct (scaffolded_present x p Hin) as (n & -> & [Hsame | Hdir]).
      + rewrite Hsame in Hnofile. rewrite Hnofile. reflexivity.
      + rewrite Hdir. reflexivity.
    - rewrite (scaffolded_other x p Hout). destruct (fs x !! p) as [n |]; [| reflexivity].
      rewrite Hnofile. reflexivity. }
  rewrite Hnot. reflexivity.
Qed.

Lemma missing_installer_aborts_first_run_witness :
  ∃ st', FactoryEnv false Sites.new_anaconda_no_installer
         = (Raise (Exception_
                     (if truthy (disk Sites.new_anaconda_no_installer
                                   !! "anaconda_location"%string)
                      then "cannot find "
                           +:+ abspath (ext Sites.new_anaconda_no_installer)
                                 (default EmptyString
                                    (disk Sites.new_anaconda_no_installer
                                       !! "anaconda_location"%string))
                      else "download anaconda and run `make set anaconda_location <path>`")),
            st')
    ∧ trace (w st')
      = trace (scaffolded Sites.new_anaconda_no_installer) ++ [ECall "setup_anaconda"]
    ∧ disk (w st') = disk Sites.new_anaconda_no_installer.
Proof.
  apply missing_installer_aborts_first_run;
    [reflexivity | reflexivity | reflexivity | right; reflexivity].
Defined.

(** ** Failing commands in the refresh of a virtualenv *)

Lemma pip_loop_stops (src : string) (before after : list string) (fn : string)
    (st : state) :
  dict_get (self_dict (self st)) "source_cmd" = Some (VStr src) →
  forallb (fun f => bash_ok (ext (w st)) (src +:+ " && pip install -r " +:+ f)) before
  = true →
  bash_ok (ext (w st)) (src +:+ " && pip install -r " +:+ fn) = false →
  for_each (before ++ fn :: after)
    (fun fn => src <- attr_str "source_cmd" ;;
               bash (src +:+ " && pip install -r " +:+ fn)
                 (Some ("logs/log-virtualenv-pip-" +:+ basename fn))) st
  = (Raise (CommandError (src +:+ " && pip install -r " +:+ fn)),
     logged st (map (pip_install src) (before ++ [fn]))).
Proof.
  intros Hsrc. revert st Hsrc.
  induction before as [| b before IH]; intros st Hsrc Hbefore Hfail;
    cbn [app for_each map].
  - rewrite bind_unfold, bind_unfold, (attr_str_read _ _ _ Hsrc).
    rewrite (bash_fails _ _ _ Hfail). reflexivity.
  - cbn [forallb] in Hbefore. apply andb_true_iff in Hbefore as [Hb Hrest].
    rewrite bind_unfold, bind_unfold, (attr_str_read _ _ _ Hsrc).
    rewrite (bash_succeeds _ _ _ Hb).
    apply (IH (log_event st (pip_install src b))); assumption.
Qed.

(** X13: the refresh hook of the virtualenv species installs the
    requirement files in the order of the list and stops at the first
    [pip install -r] that fails: the error is that command's, the later
    files are not installed and the upgrade of the documentation
    packages is not run. *)
Theorem pip_refresh_stops_at_first_failure (st : state) (before after : list string)
    (fn src : string) :
  dict_get (self_dict (self st)) "reqs" = Some (VList (before ++ fn :: after)) →
  dict_get (self_dict (self st)) "source_cmd" = Some (VStr src) →
  forallb (fun f => bash_ok (ext (w st)) (src +:+ " && pip install -r " +:+ f)) before
  = true →
  bash_ok (ext (w st)) (src +:+ " && pip install -r " +:+ fn) = false →
  setup_virtualenv_refresh st
  = (Raise (CommandError (src +:+ " && pip install -r " +:+ fn)),
     logged st (map (pip_install src) (before ++ [fn]))).
Proof.
  intros Hreqs Hsrc Hbefore Hfail. unfold setup_virtualenv_refresh.
  rewrite bind_unfold, (attr_list_read _ _ _ Hreqs), bind_unfold.
  rewrite (pip_loop_stops src before after fn st Hsrc Hbefore Hfail). reflexivity.
Qed.

Lemma pip_refresh_stops_at_first_failure_witness :
  setup_virtualenv_refresh
    (loaded Samples.new_virtualenv_pip_fails "virtualenv" Samples.virtualenv_species)
  = (Raise (CommandError ("source env/bin/activate" +:+ " && pip install -r "
                          +:+ "mill/requirements_virtualenv.txt")),
     logged
       (loaded Samples.new_virtualenv_pip_fails "virtualenv" Samples.virtualenv_species)
       (map (pip_install "source env/bin/activate")
          ([] ++ ["mill/requirements_virtualenv.txt"%string]))).
Proof.
  apply (pip_refresh_stops_at_first_failure _ [] []); reflexivity.
Defined.

(** ** The staleness check on other instances *)

(** X14: on an instance none of whose attributes has a name that begins
    with [reqs], the loop of [check_spotchange] is not entered and the
    method ends with [UnboundLocalError] for [fns_changed] instead of
    answering that nothing has changed. *)
Theorem check_without_requirement_lists_raises (st : state) :
  forallb (fun k => negb (String.prefix "reqs" k)) (dict_keys (self_dict (self st)))
  = true →
  check_spotchange st = (Raise (UnboundLocalError "fns_changed"), st).
Proof.
  intros Hnone. unfold check_spotchange. rewrite bind_unfold. cbn [gets].
  assert (Hkeys : List.filter (String.prefix "reqs") (instance_keys (self st)) = []).
  { unfold instance_keys. rewrite List.filter_app. cbn [List.filter].
    change (String.prefix "reqs" "config") with false.
    change (String.prefix "reqs" "timestamp") with false.
    change (String.prefix "reqs" "kind") with false. cbn [app].
    induction (dict_keys (self_dict (self st))) as [| k ks IH]; [reflexivity |].
    cbn [forallb] in Hnone. apply andb_true_iff in Hnone as [Hk Hrest].
    cbn [List.filter]. apply negb_true_iff in Hk. rewrite Hk. apply IH, Hrest. }
  rewrite Hkeys. reflexivity.
Qed.

Lemma check_without_requirement_lists_raises_witness :
  check_spotchange
    (mk_state (mk_instance ∅ (Some "2026100109001790859600"%string) None
                 [("setup_refresh"%string, VStr "setup_virtualenv_refresh")])
       Samples.fresh_virtualenv)
  = (Raise (UnboundLocalError "fns_changed"),
     mk_state (mk_instance ∅ (Some "2026100109001790859600"%string) None
                 [("setup_refresh"%string, VStr "setup_virtualenv_refresh")])
       Samples.fresh_virtualenv).
Proof. apply check_without_requirement_lists_raises. reflexivity. Defined.

(** X15: under wall-clock readings that do not go back between the
    registration and the edit of a file (the calendar minute is ordered
    as the epoch second is), the comparison [check_spotchange] makes for
    a file answers that the file is newer than the stamp exactly when
    its modification second is later than the second of the
    registration; an edit within the second of the registration is not
    seen. *)
Theorem staleness_follows_the_clock (st : state) (fn : string) (n : node)
    (t0 : struct_time) :
  self_timestamp (self st) = Some (strftime_stamp t0) →
  fs (w st) !! fn = Some n →
  wf_time t0 →
  wf_time (mtime n) →
  (tm_epoch t0 < tm_epoch (mtime n) → calendar_minute t0 <= calendar_minute (mtime n)) →
  (tm_epoch (mtime n) <= tm_epoch t0 → calendar_minute (mtime n) <= calendar_minute t0) →
  newer_than_stamp fn st = (Ok (tm_epoch t0 <? tm_epoch (mtime n)), st).
Proof.
  intros Hts Hfn Hwf0 Hwf1 Hlater Hearlier.
  rewrite (newer_than_stamp_runs fn (strftime_stamp t0) (stamp_value t0) n st Hts
             (StampFacts.stamp_number t0 Hwf0) Hfn).
  do 2 f_equal. unfold file_newer.
  rewrite Hfn, (StampFacts.stamp_number t0 Hwf0), (StampFacts.stamp_number _ Hwf1).
  destruct (N.ltb_spec (tm_epoch t0) (tm_epoch (mtime n))) as [Hlt | Hge].
  - apply N.ltb_lt. apply stamp_value_strict; [apply Hlater, Hlt | exact Hlt].
  - apply N.ltb_ge. apply StampFacts.stamp_value_mono; [apply Hearlier, Hge | exact Hge].
Qed.

Lemma staleness_follows_the_clock_witness :
  newer_than_stamp "mill/requirements_virtualenv.txt"
    (loaded Samples.stale_virtualenv "virtualenv" Samples.virtualenv_species)
  = (Ok (tm_epoch Samples.t_oct01 <? tm_epoch (mtime (mk_node false Samples.t_oct20))),
     loaded Samples.stale_virtualenv "virtualenv" Samples.virtualenv_species).
Proof.
  apply (staleness_follows_the_clock
           (loaded Samples.stale_virtualenv "virtualenv" Samples.virtualenv_species)
           "mill/requirements_virtualenv.txt" (mk_node false Samples.t_oct20)
           Samples.t_oct01).
  - reflexivity.
  - reflexivity.
  - vm_compute. repeat split; discriminate.
  - vm_compute. repeat split; discriminate.
  - intros _. vm_compute. discriminate.
  - intros H. vm_compute in H. exfalso. apply H. reflexivity.
Defined.

(** ** What a construction leaves alone *)

(** X16: whatever the directory, the flag and the outcome, a
    construction changes no entry of the configuration on disk other
    than [setup_stamp] and [activate_env]: the species, the location of
    the installer and every other setting are as they were. *)
Theorem other_settings_survive (x : world) (rf : bool) (key : string) :
  key ≠ "setup_stamp"%string →
  key ≠ "activate_env"%string →
  disk (w (snd (FactoryEnv rf x))) !! key = disk x !! key.
Proof.
  intros Hstamp Hactivate.
  destruct (construction_summary x rf) as (r & st' & -> & _ & _ & Hcase). cbn [snd].
  destruct r as [[] | e].
  - destruct Hcase as (a & -> & _).
    rewrite lookup_insert_ne, lookup_insert_ne by congruence. reflexivity.
  - destruct Hcase as [-> _]. reflexivity.
Qed.

Lemma other_settings_survive_witness :
  disk (w (snd (FactoryEnv true Samples.new_anaconda))) !! "anaconda_location"%string
  = disk Samples.new_anaconda !! "anaconda_location"%string.
Proof. apply other_settings_survive; discriminate. Defined.

(** ** A required folder whose name is taken *)



(** ** Registration without a loader *)

(** X18: on an instance that has no [loader_commands], the registration
    stores a stamp of the current time and nothing else: the activation
    command of the configuration, if there is one, is kept. *)
Theorem registration_without_loader_keeps_activation (st : state) :
  dict_get (self_dict (self st)) "loader_commands" = None →
  register_finished st = (Ok tt, registered None st)
  ∧ disk (w (registered None st))
    = <["setup_stamp"%string := strftime_stamp (now (w st))]> (self_config (self st))
  ∧ disk (w (registered None st)) !! "activate_env"%string
    = self_config (self st) !! "activate_env"%string.
Proof.
  intros Hnone. split; [| split].
  - unfold register_finished. rewrite bind_unfold. unfold hasattr. cbn [gets].
    assert (Hmem : mem "loader_commands" (instance_keys (self st)) = false).
    { unfold instance_keys, mem. rewrite existsb_app.
      change (existsb (String.eqb "loader_commands") ["config"; "timestamp"; "kind"]%string)
        with false. cbn [orb].
      apply not_true_is_false. intros Hin.
      apply (mem_dict_keys (self_dict (self st)) "loader_commands") in Hin.
      rewrite Hnone in Hin. destruct Hin as [? Hin]. discriminate Hin. }
    rewrite Hmem.
    change (mem "loader_commands" method_names) with false.
    change (mem "loader_commands" class_data) with false. cbn [orb].
    lazy beta iota delta [ret]. rewrite !bind_unfold. cbn [localtime gets].
    rewrite !bind_unfold. cbn [set_config_item set_self]. lazy beta iota.
    rewrite !bind_unfold. cbn [gets self self_config]. unfold write_config.
    rewrite !bind_unfold. cbn [set_world emit]. destruct st as [[] []]. reflexivity.
  - reflexivity.
  - cbn [registered w disk]. unfold registered_config.
    apply lookup_insert_ne. discriminate.
Qed.

Lemma registration_without_loader_keeps_activation_witness :
  register_finished (mk_state (mk_instance (disk Samples.fresh_virtualenv) None None [])
                       Samples.fresh_virtualenv)
  = (Ok tt, registered None
              (mk_state (mk_instance (disk Samples.fresh_virtualenv) None None [])
                 Samples.fresh_virtualenv))
  ∧ disk (w (registered None
               (mk_state (mk_instance (disk Samples.fresh_virtualenv) None None [])
                  Samples.fresh_virtualenv)))
    = <["setup_stamp"%string := strftime_stamp (now Samples.fresh_virtualenv)]>
        (disk Samples.fresh_virtualenv)
  ∧ disk (w (registered None
               (mk_state (mk_instance (disk Samples.fresh_virtualenv) None None [])
                  Samples.fresh_virtualenv))) !! "activate_env"%string
    = disk Samples.fresh_virtualenv !! "activate_env"%string.
Proof. apply registration_without_loader_keeps_activation. reflexivity. Defined.

(** ** The commands of a first run *)

Lemma shell_commands_app (a b : list event) :
  shell_commands (a ++ b) = shell_commands a ++ shell_commands b.
Proof. unfold shell_commands. apply List.filter_app. Qed.

Lemma scaffolded_commands (x : world) :
  shell_commands (trace (scaffolded x)) = shell_commands (trace x).
Proof.
  destruct (scaffolded_trace x) as (evs & -> & Hevs). rewrite shell_commands_app.
  assert (Hnone : shell_commands evs = []).
  { induction Hevs as [| e evs (fn & -> & _) _ IH]; [reflexivity | exact IH]. }
  rewrite Hnone. apply app_nil_r.
Qed.

Ltac collect_commands Hcmds :=
  rewrite !shell_commands_app, Hcmds;
  unfold shell_commands, virtualenv_create, pip_install, pip_upgrade, conda_install,
    conda_pip_install, anaconda_install, conda_create_py2;
  cbn [List.filter app]; rewrite ?app_nil_r, <- ?app_assoc; reflexivity.

(** X19: the shell commands of a first construction, when all of them
    succeed.  For [virtualenv] and [virtualenv_sandbox]: the creation of
    the environment, which is where the two species differ (by one
    flag), the installation of the requirements file, the upgrade of the
    documentation packages.  For [anaconda]: the installer into [env]
    under the working directory, the creation of the py2 environment
    under the plain activation, then the conda and the pip requirements
    under the py2 activation, both logged under the [conda] prefix. *)
Theorem first_run_commands (x : world) (rf : bool) (kind : string)
    (species : list (string * value)) :
  disk x !! "species"%string = Some kind →
  dict_get meta kind = Some species →
  truthy (disk x !! "setup_stamp"%string) = false →
  folders_free x = true →
  (∀ c, bash_ok (ext x) c = true) →
  is_terminal_command (ext x) "virtualenv" = false →
  is_Some (loader_entry (heap x) species) →
  (kind = "anaconda"%string →
     truthy (disk x !! "anaconda_location"%string) = true
     ∧ match fs x !! abspath (ext x)
                       (default EmptyString (disk x !! "anaconda_location"%string)) with
       | Some n => negb (is_dir n)
       | None => false
       end = true) →
  ∃ st', FactoryEnv rf x = (Ok tt, st')
    ∧ shell_commands (trace (w st'))
      = shell_commands (trace x)
        ++ (if String.eqb kind "anaconda" then
              [anaconda_install
                 (abspath (ext x)
                    (default EmptyString (disk x !! "anaconda_location"%string)))
                 (getcwd (ext x));
               conda_create_py2 "source env/bin/activate";
               conda_install "source env/envs/py2/bin/activate py2"
                 "mill/requirements_anaconda_conda.txt";
               conda_pip_install "source env/envs/py2/bin/activate py2"
                 "mill/requirements_anaconda_pip.txt"]
            else
              [virtualenv_create (String.eqb kind "virtualenv_sandbox");
               pip_install "source env/bin/activate" "mill/requirements_virtualenv.txt";
               pip_upgrade "source env/bin/activate"]).
Proof.
  intros Hkind Hspecies Hstamp Hfree Hbash Hvenv [a Hloader] Hinstaller.
  rewrite (init_reaches_decision x rf kind species Hkind Hspecies Hfree).
  destruct (scaffolded_frame x) as (Hd & Hh & Hn & He).
  pose proof (scaffolded_commands x) as Hcmds.
  assert (Hok : commands_ok (loaded (scaffolded x) kind species)).
  { intros c. cbn [loaded w]. rewrite He. apply Hbash. }
  destruct (meta_species _ _ Hspecies) as (K & Rn & l & Hk & Hr & _).
  unfold setup_or_refresh. rewrite bind_unfold. cbn [gets loaded self self_timestamp].
  rewrite Hd, Hstamp. cbn [negb orb]. lazy beta iota delta [ret].
  rewrite bind_unfold. lazy beta iota.
  fold (loaded (scaffolded x) kind species).
  rewrite bind_unfold, bind_unfold,
    (attr_str_read "setup_kickstart" K (loaded (scaffolded x) kind species) Hk).
  unfold call_method at 1. rewrite bind_unfold, emit_runs, bind_unfold.
  set (m := meta) in Hspecies. vm_compute in m. subst m. cbn [dict_get] in Hspecies.
  destruct (String.eqb_spec "virtualenv" kind) as [<- | _].
  { injection Hspecies as <-. injection Hk as <-. injection Hr as <-.
    change (method_body "setup_virtualenv") with (setup_virtualenv false).
    rewrite setup_virtualenv_runs;
      [| apply (commands_ok_logged _ [_]), Hok
       | cbn [ext w log_event loaded]; rewrite He; exact Hvenv ].
    run_with ltac:(rewrite emit_runs).
    run_with ltac:(erewrite attr_str_read by reflexivity).
    unfold call_method at 1. run_with ltac:(rewrite emit_runs).
    change (method_body "setup_virtualenv_refresh") with setup_virtualenv_refresh.
    run_with ltac:(erewrite setup_virtualenv_refresh_runs;
      [| apply (commands_ok_logged _ [_; _; _; _]), Hok | reflexivity | reflexivity ]).
    run_with ltac:(rewrite emit_runs).
    unfold loader_entry in Hloader. cbn [dict_get String.eqb Ascii.eqb Bool.eqb] in Hloader.
    run_with ltac:(erewrite register_finished_runs;
      [| reflexivity
       | cbn [heap w log_event logged loaded fold_left map app]; rewrite Hh;
         exact Hloader ]).
    run_with ltac:(erewrite attr_str_read by reflexivity).
    run_with ltac:(rewrite (hasattr_method "welcome_message") by reflexivity).
    rewrite welcome_message_runs.
    eexists. split; [reflexivity |].
    cbn [welcomed registered trace w log_event logged fold_left map app loaded].
    collect_commands Hcmds. }
  destruct (String.eqb_spec "anaconda" kind) as [<- | _].
  { injection Hspecies as <-. injection Hk as <-. injection Hr as <-.
    destruct (Hinstaller eq_refl) as (Htruthy & Hfile).
    destruct (disk x !! "anaconda_location"%string) as [location |] eqn:Hloc;
      [| discriminate Htruthy].
    cbn [default from_option id] in *.
    destruct (fs x !! abspath (ext x) location) as [n |] eqn:Hn'; [| discriminate Hfile].
    apply negb_true_iff in Hfile.
    change (method_body "setup_anaconda") with setup_anaconda.
    erewrite (setup_anaconda_runs location "source env/bin/activate" n);
      [| apply (commands_ok_logged _ [_]), Hok
       | cbn [self_config self log_event loaded]; rewrite Hd; exact Hloc
       | exact Htruthy
       | cbn [ext fs w log_event loaded]; rewrite He; apply scaffolded_keeps, Hn'
       | exact Hfile
       | reflexivity
       | reflexivity ].
    run_with ltac:(rewrite emit_runs).
    run_with ltac:(erewrite attr_str_read by reflexivity).
    unfold call_method at 1. run_with ltac:(rewrite emit_runs).
    change (method_body "setup_anaconda_refresh") with setup_anaconda_refresh.
    run_with ltac:(erewrite (setup_anaconda_refresh_runs loader_anaconda);
      [| apply (commands_ok_logged _ [_; _; _; _; _]), Hok
       | reflexivity | reflexivity | reflexivity | reflexivity ]).
    run_with ltac:(rewrite emit_runs).
    run_with ltac:(erewrite (register_finished_runs _ loader_anaconda);
      [| reflexivity
       | cbn [heap w log_event logged py2_state loaded fold_left map app];
         unfold py2_at; rewrite lookup_insert_eq; cbn [mbind option_bind];
         apply lookup_insert_eq ]).
    run_with ltac:(erewrite attr_str_read by reflexivity).
    run_with ltac:(rewrite (hasattr_method "welcome_message") by reflexivity).
    rewrite welcome_message_runs.
    eexists. split; [reflexivity |].
    cbn [welcomed registered trace w log_event logged py2_state fold_left map app loaded
         ext].
    rewrite He. collect_commands Hcmds. }
  destruct (String.eqb_spec "virtualenv_sandbox" kind) as [<- | _]; [| discriminate].
  injection Hspecies as <-. injection Hk as <-. injection Hr as <-.
  change (method_body "setup_virtualenv_sandbox") with (setup_virtualenv true).
  rewrite setup_virtualenv_runs;
    [| apply (commands_ok_logged _ [_]), Hok
     | cbn [ext w log_event loaded]; rewrite He; exact Hvenv ].
  run_with ltac:(rewrite emit_runs).
  run_with ltac:(erewrite attr_str_read by reflexivity).
  unfold call_method at 1. run_with ltac:(rewrite emit_runs).
  change (method_body "setup_virtualenv_refresh") with setup_virtualenv_refresh.
  run_with ltac:(erewrite setup_virtualenv_refresh_runs;
    [| apply (commands_ok_logged _ [_; _; _; _]), Hok | reflexivity | reflexivity ]).
  run_with ltac:(rewrite emit_runs).
  unfold loader_entry in Hloader. cbn [dict_get String.eqb Ascii.eqb Bool.eqb] in Hloader.
  run_with ltac:(erewrite register_finished_runs;
    [| reflexivity
     | cbn [heap w log_event logged loaded fold_left map app]; rewrite Hh;
       exact Hloader ]).
  run_with ltac:(erewrite attr_str_read by reflexivity).
  run_with ltac:(rewrite (hasattr_method "welcome_message") by reflexivity).
  rewrite welcome_message_runs.
  eexists. split; [reflexivity |].
  cbn [welcomed registered trace w log_event logged fold_left map app loaded].
  collect_commands Hcmds.
Qed.

Lemma first_run_commands_witness :
  ∃ st', FactoryEnv false Samples.new_anaconda = (Ok tt, st')
    ∧ shell_commands (trace (w st'))
      = shell_commands (trace Samples.new_anaconda)
        ++ (if String.eqb "anaconda" "anaconda" then
              [anaconda_install
                 (abspath (ext Samples.new_anaconda)
                    (default EmptyString
                       (disk Samples.new_anaconda !! "anaconda_location"%string)))
                 (getcwd (ext Samples.new_anaconda));
               conda_create_py2 "source env/bin/activate";
               conda_install "source env/envs/py2/bin/activate py2"
                 "mill/requirements_anaconda_conda.txt";
               conda_pip_install "source env/envs/py2/bin/activate py2"
                 "mill/requirements_anaconda_pip.txt"]
            else
              [virtualenv_create (String.eqb "anaconda" "virtualenv_sandbox");
               pip_install "source env/bin/activate" "mill/requirements_virtualenv.txt";
               pip_upgrade "source env/bin/activate"]).
Proof.
  apply (first_run_commands Samples.new_anaconda false "anaconda" Samples.anaconda_species);
    try reflexivity.
  - eexists. reflexivity.
  - intros _. split; reflexivity.
Defined.

(** ** [nuke] twice *)

Lemma remove_dirs_no_directory (dns : list string) (f : gmap string node) :
  forallb (fun dn => negb (is_directory f dn)) dns = true → remove_dirs dns f = f.
Proof.
  unfold remove_dirs. induction dns as [| dn dns IH]; [reflexivity |].
  cbn [forallb fold_left]. intros H. apply andb_true_iff in H as [Hdn Hrest].
  apply negb_true_iff in Hdn. rewrite Hdn. apply IH, Hrest.
Qed.

Lemma removed_is_no_directory (dns : list string) (f : gmap string node) (dn : string) :
  In dn dns → is_directory (remove_dirs dns f) dn = false.
Proof.
  intros Hin. unfold is_directory at 1. rewrite remove_dirs_lookup.
  destruct (swept dns f dn) eqn:Hswept; [reflexivity |].
  destruct (f !! dn) as [n |] eqn:Hn; [| reflexivity].
  destruct (is_dir n) eqn:Hdir; [| reflexivity].
  assert (Hyes : swept dns f dn = true); [| congruence].
  unfold swept. apply existsb_exists. exists dn. split; [exact Hin |].
  unfold is_directory, under. rewrite Hn, Hdir, String.eqb_refl. reflexivity.
Qed.

(** X20: a confirmed [nuke] after a confirmed [nuke] changes nothing:
    none of the folders is a directory any more and the configuration
    written is the same. *)
Theorem nuke_twice_is_nuke_once (sure sure' : bool) (answer answer' : string → string)
    (s : site) :
  fst (confirmed sure answer nuke_questions) = true →
  fst (confirmed sure' answer' nuke_questions) = true →
  nuke sure' answer' (nuke sure answer s) = nuke sure answer s.
Proof.
  intros Hc Hc'. rewrite (nuke_confirmed sure' answer' _ Hc').
  rewrite (nuke_confirmed sure answer s Hc). cbn [site_fs]. f_equal.
  apply remove_dirs_no_directory. apply forallb_forall. intros dn Hin.
  apply negb_true_iff, removed_is_no_directory, Hin.
Qed.

Lemma nuke_twice_is_nuke_once_witness :
  nuke false Sites.says_y (nuke true Sites.says_n Sites.provisioned)
  = nuke true Sites.says_n Sites.provisioned.
Proof. apply nuke_twice_is_nuke_once; reflexivity. Defined.
